(** * Ibom Transit Server: fares, ledgers, availability and cancellation

    A shallow embedding of the booking and hiring models
    ([models/Booking.js], [models/Hiring.js]) and of the controller
    handlers that decide reservations ([controllers/bookingController.js],
    [controllers/paymentController.js]) and verify tickets (the ticket
    controller), with the properties the specification states about them
    and further properties the code keeps.

    Conventions of the embedding.
    - A JavaScript [Number] is an exact rational ([Q]); [NaN] and the
      infinities are outside the model.  [Math.round] rounds half up,
      [Math.ceil] is the ceiling.
    - A [Date] is its epoch time in milliseconds ([Z]); [new Date()] is the
      argument [now] of the operation that reads the clock.
    - [crypto.randomBytes(4).toString('hex').toUpperCase()] is the argument
      [rnd] of the operation that draws it.
    - A method that mutates [this] and may [throw] is a computation in the
      monad [M], which threads the document and keeps it on a throw.
    - A Mongo query is a [filter] over the list of stored documents. *)

From Stdlib Require Import QArith Qround ZArith List String Bool Lia Lqa.
From Stdlib Require Import DecimalString DecimalNat.
Import ListNotations.
Open Scope string_scope.
Open Scope list_scope.
Open Scope Z_scope.
Open Scope Q_scope.

Set Implicit Arguments.

(* ===================================================================== *)
(** ** JavaScript numbers and small helpers *)
(* ===================================================================== *)

Module JS.

Definition Qltb (x y : Q) : bool := negb (Qle_bool y x).
Definition Qgtb (x y : Q) : bool := Qltb y x.
Definition Qgeb (x y : Q) : bool := Qle_bool y x.

(** [Math.round]: the nearest integer, halves going up. *)
Definition Math_round (x : Q) : Z := Qfloor (x + (1 # 2)).

Definition Math_ceil (x : Q) : Z := Qceiling x.

(** [Math.round(x * 100) / 100]. *)
Definition round2 (x : Q) : Q := inject_Z (Math_round (x * 100)) / 100.

Definition Math_max (x y : Q) : Q := if Qle_bool x y then y else x.

(** Truthiness of a number: everything but [0]. *)
Definition truthy (x : Q) : bool := negb (Qeq_bool x 0).

(** [x || y] on numbers. *)
Definition or_else (x y : Q) : Q := if truthy x then x else y.

(** A [Set] keeps its elements in insertion order, without repetition. *)
Definition JSSet := list string.

Definition has (s : JSSet) (x : string) : bool :=
  existsb (String.eqb x) s.

Definition add (s : JSSet) (x : string) : JSSet :=
  if has s x then s else s ++ [x].

(** [new Set(l)]. *)
Definition newSet (l : list string) : JSSet := fold_left add l [].

Definition size (s : JSSet) : Z := Z.of_nat (List.length s).

(** [l.includes(x)]. *)
Definition includes (l : list string) (x : string) : bool :=
  existsb (String.eqb x) l.

(** [l.indexOf(x)], with [-1] for an absent element. *)
Fixpoint indexOf (l : list string) (x : string) : Z :=
  match l with
  | [] => -1
  | y :: r =>
      if String.eqb y x then 0%Z
      else let i := indexOf r x in if (i <? 0)%Z then -1 else (i + 1)%Z
  end.

End JS.

(** The state-and-exception monad of a method body: [this] is threaded, a
    [throw] keeps whatever [this] holds at that point. *)
Inductive outcome (A : Type) : Type :=
| Return (a : A)
| Throw (message : string).
Arguments Return {A} a.
Arguments Throw {A} message.

Definition M (S A : Type) : Type := S -> outcome A * S.

Definition ret {S A} (a : A) : M S A := fun s => (Return a, s).
Definition throw {S A} (msg : string) : M S A := fun s => (Throw msg, s).
Definition bind {S A B} (m : M S A) (k : A -> M S B) : M S B :=
  fun s => match m s with
           | (Return a, s') => k a s'
           | (Throw e, s') => (Throw e, s')
           end.
Definition get {S} : M S S := fun s => (Return s, s).
Definition modify {S} (f : S -> S) : M S unit := fun s => (Return tt, f s).

Declare Scope monad_scope.
Delimit Scope monad_scope with monad.
Notation "x <- m ;; k" := (bind m (fun x => k))
  (at level 61, m at next level, right associativity) : monad_scope.
Notation "m ;;; k" := (bind m (fun _ => k))
  (at level 61, right associativity) : monad_scope.

(* ===================================================================== *)
(** ** The Bus and Route documents *)
(* ===================================================================== *)

(** [models/Bus.js] and [models/Route.js] are not part of the sources at
    hand; the records carry the fields the booking and hiring code reads. *)

Module Bus.

Inductive Status := Active | Maintenance | Repair | Retired.

Record Bus := {
  _id : nat;
  busNumber : string;
  capacity : Z;
  status : Status
}.

End Bus.

Module Route.

Record Route := {
  _id : nat;
  baseFare : Q;
  bus : nat
}.

(** The options object handed to [route.calculateFare]. *)
Record FareOptions := {
  isChild : bool;
  isSenior : bool;
  isPeakTime : bool;
  isWeekend : bool;
  isHoliday : bool
}.

End Route.

(* ===================================================================== *)
(** ** models/Booking.js *)
(* ===================================================================== *)

Module Booking.

Inductive BookingType := OneWay | RoundTrip.
Inductive Status :=
  Pending | Confirmed | Cancelled | Completed | NoShow | Refunded.
Inductive PaymentStatus :=
  PayPending | Paid | Failed | PayRefunded | PartiallyPaid | PartiallyRefunded.
Inductive EntryStatus :=
  EntryPending | EntryCompleted | EntryFailed | EntryCancelled | EntryRefunded.
Inductive PassengerType := Adult | Child | Senior.

Definition BookingType_eqb (a b : BookingType) : bool :=
  match a, b with OneWay, OneWay | RoundTrip, RoundTrip => true | _, _ => false end.

Definition Status_eqb (a b : Status) : bool :=
  match a, b with
  | Pending, Pending | Confirmed, Confirmed | Cancelled, Cancelled
  | Completed, Completed | NoShow, NoShow | Refunded, Refunded => true
  | _, _ => false
  end.

Definition PaymentStatus_eqb (a b : PaymentStatus) : bool :=
  match a, b with
  | PayPending, PayPending | Paid, Paid | Failed, Failed
  | PayRefunded, PayRefunded | PartiallyPaid, PartiallyPaid
  | PartiallyRefunded, PartiallyRefunded => true
  | _, _ => false
  end.

Definition EntryStatus_eqb (a b : EntryStatus) : bool :=
  match a, b with
  | EntryPending, EntryPending | EntryCompleted, EntryCompleted
  | EntryFailed, EntryFailed | EntryCancelled, EntryCancelled
  | EntryRefunded, EntryRefunded => true
  | _, _ => false
  end.

Record Passenger := {
  name : string;
  age : Q;
  seatNumber : string;
  passengerType : PassengerType
}.

Record SelectedSeats := {
  outbound : list string;
  return_ : list string
}.

(** An element of [payments]. *)
Record Payment := {
  pay_amount : Q;
  pay_method : string;
  pay_transactionId : string;
  pay_reference : option string;
  pay_gateway : string;
  pay_gatewayResponse : option string;
  pay_status : EntryStatus;
  pay_date : Z;
  pay_processedBy : option nat
}.

(** An element of [refunds]. *)
Record Refund := {
  ref_amount : Q;
  ref_reason : string;
  ref_refundTransactionId : string;
  ref_status : EntryStatus;
  ref_date : Z;
  ref_processedBy : option nat
}.

Record PaymentMetadata := {
  meta_totalPaid : Q;
  meta_totalRefunded : Q;
  lastPaymentDate : option Z;
  lastPaymentMethod : option string;
  paymentCompletedAt : option Z
}.

Record StatusHistoryEntry := {
  sh_status : Status;
  sh_date : Z;
  sh_notes : string;
  sh_updatedBy : nat
}.

(** The document.  The last five fields are the properties the controller
    sets on the document when it updates or cancels it. *)
Record Booking := {
  _id : nat;
  bookingNumber : string;
  bookingType : BookingType;
  status : Status;
  passengers : list Passenger;
  route : nat;
  bus : nat;
  departureDate : Z;
  returnDate : option Z;
  selectedSeats : SelectedSeats;
  totalFare : Q;
  paymentStatus : PaymentStatus;
  payments : list Payment;
  refunds : list Refund;
  paymentMetadata : PaymentMetadata;
  promoCode : option string;
  discountApplied : Q;
  user : nat;
  statusHistory : list StatusHistoryEntry;
  cancellationReason : option string;
  cancelledAt : option Z;
  cancelledBy : option nat;
  refundAmount : option Q
}.

(** Assignments [this.f = v]. *)
Definition set_status (v : Status) (b : Booking) : Booking :=
  {| _id := _id b; bookingNumber := bookingNumber b;
     bookingType := bookingType b; status := v;
     passengers := passengers b; route := route b; bus := bus b;
     departureDate := departureDate b; returnDate := returnDate b;
     selectedSeats := selectedSeats b; totalFare := totalFare b;
     paymentStatus := paymentStatus b; payments := payments b;
     refunds := refunds b; paymentMetadata := paymentMetadata b;
     promoCode := promoCode b; discountApplied := discountApplied b;
     user := user b; statusHistory := statusHistory b;
     cancellationReason := cancellationReason b;
     cancelledAt := cancelledAt b; cancelledBy := cancelledBy b;
     refundAmount := refundAmount b |}.

Definition set_totalFare (v : Q) (b : Booking) : Booking :=
  {| _id := _id b; bookingNumber := bookingNumber b;
     bookingType := bookingType b; status := status b;
     passengers := passengers b; route := route b; bus := bus b;
     departureDate := departureDate b; returnDate := returnDate b;
     selectedSeats := selectedSeats b; totalFare := v;
     paymentStatus := paymentStatus b; payments := payments b;
     refunds := refunds b; paymentMetadata := paymentMetadata b;
     promoCode := promoCode b; discountApplied := discountApplied b;
     user := user b; statusHistory := statusHistory b;
     cancellationReason := cancellationReason b;
     cancelledAt := cancelledAt b; cancelledBy := cancelledBy b;
     refundAmount := refundAmount b |}.

Definition set_paymentStatus (v : PaymentStatus) (b : Booking) : Booking :=
  {| _id := _id b; bookingNumber := bookingNumber b;
     bookingType := bookingType b; status := status b;
     passengers := passengers b; route := route b; bus := bus b;
     departureDate := departureDate b; returnDate := returnDate b;
     selectedSeats := selectedSeats b; totalFare := totalFare b;
     paymentStatus := v; payments := payments b;
     refunds := refunds b; paymentMetadata := paymentMetadata b;
     promoCode := promoCode b; discountApplied := discountApplied b;
     user := user b; statusHistory := statusHistory b;
     cancellationReason := cancellationReason b;
     cancelledAt := cancelledAt b; cancelledBy := cancelledBy b;
     refundAmount := refundAmount b |}.

Definition set_payments (v : list Payment) (b : Booking) : Booking :=
  {| _id := _id b; bookingNumber := bookingNumber b;
     bookingType := bookingType b; status := status b;
     passengers := passengers b; route := route b; bus := bus b;
     departureDate := departureDate b; returnDate := returnDate b;
     selectedSeats := selectedSeats b; totalFare := totalFare b;
     paymentStatus := paymentStatus b; payments := v;
     refunds := refunds b; paymentMetadata := paymentMetadata b;
     promoCode := promoCode b; discountApplied := discountApplied b;
     user := user b; statusHistory := statusHistory b;
     cancellationReason := cancellationReason b;
     cancelledAt := cancelledAt b; cancelledBy := cancelledBy b;
     refundAmount := refundAmount b |}.

Definition set_refunds (v : list Refund) (b : Booking) : Booking :=
  {| _id := _id b; bookingNumber := bookingNumber b;
     bookingType := bookingType b; status := status b;
     passengers := passengers b; route := route b; bus := bus b;
     departureDate := departureDate b; returnDate := returnDate b;
     selectedSeats := selectedSeats b; totalFare := totalFare b;
     paymentStatus := paymentStatus b; payments := payments b;
     refunds := v; paymentMetadata := paymentMetadata b;
     promoCode := promoCode b; discountApplied := discountApplied b;
     user := user b; statusHistory := statusHistory b;
     cancellationReason := cancellationReason b;
     cancelledAt := cancelledAt b; cancelledBy := cancelledBy b;
     refundAmount := refundAmount b |}.

Definition set_paymentMetadata (v : PaymentMetadata) (b : Booking) : Booking :=
  {| _id := _id b; bookingNumber := bookingNumber b;
     bookingType := bookingType b; status := status b;
     passengers := passengers b; route := route b; bus := bus b;
     departureDate := departureDate b; returnDate := returnDate b;
     selectedSeats := selectedSeats b; totalFare := totalFare b;
     paymentStatus := paymentStatus b; payments := payments b;
     refunds := refunds b; paymentMetadata := v;
     promoCode := promoCode b; discountApplied := discountApplied b;
     user := user b; statusHistory := statusHistory b;
     cancellationReason := cancellationReason b;
     cancelledAt := cancelledAt b; cancelledBy := cancelledBy b;
     refundAmount := refundAmount b |}.

Definition set_statusHistory (v : list StatusHistoryEntry) (b : Booking)
  : Booking :=
  {| _id := _id b; bookingNumber := bookingNumber b;
     bookingType := bookingType b; status := status b;
     passengers := passengers b; route := route b; bus := bus b;
     departureDate := departureDate b; returnDate := returnDate b;
     selectedSeats := selectedSeats b; totalFare := totalFare b;
     paymentStatus := paymentStatus b; payments := payments b;
     refunds := refunds b; paymentMetadata := paymentMetadata b;
     promoCode := promoCode b; discountApplied := discountApplied b;
     user := user b; statusHistory := v;
     cancellationReason := cancellationReason b;
     cancelledAt := cancelledAt b; cancelledBy := cancelledBy b;
     refundAmount := refundAmount b |}.

(** The four assignments of a cancellation, made together. *)
Definition set_cancellation (reason : string) (at_ : Z) (by_ : option nat)
    (amount : option Q) (b : Booking) : Booking :=
  {| _id := _id b; bookingNumber := bookingNumber b;
     bookingType := bookingType b; status := status b;
     passengers := passengers b; route := route b; bus := bus b;
     departureDate := departureDate b; returnDate := returnDate b;
     selectedSeats := selectedSeats b; totalFare := totalFare b;
     paymentStatus := paymentStatus b; payments := payments b;
     refunds := refunds b; paymentMetadata := paymentMetadata b;
     promoCode := promoCode b; discountApplied := discountApplied b;
     user := user b; statusHistory := statusHistory b;
     cancellationReason := Some reason;
     cancelledAt := Some at_; cancelledBy := by_;
     refundAmount := amount |}.

(** *** The payment ledger *)

(** [getTotalPaid]: the sum of the amounts of the Completed payments. *)
Definition getTotalPaid (this : Booking) : Q :=
  fold_left (fun total payment => total + pay_amount payment)
    (filter (fun payment => EntryStatus_eqb (pay_status payment) EntryCompleted)
       (payments this))
    0.

(** [getTotalRefunded]: the sum of the amounts of the Completed refunds. *)
Definition getTotalRefunded (this : Booking) : Q :=
  fold_left (fun total refund => total + ref_amount refund)
    (filter (fun refund => EntryStatus_eqb (ref_status refund) EntryCompleted)
       (refunds this))
    0.

(** [updatePaymentStatus]: the five-branch chain, then the promotion of a
    Pending booking that is Paid. *)
Definition updatePaymentStatus (this : Booking) : Booking :=
  let totalPaid := getTotalPaid this in
  let totalFare := JS.or_else (totalFare this) 0 in
  let totalRefunded := getTotalRefunded this in
  let this :=
    if JS.Qgeb totalPaid totalFare && Qeq_bool totalRefunded 0 then
      set_paymentStatus Paid this
    else if JS.Qgtb totalPaid 0 && JS.Qltb totalPaid totalFare then
      set_paymentStatus PartiallyPaid this
    else if JS.Qgtb totalRefunded 0 && JS.Qltb totalRefunded totalPaid then
      set_paymentStatus PartiallyRefunded this
    else if JS.Qgeb totalRefunded totalPaid && JS.Qgtb totalPaid 0 then
      set_paymentStatus PayRefunded this
    else if Qeq_bool totalPaid 0 then
      set_paymentStatus PayPending this
    else this in
  if PaymentStatus_eqb (paymentStatus this) Paid
     && Status_eqb (status this) Pending
  then set_status Confirmed this
  else this.

(** [l.sort((a, b) => new Date(b.date) - new Date(a.date))]: a stable sort,
    latest first. *)
Fixpoint insert_by_date (x : Payment) (l : list Payment) : list Payment :=
  match l with
  | [] => [x]
  | y :: r =>
      if (pay_date y - pay_date x <=? 0)%Z then x :: y :: r
      else y :: insert_by_date x r
  end.

Definition sort_latest_first (l : list Payment) : list Payment :=
  fold_right insert_by_date [] l.

Definition updatePaymentMetadata (now : Z) (this : Booking) : Booking :=
  let m := paymentMetadata this in
  let lastPayment :=
    hd_error
      (sort_latest_first
         (filter (fun p => EntryStatus_eqb (pay_status p) EntryCompleted)
            (payments this))) in
  let completed :=
    if PaymentStatus_eqb (paymentStatus this) Paid then
      match paymentCompletedAt m with
      | Some t => Some t
      | None => Some now
      end
    else paymentCompletedAt m in
  set_paymentMetadata
    {| meta_totalPaid := getTotalPaid this;
       meta_totalRefunded := getTotalRefunded this;
       lastPaymentDate :=
         match lastPayment with
         | Some p => Some (pay_date p)
         | None => lastPaymentDate m
         end;
       lastPaymentMethod :=
         match lastPayment with
         | Some p => Some (pay_method p)
         | None => lastPaymentMethod m
         end;
       paymentCompletedAt := completed |}
    this.

(** The argument of [addPayment]. *)
Record PaymentData := {
  pd_amount : Q;
  pd_transactionId : string;
  pd_reference : option string;
  pd_method : option string;
  pd_gateway : option string;
  pd_gatewayResponse : option string;
  pd_processedBy : option nat
}.

Definition default (d : string) (o : option string) : string :=
  match o with Some s => s | None => d end.

(** [addPayment]; [parseFloat] of a number is that number. *)
Definition addPayment (now : Z) (paymentData : PaymentData)
  : M Booking Payment :=
  (this <- get ;;
   let existingPayment :=
     find (fun p => String.eqb (pay_transactionId p)
                      (pd_transactionId paymentData))
          (payments this) in
   match existingPayment with
   | Some _ => throw "Payment with this transaction ID already exists"
   | None =>
       let payment :=
         {| pay_amount := pd_amount paymentData;
            pay_method := default "Paystack" (pd_method paymentData);
            pay_transactionId := pd_transactionId paymentData;
            pay_reference := pd_reference paymentData;
            pay_gateway := default "Paystack" (pd_gateway paymentData);
            pay_gatewayResponse := pd_gatewayResponse paymentData;
            pay_status := EntryCompleted;
            pay_date := now;
            pay_processedBy := pd_processedBy paymentData |} in
       modify (fun this => set_payments (payments this ++ [payment]) this) ;;;
       modify updatePaymentStatus ;;;
       modify (updatePaymentMetadata now) ;;;
       ret payment
   end)%monad.

(** The argument of [addRefund]. *)
Record RefundData := {
  rd_amount : Q;
  rd_reason : string;
  rd_refundTransactionId : option string;
  rd_processedBy : option nat
}.

(** [addRefund]. *)
Definition addRefund (now : Z) (rnd : string) (refundData : RefundData)
  : M Booking Refund :=
  (let generated := ("REF-" ++ rnd)%string in
   let refund :=
     {| ref_amount := rd_amount refundData;
        ref_reason := rd_reason refundData;
        ref_refundTransactionId :=
          match rd_refundTransactionId refundData with
          | Some s => if String.eqb s "" then generated else s
          | None => generated
          end;
        ref_status := EntryCompleted;
        ref_date := now;
        ref_processedBy := rd_processedBy refundData |} in
   modify (fun this => set_refunds (refunds this ++ [refund]) this) ;;;
   modify updatePaymentStatus ;;;
   modify (updatePaymentMetadata now) ;;;
   ret refund)%monad.

(** [validatePaymentAmount]; the second message is the source's without
    the two interpolated numbers. *)
Definition validatePaymentAmount (amount : Q) : M Booking bool :=
  (this <- get ;;
   let totalPaid := getTotalPaid this in
   let remainingAmount := totalFare this - totalPaid in
   if Qle_bool amount 0 then
     throw "Payment amount must be greater than zero"
   else if JS.Qgtb amount remainingAmount then
     throw "Payment amount exceeds remaining balance"
   else ret true)%monad.

(** *** Cancellation *)

Record CancellationResult := {
  success : bool;
  res_refundAmount : Q;
  res_refundPercentage : Q;
  res_refundTransactionId : option string;
  res_message : option string
}.

(** [(departureDate - now) / (1000 * 60 * 60)]. *)
Definition hoursToDeparture (now : Z) (this : Booking) : Q :=
  inject_Z (departureDate this - now) / inject_Z (1000 * 60 * 60).

(** The tier chain of [handleCancellation]. *)
Definition refundPercentage (hoursToDeparture : Q) : Q :=
  if JS.Qgtb hoursToDeparture 72 then 1
  else if JS.Qgtb hoursToDeparture 48 then 3 # 4
  else if JS.Qgtb hoursToDeparture 24 then 1 # 2
  else if JS.Qgtb hoursToDeparture 12 then 1 # 4
  else 0.

Definition handleCancellation (now : Z) (rnd : string) (reason : string)
  : M Booking CancellationResult :=
  (this <- get ;;
   let hoursToDeparture := hoursToDeparture now this in
   let refundPercentage := refundPercentage hoursToDeparture in
   let totalPaid := getTotalPaid this in
   let refundAmount :=
     inject_Z (JS.Math_round (totalPaid * refundPercentage * 100)) / 100 in
   if JS.Qgtb refundAmount 0 then
     refund <- addRefund now rnd
                 {| rd_amount := refundAmount;
                    rd_reason := ("Cancellation: " ++ reason)%string;
                    rd_refundTransactionId := Some ("REF-" ++ rnd)%string;
                    rd_processedBy := None |} ;;
     ret {| success := true;
            res_refundAmount := refundAmount;
            res_refundPercentage := refundPercentage;
            res_refundTransactionId := Some (ref_refundTransactionId refund);
            res_message := None |}
   else
     ret {| success := true;
            res_refundAmount := 0;
            res_refundPercentage := 0;
            res_refundTransactionId := None;
            res_message :=
              Some "No refund applicable due to cancellation policy" |})%monad.

(** *** Status changes *)

Record StatusChange := {
  sc_success : bool;
  oldStatus : Status;
  newStatus : Status
}.

Definition validStatuses : list Status :=
  [Pending; Confirmed; Cancelled; Completed; NoShow; Refunded].

(** [updateStatus]; [save] is the caller's store of the returned document. *)
Definition updateStatus (now : Z) (rnd : string) (newStatus : Status)
    (reason : string) : M Booking StatusChange :=
  (if negb (existsb (Status_eqb newStatus) validStatuses) then
     throw "Invalid status"
   else
     this <- get ;;
     let oldStatus := status this in
     modify (set_status newStatus) ;;;
     (if Status_eqb newStatus Cancelled || Status_eqb newStatus Refunded
      then _ <- handleCancellation now rnd reason ;; ret tt
      else ret tt) ;;;
     ret {| sc_success := true; oldStatus := oldStatus;
            newStatus := newStatus |})%monad.

(** *** Fares *)

Section Fare.

(** The offset of local time from UTC, in milliseconds: [getHours] and
    [getDay] read the local clock. *)
Variable timezoneOffset : Z.

(** [Route.findById] and [route.calculateFare], from the Route model. *)
Variable findRoute : nat -> option Route.Route.
Variable calculateFare : Route.Route -> Route.FareOptions -> Q.

Definition getHours (d : Z) : Z :=
  ((d + timezoneOffset) / 3600000) mod 24.

(** The first day of the epoch was a Thursday. *)
Definition getDay (d : Z) : Z :=
  ((d + timezoneOffset) / 86400000 + 4) mod 7.

Definition _isPeakTime (this : Booking) : bool :=
  let departureHour := getHours (departureDate this) in
  ((7 <=? departureHour)%Z && (departureHour <=? 9)%Z)
  || ((16 <=? departureHour)%Z && (departureHour <=? 19)%Z).

Definition _isWeekend (this : Booking) : bool :=
  let day := getDay (departureDate this) in
  (day =? 0)%Z || (day =? 6)%Z.

(** The loop over the passengers: [totalFare += passengerFare]. *)
Definition passengersFare (this : Booking) (route : Route.Route) : Q :=
  fold_left
    (fun totalFare passenger =>
       let options :=
         {| Route.isChild :=
              match passengerType passenger with Child => true | _ => false end;
            Route.isSenior :=
              match passengerType passenger with Senior => true | _ => false end;
            Route.isPeakTime := _isPeakTime this;
            Route.isWeekend := _isWeekend this;
            Route.isHoliday := false |} in
       let passengerFare := calculateFare route options in
       totalFare + passengerFare)
    (passengers this) 0.

(** The total before the final rounding: doubled for a round trip, then
    discounted. *)
Definition unroundedFare (this : Booking) (route : Route.Route) : Q :=
  let totalFare := passengersFare this route in
  let totalFare :=
    if BookingType_eqb (bookingType this) RoundTrip then totalFare * 2
    else totalFare in
  let totalFare :=
    if JS.truthy (discountApplied this)
    then totalFare * (1 - discountApplied this)
    else totalFare in
  totalFare.

Definition calculateTotalFare : M Booking Q :=
  (this <- get ;;
   match findRoute (route this) with
   | None => throw "Route not found"
   | Some route =>
       let totalFare := unroundedFare this route in
       let rounded := inject_Z (JS.Math_round (totalFare * 100)) / 100 in
       modify (set_totalFare rounded) ;;;
       ret rounded
   end)%monad.

End Fare.

(** *** Seats, as the model checks them *)

Record SeatAvailability := {
  isAvailable : bool;
  conflictingSeats : list string;
  returnConflictingSeats : list string
}.

Section Seats.

Variable timezoneOffset : Z.
(** The stored bookings. *)
Variable Bookings : list Booking.

(** [new Date(d).setHours(0, 0, 0, 0)] and [setHours(23, 59, 59, 999)]. *)
Definition startOfDay (d : Z) : Z := d - (d + timezoneOffset) mod 86400000.
Definition endOfDay (d : Z) : Z := startOfDay d + 86399999.

(** The other active bookings of the route and bus that leave on the day
    of [day]. *)
Definition bookingsOfDay (this : Booking) (day : Z) : list Booking :=
  filter
    (fun b =>
       Nat.eqb (route b) (route this)
       && Nat.eqb (bus b) (bus this)
       && (startOfDay day <=? departureDate b)%Z
       && (departureDate b <? endOfDay day)%Z
       && existsb (Status_eqb (status b)) [Confirmed; Pending]
       && negb (Nat.eqb (_id b) (_id this)))
    Bookings.

Definition seatsBooked (bookings : list Booking) : JS.JSSet :=
  fold_left
    (fun s booking =>
       fold_left (fun s passenger => JS.add s (seatNumber passenger))
         (passengers booking) s)
    bookings [].

Definition checkSeatAvailability (this : Booking) : SeatAvailability :=
  let bookings := bookingsOfDay this (departureDate this) in
  let bookedSeats := seatsBooked bookings in
  let conflictingSeats :=
    filter (JS.has bookedSeats) (map seatNumber (passengers this)) in
  let returnConflictingSeats :=
    match bookingType this, returnDate this with
    | RoundTrip, Some returnDate =>
        let returnBookings := bookingsOfDay this returnDate in
        let returnBookedSeats := seatsBooked returnBookings in
        filter (JS.has returnBookedSeats) (return_ (selectedSeats this))
    | _, _ => []
    end in
  {| isAvailable :=
       Nat.eqb (List.length conflictingSeats) 0
       && Nat.eqb (List.length returnConflictingSeats) 0;
     conflictingSeats := conflictingSeats;
     returnConflictingSeats := returnConflictingSeats |}.

End Seats.

End Booking.

(* ===================================================================== *)
(** ** models/Hiring.js *)
(* ===================================================================== *)

Module Hiring.

Inductive TripType := OneWay | RoundTrip.
Inductive Status :=
  Pending | Approved | Confirmed | Cancelled | Rejected | InProgress
| Completed | Refunded.
Inductive PaymentStatus :=
  PayPending | PartiallyPaid | Paid | PayRefunded | PartiallyRefunded.
Inductive EntryStatus :=
  EntryPending | EntryCompleted | EntryFailed | EntryRefunded.
Inductive RateType := PerDay | PerHour | PerKilometer | Fixed | RouteBased.

Definition Status_eqb (a b : Status) : bool :=
  match a, b with
  | Pending, Pending | Approved, Approved | Confirmed, Confirmed
  | Cancelled, Cancelled | Rejected, Rejected | InProgress, InProgress
  | Completed, Completed | Refunded, Refunded => true
  | _, _ => false
  end.

Definition PaymentStatus_eqb (a b : PaymentStatus) : bool :=
  match a, b with
  | PayPending, PayPending | PartiallyPaid, PartiallyPaid | Paid, Paid
  | PayRefunded, PayRefunded | PartiallyRefunded, PartiallyRefunded => true
  | _, _ => false
  end.

Definition EntryStatus_eqb (a b : EntryStatus) : bool :=
  match a, b with
  | EntryPending, EntryPending | EntryCompleted, EntryCompleted
  | EntryFailed, EntryFailed | EntryRefunded, EntryRefunded => true
  | _, _ => false
  end.

Record Charge := {
  description : string;
  charge_amount : Q
}.

(** An element of [payments]; a refund is an entry with a negative amount. *)
Record Payment := {
  amount : Q;
  date : Z;
  method : string;
  transactionId : string;
  pay_status : EntryStatus
}.

Record Hiring := {
  _id : nat;
  hiringNumber : string;
  status : Status;
  route : option nat;
  startDate : Z;
  endDate : Z;
  tripType : TripType;
  returnDate : option Z;
  estimatedDistance : Q;
  baseRate : Q;
  rateType : RateType;
  routePriceMultiplier : Q;
  additionalCharges : list Charge;
  driverAllowance : Q;
  overtimeRate : Q;
  totalCost : Q;
  deposit : Q;
  paymentStatus : PaymentStatus;
  payments : list Payment;
  bus : nat;
  notes : option string;
  cancellationPolicy : string
}.

Definition set_status (v : Status) (h : Hiring) : Hiring :=
  {| _id := _id h; hiringNumber := hiringNumber h; status := v;
     route := route h; startDate := startDate h; endDate := endDate h;
     tripType := tripType h; returnDate := returnDate h;
     estimatedDistance := estimatedDistance h; baseRate := baseRate h;
     rateType := rateType h;
     routePriceMultiplier := routePriceMultiplier h;
     additionalCharges := additionalCharges h;
     driverAllowance := driverAllowance h; overtimeRate := overtimeRate h;
     totalCost := totalCost h; deposit := deposit h;
     paymentStatus := paymentStatus h; payments := payments h;
     bus := bus h; notes := notes h;
     cancellationPolicy := cancellationPolicy h |}.

Definition set_totalCost (v : Q) (h : Hiring) : Hiring :=
  {| _id := _id h; hiringNumber := hiringNumber h; status := status h;
     route := route h; startDate := startDate h; endDate := endDate h;
     tripType := tripType h; returnDate := returnDate h;
     estimatedDistance := estimatedDistance h; baseRate := baseRate h;
     rateType := rateType h;
     routePriceMultiplier := routePriceMultiplier h;
     additionalCharges := additionalCharges h;
     driverAllowance := driverAllowance h; overtimeRate := overtimeRate h;
     totalCost := v; deposit := deposit h;
     paymentStatus := paymentStatus h; payments := payments h;
     bus := bus h; notes := notes h;
     cancellationPolicy := cancellationPolicy h |}.

Definition set_paymentStatus (v : PaymentStatus) (h : Hiring) : Hiring :=
  {| _id := _id h; hiringNumber := hiringNumber h; status := status h;
     route := route h; startDate := startDate h; endDate := endDate h;
     tripType := tripType h; returnDate := returnDate h;
     estimatedDistance := estimatedDistance h; baseRate := baseRate h;
     rateType := rateType h;
     routePriceMultiplier := routePriceMultiplier h;
     additionalCharges := additionalCharges h;
     driverAllowance := driverAllowance h; overtimeRate := overtimeRate h;
     totalCost := totalCost h; deposit := deposit h;
     paymentStatus := v; payments := payments h;
     bus := bus h; notes := notes h;
     cancellationPolicy := cancellationPolicy h |}.

Definition set_payments (v : list Payment) (h : Hiring) : Hiring :=
  {| _id := _id h; hiringNumber := hiringNumber h; status := status h;
     route := route h; startDate := startDate h; endDate := endDate h;
     tripType := tripType h; returnDate := returnDate h;
     estimatedDistance := estimatedDistance h; baseRate := baseRate h;
     rateType := rateType h;
     routePriceMultiplier := routePriceMultiplier h;
     additionalCharges := additionalCharges h;
     driverAllowance := driverAllowance h; overtimeRate := overtimeRate h;
     totalCost := totalCost h; deposit := deposit h;
     paymentStatus := paymentStatus h; payments := v;
     bus := bus h; notes := notes h;
     cancellationPolicy := cancellationPolicy h |}.

Definition set_notes (v : option string) (h : Hiring) : Hiring :=
  {| _id := _id h; hiringNumber := hiringNumber h; status := status h;
     route := route h; startDate := startDate h; endDate := endDate h;
     tripType := tripType h; returnDate := returnDate h;
     estimatedDistance := estimatedDistance h; baseRate := baseRate h;
     rateType := rateType h;
     routePriceMultiplier := routePriceMultiplier h;
     additionalCharges := additionalCharges h;
     driverAllowance := driverAllowance h; overtimeRate := overtimeRate h;
     totalCost := totalCost h; deposit := deposit h;
     paymentStatus := paymentStatus h; payments := payments h;
     bus := bus h; notes := v;
     cancellationPolicy := cancellationPolicy h |}.

(** *** The cost of a hiring *)

Section Cost.

(** [Route.findById] and [Bus.findById]. *)
Variable findRoute : nat -> option Route.Route.
Variable findBus : nat -> option Bus.Bus.

Definition durationInHours (this : Hiring) : Q :=
  inject_Z (endDate this - startDate this) / inject_Z (1000 * 60 * 60).

Definition durationInDays (this : Hiring) : Q :=
  durationInHours this / 24.

(** The [switch] on the rate type: the cost before allowance, overtime
    and additional charges.  [RateType] is the schema's enum, so the
    [default] case of the source has no counterpart. *)
Definition baseCost (this : Hiring) : outcome Q :=
  match rateType this with
  | PerDay =>
      Return (baseRate this * inject_Z (JS.Math_ceil (durationInDays this)))
  | PerHour =>
      Return (baseRate this * inject_Z (JS.Math_ceil (durationInHours this)))
  | PerKilometer => Return (baseRate this * estimatedDistance this)
  | Fixed => Return (baseRate this)
  | RouteBased =>
      match route this with
      | Some routeId =>
          match findRoute routeId, findBus (bus this) with
          | Some route, Some bus =>
              let baseFareAmount :=
                JS.or_else (baseRate this) (Route.baseFare route) in
              Return (baseFareAmount * inject_Z (Bus.capacity bus)
                      * JS.or_else (routePriceMultiplier this) 1)
          | _, _ => Throw "Route or Bus not found for route-based pricing"
          end
      | None => Throw "Route is required for route-based pricing"
      end
  end.

(** What follows the [switch]: allowance, overtime, additional charges,
    then the doubling of a round trip. *)
Definition withExtras (this : Hiring) (totalCost : Q) : Q :=
  let totalCost :=
    if JS.Qgtb (driverAllowance this) 0
    then totalCost + driverAllowance this
    else totalCost in
  let standardHoursPerDay := 8 in
  let totalStandardHours :=
    inject_Z (JS.Math_ceil (durationInDays this)) * standardHoursPerDay in
  let totalCost :=
    if JS.Qgtb (durationInHours this) totalStandardHours
       && JS.Qgtb (overtimeRate this) 0
    then
      let overtimeHours := durationInHours this - totalStandardHours in
      totalCost + overtimeHours * overtimeRate this
    else totalCost in
  let totalCost :=
    fold_left (fun totalCost charge => totalCost + charge_amount charge)
      (additionalCharges this) totalCost in
  let totalCost :=
    match tripType this with
    | RoundTrip => totalCost * 2
    | OneWay => totalCost
    end in
  totalCost.

Definition calculateTotalCost : M Hiring Q :=
  (this <- get ;;
   match baseCost this with
   | Throw e => throw e
   | Return totalCost =>
       let totalCost := withExtras this totalCost in
       let rounded := inject_Z (JS.Math_round (totalCost * 100)) / 100 in
       modify (set_totalCost rounded) ;;;
       ret rounded
   end)%monad.

End Cost.

(** *** The ledger of a hiring *)

(** The virtual [totalPaid]: the sum of the Completed entries. *)
Definition totalPaid (this : Hiring) : Q :=
  fold_left
    (fun sum payment =>
       if EntryStatus_eqb (pay_status payment) EntryCompleted
       then sum + amount payment
       else sum)
    (payments this) 0.

(** The virtual [remainingBalance]. *)
Definition remainingBalance (this : Hiring) : Q :=
  let totalPaid := totalPaid this in
  JS.Math_max 0 (totalCost this - totalPaid).

Record PaymentData := {
  pd_amount : Q;
  pd_method : option string;
  pd_transactionId : option string
}.

Record PaymentResult := {
  pr_success : bool;
  pr_payment : Payment;
  pr_paymentStatus : PaymentStatus;
  pr_hiringStatus : Status
}.

(** [x || d] on strings: the empty string is falsy. *)
Definition or_string (x : option string) (d : string) : string :=
  match x with
  | Some s => if String.eqb s "" then d else s
  | None => d
  end.

Definition processPayment (now : Z) (rnd : string) (paymentData : PaymentData)
  : M Hiring PaymentResult :=
  (let amount := pd_amount paymentData in
   if negb (JS.truthy amount) || Qle_bool amount 0 then
     throw "Invalid payment amount"
   else
     let payment :=
       {| amount := amount;
          date := now;
          method := or_string (pd_method paymentData) "Other";
          transactionId :=
            or_string (pd_transactionId paymentData) ("PAY-" ++ rnd)%string;
          pay_status := EntryCompleted |} in
     modify (fun this => set_payments (payments this ++ [payment]) this) ;;;
     this <- get ;;
     let totalPaid := totalPaid this in
     modify (fun this =>
               if JS.Qgeb totalPaid (totalCost this) then
                 set_paymentStatus Paid this
               else if JS.Qgtb totalPaid 0 then
                 set_paymentStatus PartiallyPaid this
               else set_paymentStatus PayPending this) ;;;
     modify (fun this =>
               if JS.Qgeb totalPaid (deposit this)
                  && Status_eqb (status this) Pending
               then set_status Confirmed this
               else this) ;;;
     this <- get ;;
     ret {| pr_success := true; pr_payment := payment;
            pr_paymentStatus := paymentStatus this;
            pr_hiringStatus := status this |})%monad.

(** *** Cancellation of a hiring *)

Definition daysToDeparture (now : Z) (this : Hiring) : Q :=
  inject_Z (startDate this - now) / inject_Z (1000 * 60 * 60 * 24).

Definition refundPercentage (policy : string) (daysToDeparture : Q) : Q :=
  if String.eqb policy "Standard" then
    if JS.Qgtb daysToDeparture 14 then 9 # 10
    else if JS.Qgtb daysToDeparture 7 then 3 # 4
    else if JS.Qgtb daysToDeparture 3 then 1 # 2
    else if JS.Qgtb daysToDeparture 1 then 1 # 4
    else 0
  else if String.eqb policy "Flexible" then
    if JS.Qgtb daysToDeparture 7 then 1
    else if JS.Qgtb daysToDeparture 3 then 4 # 5
    else if JS.Qgtb daysToDeparture 1 then 1 # 2
    else 0
  else if String.eqb policy "Strict" then
    if JS.Qgtb daysToDeparture 30 then 3 # 4
    else if JS.Qgtb daysToDeparture 14 then 1 # 2
    else if JS.Qgtb daysToDeparture 7 then 1 # 4
    else 0
  else 0.

Record CancellationResult := {
  success : bool;
  res_refundAmount : Q;
  res_refundPercentage : Q
}.

Definition newline : string := String (Ascii.ascii_of_nat 10) "".

(** [handleCancellation]; [iso] is [new Date().toISOString()]. *)
Definition handleCancellation (now : Z) (iso : string) (rnd : string)
    (reason : string) : M Hiring CancellationResult :=
  (this <- get ;;
   let refundPercentage :=
     refundPercentage (cancellationPolicy this) (daysToDeparture now this) in
   let totalPaid :=
     fold_left
       (fun sum payment =>
          if EntryStatus_eqb (pay_status payment) EntryCompleted
          then sum + amount payment
          else sum)
       (payments this) 0 in
   let refundAmount :=
     inject_Z (JS.Math_round (totalPaid * refundPercentage * 100)) / 100 in
   (if JS.Qgtb refundAmount 0 then
      modify (fun this =>
                set_payments
                  (payments this ++
                     [{| amount := - refundAmount;
                         date := now;
                         method := "Refund";
                         pay_status := EntryCompleted;
                         transactionId := ("REF-" ++ rnd)%string |}])
                  this) ;;;
      modify (if JS.Qgeb refundAmount totalPaid
              then set_paymentStatus PayRefunded
              else set_paymentStatus PartiallyRefunded)
    else ret tt) ;;;
   let line :=
     ("Cancellation: " ++ (if String.eqb reason "" then "No reason provided"
                           else reason) ++ " (" ++ iso ++ ")")%string in
   modify (fun this =>
             set_notes
               (match notes this with
                | Some n =>
                    if String.eqb n "" then Some line
                    else Some (n ++ newline ++ newline ++ line)%string
                | None => Some line
                end) this) ;;;
   ret {| success := true;
          res_refundAmount := refundAmount;
          res_refundPercentage := refundPercentage |})%monad.

(** *** Availability of the bus *)

Record BusInfo := {
  info_id : nat;
  info_busNumber : string;
  info_capacity : Z
}.

Record Availability := {
  available : bool;
  reason : option string;
  conflictingBookings : list string;
  conflictingHirings : list string;
  av_bus : option BusInfo
}.

Definition busStatusName (s : Bus.Status) : string :=
  match s with
  | Bus.Active => "active"
  | Bus.Maintenance => "maintenance"
  | Bus.Repair => "repair"
  | Bus.Retired => "retired"
  end.

(** [{ $gte: lo, $lte: hi }] on a date. *)
Definition between (lo hi d : Z) : bool := (lo <=? d)%Z && (d <=? hi)%Z.

(** The same on a field that may be missing. *)
Definition between_opt (lo hi : Z) (d : option Z) : bool :=
  match d with Some d => between lo hi d | None => false end.

(** The query for conflicting bookings. *)
Definition bookingConflicts (this : Hiring) (b : Booking.Booking) : bool :=
  Nat.eqb (Booking.bus b) (bus this)
  && (between (startDate this) (endDate this) (Booking.departureDate b)
      || between_opt (startDate this) (endDate this) (Booking.returnDate b))
  && existsb (Booking.Status_eqb (Booking.status b))
       [Booking.Confirmed; Booking.Pending].

(** The query for conflicting hirings. *)
Definition hiringConflicts (this : Hiring) (h : Hiring) : bool :=
  Nat.eqb (bus h) (bus this)
  && negb (Nat.eqb (_id h) (_id this))
  && (((startDate h <=? endDate this)%Z && (startDate this <=? startDate h)%Z)
      || ((endDate h <=? endDate this)%Z && (startDate this <=? endDate h)%Z))
  && existsb (Status_eqb (status h)) [Confirmed; Pending; InProgress].

Section Availability.

Variable findBus : nat -> option Bus.Bus.
(** The stored bookings and hirings. *)
Variable Bookings : list Booking.Booking.
Variable Hirings : list Hiring.

Definition checkBusAvailability (this : Hiring) : Availability :=
  match findBus (bus this) with
  | None =>
      {| available := false; reason := Some "Bus not found";
         conflictingBookings := []; conflictingHirings := [];
         av_bus := None |}
  | Some bus =>
      match Bus.status bus with
      | Bus.Active =>
          let bookings := filter (bookingConflicts this) Bookings in
          if (0 <? Z.of_nat (List.length bookings))%Z then
            {| available := false;
               reason :=
                 Some "Bus is already booked during requested period";
               conflictingBookings := map Booking.bookingNumber bookings;
               conflictingHirings := [];
               av_bus := None |}
          else
            let hirings := filter (hiringConflicts this) Hirings in
            if (0 <? Z.of_nat (List.length hirings))%Z then
              {| available := false;
                 reason :=
                   Some "Bus is already hired during requested period";
                 conflictingBookings := [];
                 conflictingHirings := map hiringNumber hirings;
                 av_bus := None |}
            else
              {| available := true; reason := None;
                 conflictingBookings := []; conflictingHirings := [];
                 av_bus :=
                   Some {| info_id := Bus._id bus;
                           info_busNumber := Bus.busNumber bus;
                           info_capacity := Bus.capacity bus |} |}
      | s =>
          {| available := false;
             reason := Some ("Bus is " ++ busStatusName s)%string;
             conflictingBookings := []; conflictingHirings := [];
             av_bus := None |}
      end
  end.

End Availability.

(** *** Status changes and durations *)

Record StatusChange := {
  sc_success : bool;
  oldStatus : Status;
  newStatus : Status
}.

Definition validStatuses : list Status :=
  [Pending; Confirmed; Cancelled; InProgress; Completed; Refunded].

(** The text of a status. *)
Definition statusName (s : Status) : string :=
  match s with
  | Pending => "Pending"
  | Approved => "Approved"
  | Confirmed => "Confirmed"
  | Cancelled => "Cancelled"
  | Rejected => "Rejected"
  | InProgress => "In Progress"
  | Completed => "Completed"
  | Refunded => "Refunded"
  end.

(** [updateStatus]; [save] is the caller's store of the returned document. *)
Definition updateStatus (now : Z) (iso rnd : string) (newStatus : Status)
    (reason : string) : M Hiring StatusChange :=
  (if negb (existsb (Status_eqb newStatus) validStatuses) then
     throw ("Invalid status: " ++ statusName newStatus)%string
   else
     this <- get ;;
     let oldStatus := status this in
     modify (set_status newStatus) ;;;
     (if Status_eqb newStatus Cancelled || Status_eqb newStatus Refunded
      then _ <- handleCancellation now iso rnd reason ;; ret tt
      else ret tt) ;;;
     ret {| sc_success := true; oldStatus := oldStatus;
            newStatus := newStatus |})%monad.

(** The virtuals [durationDays] and [durationHours]. *)
Definition durationDays (this : Hiring) : Z :=
  JS.Math_ceil
    (inject_Z (endDate this - startDate this) / inject_Z (1000 * 60 * 60 * 24)).

Definition durationHours (this : Hiring) : Z :=
  JS.Math_ceil
    (inject_Z (endDate this - startDate this) / inject_Z (1000 * 60 * 60)).

End Hiring.

(* ===================================================================== *)
(** ** controllers/bookingController.js *)
(* ===================================================================== *)

Module BookingController.

Import Booking.

(** *** createBooking *)

(** The request body, after [express-validator] has run.  An absent
    [selectedSeats] reads as two empty lists everywhere it is used. *)
Record CreateRequest := {
  req_errors : list string;
  req_route : nat;
  req_bus : nat;
  req_departureDate : Z;
  req_returnDate : option Z;
  req_bookingType : BookingType;
  req_selectedSeats : SelectedSeats;
  req_passengers : list Passenger;
  req_promoCode : option string;
  req_discountApplied : Q;
  req_user : nat
}.

Inductive CreateResponse :=
| ValidationFailed (errors : list string)
| RouteNotFound
| BusNotFound
| BusHired (conflictingHirings : list string)
| NotEnoughSeatsOutbound (availableSeats requiredSeats : Z)
    (conflictingBookings : list string)
| NotEnoughSeatsReturn (availableSeats requiredSeats : Z)
    (conflictingBookings : list string)
| DuplicateSeats (duplicateSeats : list string)
| SeatsMismatch
| SeatsBooked (bookedSeats : list string) (conflictingBookings : list string)
| ReturnSeatsBooked (bookedSeats : list string)
    (conflictingBookings : list string)
| Created (newBooking : Booking).

Definition activeBooking (b : Booking) : bool :=
  existsb (Status_eqb (status b)) [Pending; Confirmed].

Definition sameDate (d : option Z) (e : Z) : bool :=
  match d with Some d => (d =? e)%Z | None => false end.

(** [$or: [{ departureDate }, ...(returnDateTime ? [{ returnDate }] : [])]]. *)
Definition onDates (departureDateTime : Z) (returnDateTime : option Z)
    (b : Booking) : bool :=
  (departureDate b =? departureDateTime)%Z
  || match returnDateTime with
     | Some r => sameDate (returnDate b) r
     | None => false
     end.

(** ["passengers.seatNumber": { $in: seats }]. *)
Definition hasPassengerSeatIn (seats : list string) (b : Booking) : bool :=
  existsb (fun p => JS.includes seats (seatNumber p)) (passengers b).

(** The query for the hirings that hold the bus. *)
Definition hiringHoldsBus (bus : nat) (departureDateTime : Z)
    (returnDateTime : option Z) (h : Hiring.Hiring) : bool :=
  Nat.eqb (Hiring.bus h) bus
  && (((Hiring.startDate h <=? departureDateTime)%Z
       && (departureDateTime <=? Hiring.endDate h)%Z)
      || match returnDateTime with
         | Some r => (Hiring.startDate h <=? r)%Z && (r <=? Hiring.endDate h)%Z
         | None => false
         end)
  && existsb (Hiring.Status_eqb (Hiring.status h))
       [Hiring.Confirmed; Hiring.Pending; Hiring.InProgress].

(** [l.filter((seat, index) => l.indexOf(seat) !== index)]. *)
Fixpoint repeatedFrom (l : list string) (index : Z) (rest : list string)
  : list string :=
  match rest with
  | [] => []
  | seat :: rest' =>
      if (JS.indexOf l seat =? index)%Z
      then repeatedFrom l (index + 1) rest'
      else seat :: repeatedFrom l (index + 1) rest'
  end.

Definition repeated (l : list string) : list string := repeatedFrom l 0 l.

(** The two sets of seats taken on the requested dates. *)
Definition bookedOutbound (departureDateTime : Z)
    (existingBookings : list Booking) : JS.JSSet :=
  fold_left
    (fun s booking =>
       if (departureDate booking =? departureDateTime)%Z
       then fold_left (fun s p => JS.add s (seatNumber p)) (passengers booking) s
       else s)
    existingBookings [].

Definition bookedReturn (returnDateTime : option Z)
    (existingBookings : list Booking) : JS.JSSet :=
  fold_left
    (fun s booking =>
       match returnDate booking, returnDateTime with
       | Some d, Some r =>
           if (d =? r)%Z
           then fold_left JS.add (return_ (selectedSeats booking)) s
           else s
       | _, _ => s
       end)
    existingBookings [].

(** The fare of the request: base fare per passenger, doubled for a round
    trip, then the promo code, before the final rounding. *)
Definition requestFare (baseFare : Q) (passengerCount : nat)
    (bookingType : BookingType) (promoCode : option string) : Q :=
  let totalFare := baseFare * inject_Z (Z.of_nat passengerCount) in
  let totalFare :=
    if BookingType_eqb bookingType RoundTrip then totalFare * 2
    else totalFare in
  let totalFare :=
    match promoCode with
    | Some code =>
        if String.eqb code "WELCOME10" then totalFare * (9 # 10)
        else totalFare
    | None => totalFare
    end in
  totalFare.

Definition emptyMetadata : PaymentMetadata :=
  {| meta_totalPaid := 0; meta_totalRefunded := 0;
     lastPaymentDate := None; lastPaymentMethod := None;
     paymentCompletedAt := None |}.

Section Create.

Variable findRoute : nat -> option Route.Route.
Variable findBus : nat -> option Bus.Bus.
(** The stored hirings and bookings. *)
Variable Hirings : list Hiring.Hiring.
Variable Bookings : list Booking.
(** The identifier and the random suffix of the new document. *)
Variable newId : nat.
Variable rnd : string.

Definition createBooking (req : CreateRequest) : CreateResponse :=
  if negb (Nat.eqb (List.length (req_errors req)) 0) then
    ValidationFailed (req_errors req)
  else
  let bus := req_bus req in
  let selectedSeats := req_selectedSeats req in
  let passengers := req_passengers req in
  let bookingType := req_bookingType req in
  match findRoute (req_route req) with
  | None => RouteNotFound
  | Some routeData =>
  match findBus bus with
  | None => BusNotFound
  | Some busData =>
  let departureDateTime := req_departureDate req in
  let returnDateTime := req_returnDate req in
  let hiringConflicts :=
    filter (hiringHoldsBus bus departureDateTime returnDateTime) Hirings in
  if (0 <? Z.of_nat (List.length hiringConflicts))%Z then
    BusHired (map Hiring.hiringNumber hiringConflicts)
  else
  let existingBookings :=
    filter (fun b => Nat.eqb (Booking.bus b) bus
                     && onDates departureDateTime returnDateTime b
                     && activeBooking b) Bookings in
  let bookedSeatsOutbound := bookedOutbound departureDateTime existingBookings in
  let bookedSeatsReturn := bookedReturn returnDateTime existingBookings in
  let requiredSeats := Z.of_nat (List.length passengers) in
  if (Bus.capacity busData <? JS.size bookedSeatsOutbound + requiredSeats)%Z then
    NotEnoughSeatsOutbound
      (Bus.capacity busData - JS.size bookedSeatsOutbound) requiredSeats
      (map bookingNumber existingBookings)
  else if BookingType_eqb bookingType RoundTrip
          && (Bus.capacity busData <? JS.size bookedSeatsReturn + requiredSeats)%Z
  then
    NotEnoughSeatsReturn
      (Bus.capacity busData - JS.size bookedSeatsReturn) requiredSeats
      (map bookingNumber existingBookings)
  else
  let outboundSeats := outbound selectedSeats in
  let passengerSeats := map seatNumber passengers in
  let uniqueOutboundSeats := JS.newSet outboundSeats in
  let uniquePassengerSeats := JS.newSet passengerSeats in
  if negb (JS.size uniqueOutboundSeats =? Z.of_nat (List.length outboundSeats))%Z
     || negb (JS.size uniquePassengerSeats =? Z.of_nat (List.length passengerSeats))%Z
  then DuplicateSeats (repeated outboundSeats ++ repeated passengerSeats)
  else if negb (Nat.eqb (List.length outboundSeats) (List.length passengers))
          || negb (forallb (JS.includes passengerSeats) outboundSeats)
  then SeatsMismatch
  else
  let existingSeatConflicts :=
    filter (fun b => Nat.eqb (Booking.bus b) bus
                     && onDates departureDateTime returnDateTime b
                     && activeBooking b
                     && hasPassengerSeatIn outboundSeats b) Bookings in
  let returnSeatConflicts :=
    filter (fun b => Nat.eqb (Booking.bus b) bus
                     && match returnDateTime with
                        | Some r => sameDate (returnDate b) r
                        | None =>
                            match returnDate b with
                            | None => true
                            | Some _ => false
                            end
                        end
                     && activeBooking b
                     && hasPassengerSeatIn (return_ selectedSeats) b)
           Bookings in
  let seatsOf (seats : list string) (conflicts : list Booking) :=
    JS.newSet
      (flat_map
         (fun booking =>
            filter (JS.includes seats)
              (map seatNumber (Booking.passengers booking)))
         conflicts) in
  if (0 <? Z.of_nat (List.length outboundSeats))%Z
     && (0 <? Z.of_nat (List.length existingSeatConflicts))%Z
  then
    SeatsBooked (seatsOf outboundSeats existingSeatConflicts)
      (map bookingNumber existingSeatConflicts)
  else if (0 <? Z.of_nat (List.length outboundSeats))%Z
          && BookingType_eqb bookingType RoundTrip
          && (0 <? Z.of_nat (List.length (return_ selectedSeats)))%Z
          && (0 <? Z.of_nat (List.length returnSeatConflicts))%Z
  then
    ReturnSeatsBooked (seatsOf (return_ selectedSeats) returnSeatConflicts)
      (map bookingNumber returnSeatConflicts)
  else
  let baseFare := JS.or_else (Route.baseFare routeData) 0 in
  let totalFare :=
    requestFare baseFare (List.length passengers) bookingType
      (req_promoCode req) in
  Created
    {| _id := newId;
       bookingNumber := ("BKG-" ++ rnd)%string;
       bookingType := bookingType;
       status := Pending;
       passengers := passengers;
       route := req_route req;
       Booking.bus := bus;
       departureDate := req_departureDate req;
       returnDate := req_returnDate req;
       selectedSeats := selectedSeats;
       totalFare := inject_Z (JS.Math_round (totalFare * 100)) / 100;
       paymentStatus := PayPending;
       payments := [];
       refunds := [];
       paymentMetadata := emptyMetadata;
       promoCode := req_promoCode req;
       discountApplied := JS.or_else (req_discountApplied req) 0;
       user := req_user req;
       statusHistory := [];
       cancellationReason := None;
       cancelledAt := None;
       cancelledBy := None;
       refundAmount := None |}
  end end.

(** The collection after the request: [newBooking.save()]. *)
Definition bookingsAfter (req : CreateRequest) : list Booking :=
  match createBooking req with
  | Created newBooking => Bookings ++ [newBooking]
  | _ => Bookings
  end.

End Create.

(** *** updateBookingStatus *)

Record User := {
  user_id : nat;
  isAdminRole : bool
}.

Inductive StatusResponse :=
| InvalidStatus
| StatusBookingNotFound
| CannotChangeCancelled
| CannotChangeCompleted
| StatusUpdated (oldStatus newStatus : Status).

Definition controllerValidStatuses : list Status :=
  [Pending; Confirmed; Cancelled; Completed; NoShow].

Definition or_text (x : option string) (d : string) : string :=
  match x with
  | Some s => if String.eqb s "" then d else s
  | None => d
  end.

(** The handler, on the document [Booking.findById] returned; the second
    component is the document as it is stored when the handler ends. *)
Definition updateBookingStatus (now : Z) (user : User)
    (status : option Status) (notes : option string)
    (found : option Booking) : StatusResponse * option Booking :=
  match status with
  | None => (InvalidStatus, found)
  | Some status =>
      if negb (existsb (Status_eqb status) controllerValidStatuses) then
        (InvalidStatus, found)
      else
        match found with
        | None => (StatusBookingNotFound, None)
        | Some booking =>
            if Status_eqb (Booking.status booking) Cancelled
               && negb (Status_eqb status Cancelled)
            then (CannotChangeCancelled, Some booking)
            else if Status_eqb (Booking.status booking) Completed
                    && negb (Status_eqb status Completed)
            then (CannotChangeCompleted, Some booking)
            else
              let oldStatus := Booking.status booking in
              let booking := set_status status booking in
              let booking :=
                set_statusHistory
                  (statusHistory booking ++
                     [{| sh_status := status; sh_date := now;
                         sh_notes := or_text notes "";
                         sh_updatedBy := user_id user |}])
                  booking in
              let booking :=
                if Status_eqb status Cancelled then
                  set_cancellation (or_text notes "Cancelled by admin") now
                    (cancelledBy booking) (refundAmount booking) booking
                else booking in
              (StatusUpdated oldStatus status, Some booking)
        end
  end.

(** *** cancelBooking *)

Inductive CancelResponse :=
| CancelBookingNotFound
| AlreadyCancelled
| CannotCancelCompleted
| TooLateToCancel (hoursToDepature : Q)
| CancelledOk (refundAmount refundPercentage : Q).

Definition cancelBooking (now : Z) (user : User) (reason : option string)
    (found : option Booking) : CancelResponse * option Booking :=
  match found with
  | None => (CancelBookingNotFound, None)
  | Some booking =>
      if Status_eqb (status booking) Cancelled then
        (AlreadyCancelled, Some booking)
      else if Status_eqb (status booking) Completed then
        (CannotCancelCompleted, Some booking)
      else
        let hoursToDepature :=
          inject_Z (departureDate booking - now) / inject_Z (1000 * 60 * 60) in
        let isAdmin := isAdminRole user in
        if JS.Qltb hoursToDepature 24 && negb isAdmin then
          (TooLateToCancel hoursToDepature, Some booking)
        else
          let '(refundAmount, refundPercentage) :=
            if PaymentStatus_eqb (paymentStatus booking) Paid
               || PaymentStatus_eqb (paymentStatus booking) PartiallyPaid
            then
              let refundPercentage :=
                if JS.Qgtb hoursToDepature 72 then 1
                else if JS.Qgtb hoursToDepature 48 then 3 # 4
                else if JS.Qgtb hoursToDepature 24 then 1 # 2
                else if isAdmin then 1 # 2
                else 0 in
              let totalPaid :=
                JS.or_else
                  (fold_left (fun sum payment => sum + pay_amount payment)
                     (payments booking) 0)
                  0 in
              (inject_Z (JS.Math_round (totalPaid * refundPercentage * 100))
               / 100,
               refundPercentage)
            else (0, 0) in
          let booking := set_status Cancelled booking in
          let booking :=
            set_cancellation (or_text reason "Cancelled by user") now
              (Some (user_id user)) (Some refundAmount) booking in
          let booking :=
            set_statusHistory
              (statusHistory booking ++
                 [{| sh_status := Cancelled; sh_date := now;
                     sh_notes := or_text reason "Cancelled by user";
                     sh_updatedBy := user_id user |}])
              booking in
          (CancelledOk refundAmount refundPercentage, Some booking)
  end.

End BookingController.

(* ===================================================================== *)
(** ** controllers/paymentController.js *)
(* ===================================================================== *)

Module PaymentController.

(** What [Paystack.transaction.verify] returned: its [status] flag, the
    [data.status] string and [data.amount], in kobo. *)
Record Verification := {
  v_status : bool;
  v_dataStatus : string;
  v_amount : Q
}.

Inductive Record_ :=
| OfBooking (booking : Booking.Booking)
| OfHiring (hiring : Hiring.Hiring).

Inductive VerifyResponse :=
| ReferenceRequired
| GatewayNotConfigured
| VerificationFailed
| VerifiedUnlinked (amount : Q)
| ExceedsBalance (amount remainingAmount : Q)
| AlreadyProcessed (amount : Q)
| PaymentError (message : string)
| Verified (amount : Q).

(** [payment.reference === reference || payment.transactionId === reference]
    over the ledger of the record; a hiring's entries have no [reference]. *)
Definition existingPayment (reference : string) (r : Record_) : bool :=
  match r with
  | OfBooking booking =>
      existsb
        (fun payment =>
           match Booking.pay_reference payment with
           | Some x => String.eqb x reference
           | None => false
           end
           || String.eqb (Booking.pay_transactionId payment) reference)
        (Booking.payments booking)
  | OfHiring hiring =>
      existsb
        (fun payment => String.eqb (Hiring.transactionId payment) reference)
        (Hiring.payments hiring)
  end.

(** The handler, from the reference of the request and the record the
    lookups found ([booking], or else [hiring]); the second component is
    the record as the handler leaves it. *)
Definition verifyPayment (now : Z) (rnd : string) (userId : option nat)
    (reference : option string) (paystackConfigured : bool)
    (verification : Verification) (found : option Record_)
  : VerifyResponse * option Record_ :=
  match reference with
  | None => (ReferenceRequired, found)
  | Some reference =>
      if String.eqb reference "" then (ReferenceRequired, found)
      else if negb paystackConfigured then (GatewayNotConfigured, found)
      else if negb (v_status verification
                    && String.eqb (v_dataStatus verification) "success")
      then (VerificationFailed, found)
      else
        let amount := v_amount verification / 100 in
        match found with
        | None => (VerifiedUnlinked amount, None)
        | Some currentRecord =>
            let expectedAmount :=
              match currentRecord with
              | OfBooking booking => Booking.totalFare booking
              | OfHiring hiring => Hiring.totalCost hiring
              end in
            let totalPaid :=
              match currentRecord with
              | OfBooking booking => Booking.getTotalPaid booking
              | OfHiring hiring => Hiring.totalPaid hiring
              end in
            let remainingAmount := expectedAmount - totalPaid in
            if JS.Qgtb amount (remainingAmount + (1 # 100)) then
              (ExceedsBalance amount remainingAmount, Some currentRecord)
            else if existingPayment reference currentRecord then
              (AlreadyProcessed amount, Some currentRecord)
            else
              match currentRecord with
              | OfBooking booking =>
                  match
                    Booking.addPayment now
                      {| Booking.pd_amount := amount;
                         Booking.pd_transactionId := reference;
                         Booking.pd_reference := Some reference;
                         Booking.pd_method := Some "Paystack";
                         Booking.pd_gateway := Some "Paystack";
                         Booking.pd_gatewayResponse :=
                           Some (v_dataStatus verification);
                         Booking.pd_processedBy := userId |}
                      booking
                  with
                  | (Return _, booking) =>
                      (Verified amount, Some (OfBooking booking))
                  | (Throw message, booking) =>
                      (PaymentError message, Some (OfBooking booking))
                  end
              | OfHiring hiring =>
                  match
                    Hiring.processPayment now rnd
                      {| Hiring.pd_amount := amount;
                         Hiring.pd_method := Some "Credit Card";
                         Hiring.pd_transactionId := Some reference |}
                      hiring
                  with
                  | (Return _, hiring) =>
                      let hiring :=
                        if Hiring.PaymentStatus_eqb
                             (Hiring.paymentStatus hiring) Hiring.Paid
                           && Hiring.Status_eqb (Hiring.status hiring)
                                Hiring.Pending
                        then Hiring.set_status Hiring.Confirmed hiring
                        else hiring in
                      (Verified amount, Some (OfHiring hiring))
                  | (Throw message, hiring) =>
                      (PaymentError message, Some (OfHiring hiring))
                  end
              end
        end
  end.

End PaymentController.

(* ===================================================================== *)
(** ** controllers/bookingController.js, the other handlers *)
(* ===================================================================== *)

Module BookingHandlers.

Import Booking BookingController.

(** *** processPayment *)

Inductive PaymentResponse :=
| PayBookingNotFound
| PayCancelled
| PayAlreadyPaid
| PayInvalidAmount
| PayRefused (message : string)
| PayProcessed (paymentStatus : PaymentStatus) (bookingStatus : Status)
    (transactionId : string) (totalPaid remainingBalance : Q).

(** The handler, on the document [Booking.findById] returned; the simulated
    gateway always succeeds, so its failure branch has no counterpart.  The
    second component is the document as the handler leaves it. *)
Definition processPayment (now : Z) (rnd : string) (user : User)
    (amount : Q) (paymentMethod transactionId : option string)
    (found : option Booking) : PaymentResponse * option Booking :=
  match found with
  | None => (PayBookingNotFound, None)
  | Some booking =>
      if Status_eqb (status booking) Cancelled then
        (PayCancelled, Some booking)
      else if PaymentStatus_eqb (paymentStatus booking) Paid then
        (PayAlreadyPaid, Some booking)
      else if negb (JS.truthy amount) || Qle_bool amount 0 then
        (PayInvalidAmount, Some booking)
      else
        match validatePaymentAmount amount booking with
        | (Throw message, booking) => (PayRefused message, Some booking)
        | (Return _, booking) =>
            let paymentTransactionId :=
              or_text transactionId ("TXN-" ++ rnd)%string in
            match
              addPayment now
                {| pd_amount := amount;
                   pd_transactionId := paymentTransactionId;
                   pd_reference := Some paymentTransactionId;
                   pd_method := Some (or_text paymentMethod "Credit Card");
                   pd_gateway := Some "Manual";
                   pd_gatewayResponse := Some paymentTransactionId;
                   pd_processedBy := Some (user_id user) |}
                booking
            with
            | (Throw message, booking) => (PayRefused message, Some booking)
            | (Return _, booking) =>
                (PayProcessed (paymentStatus booking) (status booking)
                   paymentTransactionId (getTotalPaid booking)
                   (JS.Math_max 0 (totalFare booking - getTotalPaid booking)),
                 Some booking)
            end
        end
  end.

(** *** checkSeatAvailability *)

Record SeatReport := {
  report_capacity : Z;
  totalBooked : Z;
  totalAvailable : Z;
  report_bookedSeats : list string;
  availableSeats : list string
}.

Inductive SeatResponse :=
| SeatQueryIncomplete
| SeatBusNotFound
| SeatsReported (report : SeatReport).

(** [`S${i}`]. *)
Definition seatId (i : nat) : string :=
  ("S" ++ NilEmpty.string_of_uint (Nat.to_uint i))%string.

Section SeatQuery.

Variable timezoneOffset : Z.
Variable findBus : nat -> option Bus.Bus.
Variable Bookings : list Booking.

(** The active bookings of the bus that leave on the day of [date]. *)
Definition bookingsOn (busId : nat) (date : Z) : list Booking :=
  filter
    (fun b =>
       Nat.eqb (bus b) busId
       && (startOfDay timezoneOffset date <=? departureDate b)%Z
       && (departureDate b <=? endOfDay timezoneOffset date)%Z
       && activeBooking b)
    Bookings.

Definition seatsTaken (existingBookings : list Booking) : JS.JSSet :=
  fold_left
    (fun s booking =>
       fold_left
         (fun s passenger =>
            if String.eqb (seatNumber passenger) "" then s
            else JS.add s (seatNumber passenger))
         (passengers booking) s)
    existingBookings [].

Definition checkSeatAvailability (busId : option nat) (date : option Z)
  : SeatResponse :=
  match busId, date with
  | Some busId, Some date =>
      match findBus busId with
      | None => SeatBusNotFound
      | Some bus =>
          let existingBookings := bookingsOn busId date in
          let bookedSeats := seatsTaken existingBookings in
          let availableSeats :=
            filter (fun seat => negb (JS.has bookedSeats seat))
              (map seatId (seq 1 (Z.to_nat (Bus.capacity bus)))) in
          SeatsReported
            {| report_capacity := Bus.capacity bus;
               totalBooked := JS.size bookedSeats;
               totalAvailable := Z.of_nat (List.length availableSeats);
               report_bookedSeats := bookedSeats;
               availableSeats := availableSeats |}
      end
  | _, _ => SeatQueryIncomplete
  end.

End SeatQuery.

End BookingHandlers.

(* ===================================================================== *)
(** ** The ticket controller *)
(* ===================================================================== *)

Module TicketController.

Inductive VerificationResult := ResultValid | ResultInvalid | ResultExpired.

(** An element of [verifications]. *)
Record Verification := {
  verifiedAt : Z;
  verifiedBy : string;
  verificationLocation : option string;
  busUsed : option string;
  result : VerificationResult;
  notes : option string;
  isManual : bool
}.

(** The record a ticket stands for, with its [verifications]. *)
Inductive TicketRecord :=
| BookingRecord (booking : Booking.Booking) (verifications : list Verification)
| HiringRecord (hiring : Hiring.Hiring) (verifications : list Verification).

Inductive RecordType := TypeBooking | TypeHiring.

Definition recordTypeOf (record : TicketRecord) : RecordType :=
  match record with
  | BookingRecord _ _ => TypeBooking
  | HiringRecord _ _ => TypeHiring
  end.

Definition verificationsOf (record : TicketRecord) : list Verification :=
  match record with
  | BookingRecord _ v => v
  | HiringRecord _ v => v
  end.

(** [recordType === 'booking' ? record.departureDate : record.startDate]. *)
Definition travelDate (record : TicketRecord) : Z :=
  match record with
  | BookingRecord b _ => Booking.departureDate b
  | HiringRecord h _ => Hiring.startDate h
  end.

(** [record.paymentStatus !== 'Paid']. *)
Definition isPaid (record : TicketRecord) : bool :=
  match record with
  | BookingRecord b _ =>
      Booking.PaymentStatus_eqb (Booking.paymentStatus b) Booking.Paid
  | HiringRecord h _ =>
      Hiring.PaymentStatus_eqb (Hiring.paymentStatus h) Hiring.Paid
  end.

(** [['Confirmed', 'Completed'].includes(record.status)]. *)
Definition isConfirmedOrCompleted (record : TicketRecord) : bool :=
  match record with
  | BookingRecord b _ =>
      existsb (Booking.Status_eqb (Booking.status b))
        [Booking.Confirmed; Booking.Completed]
  | HiringRecord h _ =>
      existsb (Hiring.Status_eqb (Hiring.status h))
        [Hiring.Confirmed; Hiring.Completed]
  end.

Inductive Reason :=
| Expired | PaymentIncomplete | InvalidStatus | AlreadyVerified | Valid.

(** What the helper returns; [alreadyUsed] is absent from the answers that
    are not valid. *)
Record TicketStatus := {
  valid : bool;
  reason : Reason;
  alreadyUsed : option bool;
  lastVerification : option Verification
}.

(** [validateTicketStatus]; [timezoneOffset] places the local midnight of
    [now]. *)
Definition validateTicketStatus (timezoneOffset now : Z) (record : TicketRecord)
  : TicketStatus :=
  let departureDate := travelDate record in
  if (departureDate
      <? Booking.startOfDay timezoneOffset now - 24 * 60 * 60 * 1000)%Z then
    {| valid := false; reason := Expired; alreadyUsed := None;
       lastVerification := None |}
  else if negb (isPaid record) then
    {| valid := false; reason := PaymentIncomplete; alreadyUsed := None;
       lastVerification := None |}
  else if negb (isConfirmedOrCompleted record) then
    {| valid := false; reason := InvalidStatus; alreadyUsed := None;
       lastVerification := None |}
  else
    let verifications := verificationsOf record in
    let hasVerifications := (0 <? Z.of_nat (List.length verifications))%Z in
    let lastVerification :=
      if hasVerifications then last (map Some verifications) None else None in
    match hasVerifications, lastVerification with
    | true, Some v =>
        match result v with
        | ResultValid =>
            {| valid := true; reason := AlreadyVerified;
               alreadyUsed := Some true; lastVerification := Some v |}
        | _ =>
            {| valid := true; reason := Valid; alreadyUsed := Some false;
               lastVerification := None |}
        end
    | _, _ =>
        {| valid := true; reason := Valid; alreadyUsed := Some false;
           lastVerification := None |}
    end.








End TicketController.

(* ===================================================================== *)
(** ** The notions the statements are made of *)
(* ===================================================================== *)

Module Spec.

Import Booking.

(** The total of the Completed payments, by recursion on the ledger. *)
Fixpoint sumCompletedPayments (l : list Payment) : Q :=
  match l with
  | [] => 0
  | p :: r =>
      match pay_status p with
      | EntryCompleted => pay_amount p + sumCompletedPayments r
      | _ => sumCompletedPayments r
      end
  end.

(** The total of the Completed refunds. *)
Fixpoint sumCompletedRefunds (l : list Refund) : Q :=
  match l with
  | [] => 0
  | p :: r =>
      match ref_status p with
      | EntryCompleted => ref_amount p + sumCompletedRefunds r
      | _ => sumCompletedRefunds r
      end
  end.

(** The five rules of the payment status, in the order they are tried. *)
Section Rules.
Variables totalPaid totalFare totalRefunded : Q.

Definition rulePaid : Prop := totalFare <= totalPaid /\ totalRefunded == 0.
Definition rulePartiallyPaid : Prop := 0 < totalPaid /\ totalPaid < totalFare.
Definition rulePartiallyRefunded : Prop :=
  0 < totalRefunded /\ totalRefunded < totalPaid.
Definition ruleRefunded : Prop := totalPaid <= totalRefunded /\ 0 < totalPaid.
Definition rulePending : Prop := totalPaid == 0.

(** First match wins: a rule applies when none before it does. *)
Inductive derivedStatus : PaymentStatus -> Prop :=
| derivePaid : rulePaid -> derivedStatus Paid
| derivePartiallyPaid :
    ~ rulePaid -> rulePartiallyPaid -> derivedStatus PartiallyPaid
| derivePartiallyRefunded :
    ~ rulePaid -> ~ rulePartiallyPaid -> rulePartiallyRefunded ->
    derivedStatus PartiallyRefunded
| deriveRefunded :
    ~ rulePaid -> ~ rulePartiallyPaid -> ~ rulePartiallyRefunded ->
    ruleRefunded -> derivedStatus PayRefunded
| derivePending :
    ~ rulePaid -> ~ rulePartiallyPaid -> ~ rulePartiallyRefunded ->
    ~ ruleRefunded -> rulePending -> derivedStatus PayPending.
End Rules.

(** A mutation of the ledger of a booking: a payment or a refund added. *)
Inductive ledgerMutation (this this' : Booking) : Prop :=
| byAddPayment (now : Z) (paymentData : PaymentData) (payment : Payment) :
    addPayment now paymentData this = (Return payment, this') ->
    ledgerMutation this this'
| byAddRefund (now : Z) (rnd : string) (refundData : RefundData)
    (refund : Refund) :
    addRefund now rnd refundData this = (Return refund, this') ->
    ledgerMutation this this'.

(** The entry [addPayment] builds. *)
Definition paymentOf (now : Z) (paymentData : PaymentData) : Payment :=
  {| pay_amount := pd_amount paymentData;
     pay_method := default "Paystack" (pd_method paymentData);
     pay_transactionId := pd_transactionId paymentData;
     pay_reference := pd_reference paymentData;
     pay_gateway := default "Paystack" (pd_gateway paymentData);
     pay_gatewayResponse := pd_gatewayResponse paymentData;
     pay_status := EntryCompleted;
     pay_date := now;
     pay_processedBy := pd_processedBy paymentData |}.

(** The entry [addRefund] builds. *)
Definition refundOf (now : Z) (rnd : string) (refundData : RefundData)
  : Refund :=
  {| ref_amount := rd_amount refundData;
     ref_reason := rd_reason refundData;
     ref_refundTransactionId :=
       match rd_refundTransactionId refundData with
       | Some s => if String.eqb s "" then ("REF-" ++ rnd)%string else s
       | None => ("REF-" ++ rnd)%string
       end;
     ref_status := EntryCompleted;
     ref_date := now;
     ref_processedBy := rd_processedBy refundData |}.

Definition knownTransaction (tid : string) (this : Booking) : option Payment :=
  find (fun p => String.eqb (pay_transactionId p) tid) (payments this).


(** The refund tiers of a booking, keyed on the hours left to departure:
    every boundary is a strict comparison. *)
Inductive bookingTier (hours : Q) : Q -> Prop :=
| tier100 : 72 < hours -> bookingTier hours 1
| tier75 : ~ 72 < hours -> 48 < hours -> bookingTier hours (3 # 4)
| tier50 : ~ 48 < hours -> 24 < hours -> bookingTier hours (1 # 2)
| tier25 : ~ 24 < hours -> 12 < hours -> bookingTier hours (1 # 4)
| tier0 : ~ 12 < hours -> bookingTier hours 0.

(** The refund entry a cancellation records. *)
Definition cancellationRefund (now : Z) (rnd reason : string) (amount : Q)
  : Refund :=
  {| ref_amount := amount;
     ref_reason := ("Cancellation: " ++ reason)%string;
     ref_refundTransactionId := ("REF-" ++ rnd)%string;
     ref_status := EntryCompleted;
     ref_date := now;
     ref_processedBy := None |}.

(** The sum of every payment amount, whatever the status of the entry. *)
Fixpoint sumAllPayments (l : list Payment) : Q :=
  match l with
  | [] => 0
  | p :: r => pay_amount p + sumAllPayments r
  end.

(** The entry a cancelled hiring records for a refund of [amount]. *)
Definition hiringRefundEntry (now : Z) (rnd : string) (amount : Q)
  : Hiring.Payment :=
  {| Hiring.amount := - amount;
     Hiring.date := now;
     Hiring.method := "Refund";
     Hiring.transactionId := ("REF-" ++ rnd)%string;
     Hiring.pay_status := Hiring.EntryCompleted |}.

(** The refund a cancellation of the hiring computes. *)
Definition hiringRefundAmount (now : Z) (this : Hiring.Hiring) : Q :=
  JS.round2
    (Hiring.totalPaid this
     * Hiring.refundPercentage (Hiring.cancellationPolicy this)
         (Hiring.daysToDeparture now this)).

(** The same hiring over another period. *)
Definition withDates (start finish : Z) (h : Hiring.Hiring) : Hiring.Hiring :=
  {| Hiring._id := Hiring._id h;
     Hiring.hiringNumber := Hiring.hiringNumber h;
     Hiring.status := Hiring.status h;
     Hiring.route := Hiring.route h;
     Hiring.startDate := start;
     Hiring.endDate := finish;
     Hiring.tripType := Hiring.tripType h;
     Hiring.returnDate := Hiring.returnDate h;
     Hiring.estimatedDistance := Hiring.estimatedDistance h;
     Hiring.baseRate := Hiring.baseRate h;
     Hiring.rateType := Hiring.rateType h;
     Hiring.routePriceMultiplier := Hiring.routePriceMultiplier h;
     Hiring.additionalCharges := Hiring.additionalCharges h;
     Hiring.driverAllowance := Hiring.driverAllowance h;
     Hiring.overtimeRate := Hiring.overtimeRate h;
     Hiring.totalCost := Hiring.totalCost h;
     Hiring.deposit := Hiring.deposit h;
     Hiring.paymentStatus := Hiring.paymentStatus h;
     Hiring.payments := Hiring.payments h;
     Hiring.bus := Hiring.bus h;
     Hiring.notes := Hiring.notes h;
     Hiring.cancellationPolicy := Hiring.cancellationPolicy h |}.

(** The total cost [calculateTotalCost] returns, when it returns one. *)
Definition costOf (findRoute : nat -> option Route.Route)
    (findBus : nat -> option Bus.Bus) (h : Hiring.Hiring) : option Q :=
  match fst (Hiring.calculateTotalCost findRoute findBus h) with
  | Return c => Some c
  | Throw _ => None
  end.

(** The same booking with another booking type. *)
Definition withBookingType (t : BookingType) (b : Booking) : Booking :=
  {| _id := _id b; bookingNumber := bookingNumber b;
     bookingType := t; status := status b;
     passengers := passengers b; route := route b; bus := bus b;
     departureDate := departureDate b; returnDate := returnDate b;
     selectedSeats := selectedSeats b; totalFare := totalFare b;
     paymentStatus := paymentStatus b; payments := payments b;
     refunds := refunds b; paymentMetadata := paymentMetadata b;
     promoCode := promoCode b; discountApplied := discountApplied b;
     user := user b; statusHistory := statusHistory b;
     cancellationReason := cancellationReason b;
     cancelledAt := cancelledAt b; cancelledBy := cancelledBy b;
     refundAmount := refundAmount b |}.

(** An amount with at most two decimals: a whole number of hundredths. *)
Definition wholeHundredths (x : Q) : Prop :=
  exists k : Z, x * 100 == inject_Z k.

(** The factor of the booking type. *)
Definition tripFactor (t : BookingType) : Q :=
  match t with RoundTrip => 2 | OneWay => 1 end.

(** *** Periods *)

(** Two half-open periods [[s1, e1)] and [[s2, e2)] intersect. *)
Definition halfOpenOverlap (s1 e1 s2 e2 : Z) : Prop :=
  (s1 < e2 /\ s2 < e1)%Z.

(** Two closed periods [[s1, e1]] and [[s2, e2]] intersect. *)
Definition closedOverlap (s1 e1 s2 e2 : Z) : Prop :=
  (s1 <= e2 /\ s2 <= e1)%Z.

(** An instant within a closed period. *)
Definition within (lo hi d : Z) : Prop := (lo <= d <= hi)%Z.

Definition activeHiring (h : Hiring.Hiring) : Prop :=
  Hiring.status h = Hiring.Pending \/ Hiring.status h = Hiring.Confirmed
  \/ Hiring.status h = Hiring.InProgress.

Definition activeBooking (b : Booking) : Prop :=
  status b = Pending \/ status b = Confirmed.

(** Another active hiring of the bus that starts or ends within the
    period of [this]. *)
Definition hiredWithin (this h : Hiring.Hiring) : Prop :=
  Hiring.bus h = Hiring.bus this /\ Hiring._id h <> Hiring._id this
  /\ activeHiring h
  /\ (within (Hiring.startDate this) (Hiring.endDate this) (Hiring.startDate h)
      \/ within (Hiring.startDate this) (Hiring.endDate this) (Hiring.endDate h)).

(** An active booking on the bus that departs or returns within the period
    of [this]. *)
Definition bookedWithin (this : Hiring.Hiring) (b : Booking) : Prop :=
  bus b = Hiring.bus this /\ activeBooking b
  /\ (within (Hiring.startDate this) (Hiring.endDate this) (departureDate b)
      \/ exists r, returnDate b = Some r
                   /\ within (Hiring.startDate this) (Hiring.endDate this) r).

(** An active hiring of the bus whose closed period has the departure, or
    the return, of a booking request. *)
Definition hiredAt (busId : nat) (departure : Z) (return' : option Z)
    (h : Hiring.Hiring) : Prop :=
  Hiring.bus h = busId /\ activeHiring h
  /\ (within (Hiring.startDate h) (Hiring.endDate h) departure
      \/ exists r, return' = Some r
                   /\ within (Hiring.startDate h) (Hiring.endDate h) r).

(** *** Seats *)

(** The seats of the passengers of a booking. *)
Definition seatsOf (b : Booking) : list string :=
  map seatNumber (passengers b).

(** Two bookings of one bus, leaving at the same instant, both active, with
    a seat in common. *)
Definition shareSeat (b1 b2 : Booking) : Prop :=
  bus b1 = bus b2 /\ departureDate b1 = departureDate b2
  /\ activeBooking b1 /\ activeBooking b2
  /\ exists seat, In seat (seatsOf b1) /\ In seat (seatsOf b2).

(** No two bookings of the store share a seat. *)
Fixpoint seatsApart (store : list Booking) : Prop :=
  match store with
  | [] => True
  | b :: rest => (forall b', In b' rest -> ~ shareSeat b b') /\ seatsApart rest
  end.

End Spec.

(* ===================================================================== *)
(** ** Further notions *)
(* ===================================================================== *)

Module Notions.


(** The sum of the additional charges. *)
Fixpoint sumCharges (l : list Hiring.Charge) : Q :=
  match l with
  | [] => 0
  | c :: r => Hiring.charge_amount c + sumCharges r
  end.

(** The driver allowance that is added: a positive one. *)
Definition allowanceAdded (h : Hiring.Hiring) : Q :=
  if JS.Qgtb (Hiring.driverAllowance h) 0 then Hiring.driverAllowance h else 0.

(** The hours beyond eight for each day begun. *)
Definition hoursBeyondStandard (h : Hiring.Hiring) : Q :=
  Hiring.durationInHours h
  - inject_Z (JS.Math_ceil (Hiring.durationInDays h)) * 8.

Definition hiringTripFactor (t : Hiring.TripType) : Q :=
  match t with Hiring.RoundTrip => 2 | Hiring.OneWay => 1 end.

(** The duration of a hiring, in milliseconds. *)
Definition durationInMs (h : Hiring.Hiring) : Z :=
  (Hiring.endDate h - Hiring.startDate h)%Z.




(** What has been paid on a record, and what it costs: [totalPaid] and
    [expectedAmount] of the verification handler. *)
Definition paidOf (r : PaymentController.Record_) : Q :=
  match r with
  | PaymentController.OfBooking booking => Booking.getTotalPaid booking
  | PaymentController.OfHiring hiring => Hiring.totalPaid hiring
  end.

Definition dueOf (r : PaymentController.Record_) : Q :=
  match r with
  | PaymentController.OfBooking booking => Booking.totalFare booking
  | PaymentController.OfHiring hiring => Hiring.totalCost hiring
  end.


(** The three conditions of a valid ticket, on the fields they read: not
    expired at [now], Paid, and Confirmed or Completed. *)
Definition usable (timezoneOffset now : Z)
    (record : TicketController.TicketRecord) : bool :=
  negb (TicketController.travelDate record
        <? Booking.startOfDay timezoneOffset now - 86400000)%Z
  && TicketController.isPaid record
  && TicketController.isConfirmedOrCompleted record.

(** The same booking leaving at another instant. *)
Definition withDeparture (d : Z) (b : Booking.Booking) : Booking.Booking :=
  {| Booking._id := Booking._id b;
     Booking.bookingNumber := Booking.bookingNumber b;
     Booking.bookingType := Booking.bookingType b;
     Booking.status := Booking.status b;
     Booking.passengers := Booking.passengers b;
     Booking.route := Booking.route b;
     Booking.bus := Booking.bus b;
     Booking.departureDate := d;
     Booking.returnDate := Booking.returnDate b;
     Booking.selectedSeats := Booking.selectedSeats b;
     Booking.totalFare := Booking.totalFare b;
     Booking.paymentStatus := Booking.paymentStatus b;
     Booking.payments := Booking.payments b;
     Booking.refunds := Booking.refunds b;
     Booking.paymentMetadata := Booking.paymentMetadata b;
     Booking.promoCode := Booking.promoCode b;
     Booking.discountApplied := Booking.discountApplied b;
     Booking.user := Booking.user b;
     Booking.statusHistory := Booking.statusHistory b;
     Booking.cancellationReason := Booking.cancellationReason b;
     Booking.cancelledAt := Booking.cancelledAt b;
     Booking.cancelledBy := Booking.cancelledBy b;
     Booking.refundAmount := Booking.refundAmount b |}.

End Notions.

(* ===================================================================== *)
(** ** Sample documents *)
(* ===================================================================== *)

Module Examples.

(** 2025-01-10T12:00:00Z and the instants 72, 18 and 100 hours before it. *)
Definition departure : Z := 1736510400000.
Definition hours72Before : Z := 1736251200000.
Definition hours18Before : Z := 1736445600000.
Definition hours100Before : Z := 1736150400000.

Definition ada : Booking.Passenger :=
  {| Booking.name := "Ada"; Booking.age := 30;
     Booking.seatNumber := "1"; Booking.passengerType := Booking.Adult |}.

(** A Pending one-way booking for 100, nothing paid. *)
Definition unpaidBooking : Booking.Booking :=
  {| Booking._id := 1;
     Booking.bookingNumber := "BKG-0000A001";
     Booking.bookingType := Booking.OneWay;
     Booking.status := Booking.Pending;
     Booking.passengers := [ada];
     Booking.route := 1;
     Booking.bus := 1;
     Booking.departureDate := departure;
     Booking.returnDate := None;
     Booking.selectedSeats :=
       {| Booking.outbound := ["1"]; Booking.return_ := [] |};
     Booking.totalFare := 100;
     Booking.paymentStatus := Booking.PayPending;
     Booking.payments := [];
     Booking.refunds := [];
     Booking.paymentMetadata := BookingController.emptyMetadata;
     Booking.promoCode := None;
     Booking.discountApplied := 0;
     Booking.user := 7;
     Booking.statusHistory := [];
     Booking.cancellationReason := None;
     Booking.cancelledAt := None;
     Booking.cancelledBy := None;
     Booking.refundAmount := None |}.

Definition payInFull : Booking.PaymentData :=
  {| Booking.pd_amount := 100;
     Booking.pd_transactionId := "T1";
     Booking.pd_reference := Some "T1";
     Booking.pd_method := None;
     Booking.pd_gateway := None;
     Booking.pd_gatewayResponse := None;
     Booking.pd_processedBy := Some 7%nat |}.

(** The same booking once [payInFull] is recorded. *)
Definition paidBooking : Booking.Booking :=
  snd (Booking.addPayment 1736000000000 payInFull unpaidBooking).

(** A hiring for 1000 with one payment of 100 under transaction T1. *)
Definition hiringT1 : Hiring.Hiring :=
  {| Hiring._id := 1;
     Hiring.hiringNumber := "HIR-0000B001";
     Hiring.status := Hiring.Confirmed;
     Hiring.route := None;
     Hiring.startDate := departure;
     Hiring.endDate := departure + 86400000;
     Hiring.tripType := Hiring.OneWay;
     Hiring.returnDate := None;
     Hiring.estimatedDistance := 120;
     Hiring.baseRate := 1000;
     Hiring.rateType := Hiring.Fixed;
     Hiring.routePriceMultiplier := 1;
     Hiring.additionalCharges := [];
     Hiring.driverAllowance := 0;
     Hiring.overtimeRate := 0;
     Hiring.totalCost := 1000;
     Hiring.deposit := 100;
     Hiring.paymentStatus := Hiring.PartiallyPaid;
     Hiring.payments :=
       [{| Hiring.amount := 100; Hiring.date := 1736000000000;
           Hiring.method := "Cash"; Hiring.transactionId := "T1";
           Hiring.pay_status := Hiring.EntryCompleted |}];
     Hiring.bus := 1;
     Hiring.notes := None;
     Hiring.cancellationPolicy := "Flexible" |}.


Definition verifiedT1 : PaymentController.Verification :=
  {| PaymentController.v_status := true;
     PaymentController.v_dataStatus := "success";
     PaymentController.v_amount := 5000 |}.

Definition admin : BookingController.User :=
  {| BookingController.user_id := 99; BookingController.isAdminRole := true |}.

Definition passenger : BookingController.User :=
  {| BookingController.user_id := 7; BookingController.isAdminRole := false |}.

Definition cancelledBooking : Booking.Booking :=
  Booking.set_status Booking.Cancelled unpaidBooking.

(** Ten days before the start of [hiringT1]. *)
Definition tenDaysBefore : Z := departure - 10 * 86400000.

Definition refundOfTen : Booking.RefundData :=
  {| Booking.rd_amount := 10;
     Booking.rd_reason := "goodwill";
     Booking.rd_refundTransactionId := None;
     Booking.rd_processedBy := None |}.

(** A route at 15000 a seat on a bus of 25 seats. *)
Definition route5 : Route.Route :=
  {| Route._id := 5; Route.baseFare := 15000; Route.bus := 3 |}.

Definition bus3 : Bus.Bus :=
  {| Bus._id := 3; Bus.busNumber := "IBM-003"; Bus.capacity := 25;
     Bus.status := Bus.Active |}.

Definition findRoute (id : nat) : option Route.Route :=
  if Nat.eqb id 5 then Some route5 else None.

Definition findBus (id : nat) : option Bus.Bus :=
  if Nat.eqb id 3 then Some bus3 else None.

(** A Route-Based hiring of that bus on that route, 2024-08-15 from 08:00
    to 18:00 UTC, with no rate of its own, no allowance, no overtime rate
    and no additional charge. *)
Definition routeHire (multiplier : Q) (trip : Hiring.TripType)
  : Hiring.Hiring :=
  {| Hiring._id := 11;
     Hiring.hiringNumber := "HIR-0000C011";
     Hiring.status := Hiring.Pending;
     Hiring.route := Some 5%nat;
     Hiring.startDate := 1723708800000;
     Hiring.endDate := 1723744800000;
     Hiring.tripType := trip;
     Hiring.returnDate := None;
     Hiring.estimatedDistance := 500;
     Hiring.baseRate := 0;
     Hiring.rateType := Hiring.RouteBased;
     Hiring.routePriceMultiplier := multiplier;
     Hiring.additionalCharges := [];
     Hiring.driverAllowance := 0;
     Hiring.overtimeRate := 0;
     Hiring.totalCost := 0;
     Hiring.deposit := 0;
     Hiring.paymentStatus := Hiring.PayPending;
     Hiring.payments := [];
     Hiring.bus := 3;
     Hiring.notes := None;
     Hiring.cancellationPolicy := "Standard" |}.

(** A route at 1500.125 a seat, on [bus3]. *)
Definition route8 : Route.Route :=
  {| Route._id := 8; Route.baseFare := 12001 # 8; Route.bus := 3 |}.

Definition findRoute8 (id : nat) : option Route.Route :=
  if Nat.eqb id 8 then Some route8 else None.

(** A request for seat 1 on [route8], with no promo code. *)
Definition seatRequest (t : Booking.BookingType)
  : BookingController.CreateRequest :=
  {| BookingController.req_errors := [];
     BookingController.req_route := 8;
     BookingController.req_bus := 3;
     BookingController.req_departureDate := departure;
     BookingController.req_returnDate :=
       match t with
       | Booking.RoundTrip => Some (departure + 86400000)%Z
       | Booking.OneWay => None
       end;
     BookingController.req_bookingType := t;
     BookingController.req_selectedSeats :=
       {| Booking.outbound := ["1"];
          Booking.return_ :=
            match t with
            | Booking.RoundTrip => ["1"]
            | Booking.OneWay => []
            end |};
     BookingController.req_passengers := [ada];
     BookingController.req_promoCode := None;
     BookingController.req_discountApplied := 0;
     BookingController.req_user := 7 |}.

(** The fare of the booking the request creates in an empty store. *)
Definition createdFare (t : Booking.BookingType) : option Q :=
  match
    BookingController.createBooking findRoute8 findBus [] [] 21 "AB12CD34"
      (seatRequest t)
  with
  | BookingController.Created b => Some (Booking.totalFare b)
  | _ => None
  end.

(** A Confirmed hiring of [bus3] over the given period. *)
Definition hireOfBus3 (id : nat) (number : string) (start finish : Z)
  : Hiring.Hiring :=
  {| Hiring._id := id;
     Hiring.hiringNumber := number;
     Hiring.status := Hiring.Confirmed;
     Hiring.route := None;
     Hiring.startDate := start;
     Hiring.endDate := finish;
     Hiring.tripType := Hiring.OneWay;
     Hiring.returnDate := None;
     Hiring.estimatedDistance := 120;
     Hiring.baseRate := 1000;
     Hiring.rateType := Hiring.Fixed;
     Hiring.routePriceMultiplier := 1;
     Hiring.additionalCharges := [];
     Hiring.driverAllowance := 0;
     Hiring.overtimeRate := 0;
     Hiring.totalCost := 1000;
     Hiring.deposit := 100;
     Hiring.paymentStatus := Hiring.PayPending;
     Hiring.payments := [];
     Hiring.bus := 3;
     Hiring.notes := None;
     Hiring.cancellationPolicy := "Standard" |}.

(** Days of January 2025, at noon UTC. *)
Definition jan (day : Z) : Z := 1735732800000 + (day - 1) * 86400000.

(** An existing hiring from the 10th to the 12th; a request from the 12th
    to the 14th, which starts the instant the first one ends. *)
Definition existingHire : Hiring.Hiring :=
  hireOfBus3 31 "HIR-0000D031" (jan 10) (jan 12).
Definition touchingHire : Hiring.Hiring :=
  hireOfBus3 32 "HIR-0000D032" (jan 12) (jan 14).

(** An existing hiring from the 10th to the 20th; a request from the 12th
    to the 14th, strictly inside it. *)
Definition longHire : Hiring.Hiring :=
  hireOfBus3 33 "HIR-0000D033" (jan 10) (jan 20).

Definition bola : Booking.Passenger :=
  {| Booking.name := "Bola"; Booking.age := 41;
     Booking.seatNumber := "2"; Booking.passengerType := Booking.Adult |}.

(** A Confirmed round trip on [bus3]: out on the 10th in seat 1, back on
    the 15th in seat 5. *)
Definition roundTripBack5 : Booking.Booking :=
  {| Booking._id := 41;
     Booking.bookingNumber := "BKG-0000E041";
     Booking.bookingType := Booking.RoundTrip;
     Booking.status := Booking.Confirmed;
     Booking.passengers := [ada];
     Booking.route := 8;
     Booking.bus := 3;
     Booking.departureDate := jan 10;
     Booking.returnDate := Some (jan 15);
     Booking.selectedSeats :=
       {| Booking.outbound := ["1"]; Booking.return_ := ["5"] |};
     Booking.totalFare := 300025 # 100;
     Booking.paymentStatus := Booking.PayPending;
     Booking.payments := [];
     Booking.refunds := [];
     Booking.paymentMetadata := BookingController.emptyMetadata;
     Booking.promoCode := None;
     Booking.discountApplied := 0;
     Booking.user := 7;
     Booking.statusHistory := [];
     Booking.cancellationReason := None;
     Booking.cancelledAt := None;
     Booking.cancelledBy := None;
     Booking.refundAmount := None |}.

(** A request for a round trip on [bus3]: out on the 12th in seat 2, back
    on the 15th in seat 5. *)
Definition requestBack5 : BookingController.CreateRequest :=
  {| BookingController.req_errors := [];
     BookingController.req_route := 8;
     BookingController.req_bus := 3;
     BookingController.req_departureDate := jan 12;
     BookingController.req_returnDate := Some (jan 15);
     BookingController.req_bookingType := Booking.RoundTrip;
     BookingController.req_selectedSeats :=
       {| Booking.outbound := ["2"]; Booking.return_ := ["5"] |};
     BookingController.req_passengers := [bola];
     BookingController.req_promoCode := None;
     BookingController.req_discountApplied := 0;
     BookingController.req_user := 8 |}.

End Examples.

Module Samples.

Local Open Scope string_scope.
Local Open Scope list_scope.
Local Open Scope Z_scope.
Local Open Scope Q_scope.

(** A Pending hiring of bus 3 at a base rate of 1000, an overtime rate
    of 50 and a deposit of 500, nothing paid. *)
Definition timedHire (rate : Hiring.RateType) (start finish : Z)
    (trip : Hiring.TripType) (allowance : Q) (charges : list Hiring.Charge)
  : Hiring.Hiring :=
  {| Hiring._id := 41;
     Hiring.hiringNumber := "HIR-0000F041";
     Hiring.status := Hiring.Pending;
     Hiring.route := None;
     Hiring.startDate := start;
     Hiring.endDate := finish;
     Hiring.tripType := trip;
     Hiring.returnDate := None;
     Hiring.estimatedDistance := 120;
     Hiring.baseRate := 1000;
     Hiring.rateType := rate;
     Hiring.routePriceMultiplier := 1;
     Hiring.additionalCharges := charges;
     Hiring.driverAllowance := allowance;
     Hiring.overtimeRate := 50;
     Hiring.totalCost := 2000;
     Hiring.deposit := 500;
     Hiring.paymentStatus := Hiring.PayPending;
     Hiring.payments := [];
     Hiring.bus := 3;
     Hiring.notes := None;
     Hiring.cancellationPolicy := "Standard" |}.

(** Twenty-five hours from noon of the 10th of January 2025. *)
Definition twentyFiveHours (rate : Hiring.RateType) : Hiring.Hiring :=
  timedHire rate (Examples.jan 10) (Examples.jan 11 + 3600000)%Z
    Hiring.OneWay 0 [].

(** Ten hours on the 10th, with an allowance and a toll. *)
Definition tenHours (trip : Hiring.TripType) : Hiring.Hiring :=
  timedHire Hiring.Fixed (Examples.jan 10) (Examples.jan 10 + 36000000)%Z
    trip 200
    [{| Hiring.description := "Toll"; Hiring.charge_amount := 30 |}].

(** The ticket of [Examples.paidBooking], not yet verified. *)
Definition freshTicket : TicketController.TicketRecord :=
  TicketController.BookingRecord Examples.paidBooking [].

End Samples.

(* ===================================================================== *)
(** ** Comparisons, sums and rounding *)
(* ===================================================================== *)

Module JSFacts.

Import JS.

Lemma Qltb_lt (x y : Q) : Qltb x y = true <-> x < y.
Proof.
  unfold Qltb. rewrite negb_true_iff.
  split; intro H.
  - apply Qnot_le_lt. intro L. apply Qle_bool_iff in L. congruence.
  - destruct (Qle_bool y x) eqn:E; [|reflexivity].
    apply Qle_bool_iff in E. exfalso. apply (Qlt_not_le _ _ H E).
Qed.

Lemma Qltb_ge (x y : Q) : Qltb x y = false <-> y <= x.
Proof.
  unfold Qltb. rewrite negb_false_iff. apply Qle_bool_iff.
Qed.

Lemma Qgtb_gt (x y : Q) : Qgtb x y = true <-> y < x.
Proof. apply Qltb_lt. Qed.

Lemma Qgtb_le (x y : Q) : Qgtb x y = false <-> x <= y.
Proof. apply Qltb_ge. Qed.

Lemma Qgeb_ge (x y : Q) : Qgeb x y = true <-> y <= x.
Proof. apply Qle_bool_iff. Qed.

Lemma Qgeb_lt (x y : Q) : Qgeb x y = false <-> x < y.
Proof.
  unfold Qgeb. split; intro H.
  - apply Qnot_le_lt. intro L. apply Qle_bool_iff in L. congruence.
  - destruct (Qle_bool y x) eqn:E; [|reflexivity].
    apply Qle_bool_iff in E. exfalso. apply (Qlt_not_le _ _ H E).
Qed.

Lemma Qle_bool_gt (x y : Q) : Qle_bool x y = false <-> y < x.
Proof. apply (Qgeb_lt y x). Qed.

Lemma Qeq_bool_false (x y : Q) : Qeq_bool x y = false <-> ~ x == y.
Proof.
  split.
  - apply Qeq_bool_neq.
  - intro H. destruct (Qeq_bool x y) eqn:E; [|reflexivity].
    apply Qeq_bool_iff in E. contradiction.
Qed.

Lemma or_else_zero (x : Q) : or_else x 0 == x.
Proof.
  unfold or_else, truthy. destruct (Qeq_bool x 0) eqn:E; simpl.
  - apply Qeq_bool_iff in E. symmetry. exact E.
  - reflexivity.
Qed.

Lemma or_else_truthy (x y : Q) : ~ x == 0 -> or_else x y = x.
Proof.
  intro H. unfold or_else, truthy.
  apply Qeq_bool_false in H. rewrite H. reflexivity.
Qed.

End JSFacts.

(** Every boolean comparison in the context becomes the order it decides. *)
Ltac reflect_comparisons :=
  repeat match goal with
    | H : _ && _ = true |- _ => apply andb_true_iff in H; destruct H
    | H : _ && _ = false |- _ => apply andb_false_iff in H; destruct H
    | H : JS.Qltb _ _ = true |- _ => apply JSFacts.Qltb_lt in H
    | H : JS.Qltb _ _ = false |- _ => apply JSFacts.Qltb_ge in H
    | H : JS.Qgtb _ _ = true |- _ => apply JSFacts.Qgtb_gt in H
    | H : JS.Qgtb _ _ = false |- _ => apply JSFacts.Qgtb_le in H
    | H : JS.Qgeb _ _ = true |- _ => apply JSFacts.Qgeb_ge in H
    | H : JS.Qgeb _ _ = false |- _ => apply JSFacts.Qgeb_lt in H
    | H : Qle_bool _ _ = true |- _ => apply Qle_bool_iff in H
    | H : Qle_bool _ _ = false |- _ => apply JSFacts.Qle_bool_gt in H
    | H : Qeq_bool _ _ = true |- _ => apply Qeq_bool_iff in H
    | H : Qeq_bool _ _ = false |- _ => apply JSFacts.Qeq_bool_false in H
    end.

(* ===================================================================== *)
(** ** The payment ledger of a booking *)
(* ===================================================================== *)

Module LedgerFacts.

Import Booking Spec.

Ltac unfold_rules :=
  unfold rulePaid, rulePartiallyPaid, rulePartiallyRefunded, ruleRefunded,
    rulePending in *.

Lemma fold_payments_from (l : list Payment) (a : Q) :
  fold_left (fun total payment => total + pay_amount payment)
    (filter (fun payment => EntryStatus_eqb (pay_status payment) EntryCompleted) l)
    a
  == a + sumCompletedPayments l.
Proof.
  revert a. induction l as [|p r IH]; intro a; simpl.
  - ring.
  - destruct (pay_status p); simpl; rewrite IH; ring.
Qed.

Lemma fold_refunds_from (l : list Refund) (a : Q) :
  fold_left (fun total refund => total + ref_amount refund)
    (filter (fun refund => EntryStatus_eqb (ref_status refund) EntryCompleted) l)
    a
  == a + sumCompletedRefunds l.
Proof.
  revert a. induction l as [|p r IH]; intro a; simpl.
  - ring.
  - destruct (ref_status p); simpl; rewrite IH; ring.
Qed.

(** [getTotalPaid] is the sum of the Completed payment amounts. *)
Lemma getTotalPaid_sum (this : Booking) :
  getTotalPaid this == sumCompletedPayments (payments this).
Proof. unfold getTotalPaid. rewrite fold_payments_from. ring. Qed.

(** [getTotalRefunded] is the sum of the Completed refund amounts. *)
Lemma getTotalRefunded_sum (this : Booking) :
  getTotalRefunded this == sumCompletedRefunds (refunds this).
Proof. unfold getTotalRefunded. rewrite fold_refunds_from. ring. Qed.



Lemma addPayment_fresh (now : Z) (pd : PaymentData) (this : Booking) :
  knownTransaction (pd_transactionId pd) this = None ->
  addPayment now pd this =
    (Return (paymentOf now pd),
     updatePaymentMetadata now
       (updatePaymentStatus
          (set_payments (payments this ++ [paymentOf now pd]) this))).
Proof.
  unfold knownTransaction. intro H.
  unfold addPayment, bind, get, modify, ret. rewrite H. reflexivity.
Qed.

Lemma addPayment_known (now : Z) (pd : PaymentData) (this : Booking)
    (p : Payment) :
  knownTransaction (pd_transactionId pd) this = Some p ->
  addPayment now pd this =
    (Throw "Payment with this transaction ID already exists", this).
Proof.
  unfold knownTransaction. intro H.
  unfold addPayment, bind, get, throw. rewrite H. reflexivity.
Qed.

Lemma addRefund_runs (now : Z) (rnd : string) (rd : RefundData)
    (this : Booking) :
  addRefund now rnd rd this =
    (Return (refundOf now rnd rd),
     updatePaymentMetadata now
       (updatePaymentStatus
          (set_refunds (refunds this ++ [refundOf now rnd rd]) this))).
Proof. reflexivity. Qed.

(** What the two update steps leave alone. *)
Lemma updatePaymentStatus_payments (this : Booking) :
  payments (updatePaymentStatus this) = payments this.
Proof.
  unfold updatePaymentStatus.
  repeat match goal with |- context [if ?c then _ else _] => destruct c end;
    reflexivity.
Qed.

Lemma updatePaymentStatus_refunds (this : Booking) :
  refunds (updatePaymentStatus this) = refunds this.
Proof.
  unfold updatePaymentStatus.
  repeat match goal with |- context [if ?c then _ else _] => destruct c end;
    reflexivity.
Qed.

Lemma updatePaymentStatus_totalFare (this : Booking) :
  totalFare (updatePaymentStatus this) = totalFare this.
Proof.
  unfold updatePaymentStatus.
  repeat match goal with |- context [if ?c then _ else _] => destruct c end;
    reflexivity.
Qed.

Lemma getTotalPaid_payments (a b : Booking) :
  payments a = payments b -> getTotalPaid a = getTotalPaid b.
Proof. unfold getTotalPaid. intros ->. reflexivity. Qed.

Lemma getTotalRefunded_refunds (a b : Booking) :
  refunds a = refunds b -> getTotalRefunded a = getTotalRefunded b.
Proof. unfold getTotalRefunded. intros ->. reflexivity. Qed.




(** When no rule applies the status stays as it was. *)
Lemma updatePaymentStatus_no_rule (this : Booking) :
  (forall s, ~ derivedStatus (getTotalPaid this) (totalFare this)
                 (getTotalRefunded this) s) ->
  paymentStatus (updatePaymentStatus this) = paymentStatus this.
Proof.
  intro N. unfold updatePaymentStatus.
  pose proof (JSFacts.or_else_zero (totalFare this)) as F.
  set (tp := getTotalPaid this) in *.
  set (tr := getTotalRefunded this) in *.
  set (tf := JS.or_else (totalFare this) 0) in *.
  destruct (JS.Qgeb tp tf && Qeq_bool tr 0) eqn:B1;
    [|destruct (JS.Qgtb tp 0 && JS.Qltb tp tf) eqn:B2;
      [|destruct (JS.Qgtb tr 0 && JS.Qltb tr tp) eqn:B3;
        [|destruct (JS.Qgeb tr tp && JS.Qgtb tp 0) eqn:B4;
          [|destruct (Qeq_bool tp 0) eqn:B5]]]].
  6: { destruct (PaymentStatus_eqb (paymentStatus this) Paid
                 && Status_eqb (status this) Pending); reflexivity. }
  all: exfalso.
  - apply (N Paid). apply derivePaid.
    reflect_comparisons; unfold_rules; lra.
  - apply (N PartiallyPaid). apply derivePartiallyPaid;
      reflect_comparisons; unfold_rules; lra.
  - apply (N PartiallyRefunded). apply derivePartiallyRefunded;
      reflect_comparisons; unfold_rules; lra.
  - apply (N PayRefunded). apply deriveRefunded;
      reflect_comparisons; unfold_rules; lra.
  - apply (N PayPending). apply derivePending;
      reflect_comparisons; unfold_rules; lra.
Qed.

End LedgerFacts.

(* ===================================================================== *)
(** ** Repeated transaction identifiers *)
(* ===================================================================== *)

Module DuplicateFacts.

Import Booking Spec LedgerFacts PaymentController.

Lemma knownTransaction_In (tid : string) (this : Booking) :
  In tid (map pay_transactionId (payments this)) ->
  exists p, knownTransaction tid this = Some p.
Proof.
  unfold knownTransaction. induction (payments this) as [|q r IH]; simpl.
  - intros [].
  - intros [E|I].
    + subst tid. rewrite String.eqb_refl. eauto.
    + destruct (String.eqb (pay_transactionId q) tid); eauto.
Qed.

(** A recorded payment makes its transaction identifier known. *)
Lemma addPayment_records (now : Z) (pd : PaymentData) (this this' : Booking)
    (p : Payment) :
  addPayment now pd this = (Return p, this') ->
  In (pd_transactionId pd) (map pay_transactionId (payments this')).
Proof.
  intro H.
  destruct (knownTransaction (pd_transactionId pd) this) as [q|] eqn:K.
  - rewrite (addPayment_known now pd this K) in H. discriminate H.
  - rewrite (addPayment_fresh now pd this K) in H.
    injection H as _ H. subst this'. simpl.
    rewrite updatePaymentStatus_payments. simpl.
    rewrite map_app. apply in_or_app. right. simpl. auto.
Qed.






(** The second of two calls with one identifier: rejected, nothing moved. *)
Lemma addPayment_twice (now now' : Z) (pd pd' : PaymentData)
    (this this' : Booking) (p : Payment) :
  addPayment now pd this = (Return p, this') ->
  pd_transactionId pd' = pd_transactionId pd ->
  addPayment now' pd' this' =
    (Throw "Payment with this transaction ID already exists", this').
Proof.
  intros H E.
  pose proof (addPayment_records _ _ _ H) as I. rewrite <- E in I.
  destruct (knownTransaction_In _ _ I) as [q K].
  exact (addPayment_known now' pd' this' K).
Qed.


End DuplicateFacts.

(* ===================================================================== *)
(** ** Cancellation of a booking *)
(* ===================================================================== *)

Module CancellationFacts.

Import Booking Spec LedgerFacts BookingController.


(** Every number of hours falls in exactly one tier. *)
Lemma bookingTier_total (hours : Q) : bookingTier hours (refundPercentage hours).
Proof.
  unfold refundPercentage.
  destruct (JS.Qgtb hours 72) eqn:B1;
    [|destruct (JS.Qgtb hours 48) eqn:B2;
      [|destruct (JS.Qgtb hours 24) eqn:B3;
        [|destruct (JS.Qgtb hours 12) eqn:B4]]];
    reflect_comparisons;
    [ apply tier100 | apply tier75 | apply tier50 | apply tier25
    | apply tier0 ]; lra.
Qed.

Lemma handleCancellation_refund (now : Z) (rnd reason : string)
    (this : Booking) :
  let amount :=
    JS.round2 (getTotalPaid this
               * refundPercentage (hoursToDeparture now this)) in
  0 < amount ->
  handleCancellation now rnd reason this =
    (Return {| success := true;
               res_refundAmount := amount;
               res_refundPercentage :=
                 refundPercentage (hoursToDeparture now this);
               res_refundTransactionId := Some ("REF-" ++ rnd)%string;
               res_message := None |},
     updatePaymentMetadata now
       (updatePaymentStatus
          (set_refunds
             (refunds this ++ [cancellationRefund now rnd reason amount])
             this))).
Proof.
  intros amount P. unfold handleCancellation, bind, get.
  fold (JS.round2 (getTotalPaid this
                   * refundPercentage (hoursToDeparture now this))).
  fold amount.
  apply JSFacts.Qgtb_gt in P. rewrite P.
  unfold addRefund, bind, modify, ret, cancellationRefund. reflexivity.
Qed.


Lemma Status_eqb_eq (a b : Status) : Status_eqb a b = true <-> a = b.
Proof. destruct a, b; simpl; split; congruence. Qed.

Lemma Status_eqb_neq (a b : Status) : Status_eqb a b = false <-> a <> b.
Proof. destruct a, b; simpl; split; congruence. Qed.

Lemma round2_compat (a b : Q) : a == b -> JS.round2 a = JS.round2 b.
Proof.
  intro E. unfold JS.round2, JS.Math_round.
  assert (a * 100 + (1 # 2) == b * 100 + (1 # 2)) as E' by (rewrite E; reflexivity).
  rewrite (Qfloor_comp _ _ E'). reflexivity.
Qed.

Lemma fold_all_payments_from (l : list Payment) (a : Q) :
  fold_left (fun sum payment => sum + pay_amount payment) l a
  == a + sumAllPayments l.
Proof.
  revert a. induction l as [|p r IH]; intro a; simpl.
  - ring.
  - rewrite IH. ring.
Qed.





Lemma PaymentStatus_eqb_eq (a b : PaymentStatus) :
  PaymentStatus_eqb a b = true <-> a = b.
Proof. destruct a, b; simpl; split; congruence. Qed.

Lemma PaymentStatus_eqb_neq (a b : PaymentStatus) :
  PaymentStatus_eqb a b = false <-> a <> b.
Proof. destruct a, b; simpl; split; congruence. Qed.

(** C8, as the code has it.  Less than 24 hours before departure, a
    cancellation by a user who is not an admin is refused (for a booking
    that can still be cancelled, as too late) and the booking is unchanged.
    By an admin it goes through: the booking becomes Cancelled, at 50% of
    the payments when its payment status is Paid or Partially Paid, and at
    0% otherwise. *)
Theorem late_cancellation (now : Z) (user : User) (reason : option string)
    (this : Booking) :
  hoursToDeparture now this < 24 ->
  status this <> Cancelled -> status this <> Completed ->
  (isAdminRole user = false ->
   cancelBooking now user reason (Some this) =
     (TooLateToCancel (hoursToDeparture now this), Some this))
  /\ (isAdminRole user = true ->
      exists amount pct this',
        cancelBooking now user reason (Some this) =
          (CancelledOk amount pct, Some this')
        /\ status this' = Cancelled
        /\ (paymentStatus this = Paid \/ paymentStatus this = PartiallyPaid ->
            pct = 1 # 2
            /\ amount = JS.round2 (sumAllPayments (payments this) * (1 # 2)))
        /\ (paymentStatus this <> Paid -> paymentStatus this <> PartiallyPaid ->
            pct = 0 /\ amount = 0)).
Proof.
  intros H24 NC ND.
  apply Status_eqb_neq in NC, ND.
  assert (JS.Qltb (hoursToDeparture now this) 24 = true) as L
    by (apply JSFacts.Qltb_lt; exact H24).
  split; intro A; unfold cancelBooking; rewrite NC, ND;
    fold (hoursToDeparture now this); rewrite L, A; simpl.
  - reflexivity.
  - assert (JS.Qgtb (hoursToDeparture now this) 72 = false) as G72
      by (apply JSFacts.Qgtb_le; lra).
    assert (JS.Qgtb (hoursToDeparture now this) 48 = false) as G48
      by (apply JSFacts.Qgtb_le; lra).
    assert (JS.Qgtb (hoursToDeparture now this) 24 = false) as G24
      by (apply JSFacts.Qgtb_le; lra).
    rewrite G72, G48, G24.
    destruct (PaymentStatus_eqb (paymentStatus this) Paid
              || PaymentStatus_eqb (paymentStatus this) PartiallyPaid) eqn:P.
    + eexists. eexists. eexists. split; [reflexivity|].
      split; [reflexivity|]. split.
      * intros _. split; [reflexivity|].
        apply round2_compat.
        rewrite JSFacts.or_else_zero, fold_all_payments_from. ring.
      * intros N1 N2. apply orb_true_iff in P.
        destruct P as [P|P]; apply PaymentStatus_eqb_eq in P; contradiction.
    + eexists. eexists. eexists. split; [reflexivity|].
      split; [reflexivity|]. split.
      * apply orb_false_iff in P. destruct P as [P1 P2].
        apply PaymentStatus_eqb_neq in P1, P2.
        intros [E|E]; contradiction.
      * intros _ _. split; reflexivity.
Qed.

Lemma late_cancellation_witness :
  cancelBooking Examples.hours18Before Examples.passenger None
    (Some Examples.paidBooking) =
    (TooLateToCancel
       (hoursToDeparture Examples.hours18Before Examples.paidBooking),
     Some Examples.paidBooking).
Proof.
  refine (proj1 (@late_cancellation Examples.hours18Before Examples.passenger
                   None Examples.paidBooking _ _ _) _).
  - vm_compute. reflexivity.
  - vm_compute. intro H. discriminate H.
  - vm_compute. intro H. discriminate H.
  - reflexivity.
Defined.

(** C8 fails as stated: an admin cancelling, 18 hours ahead, a booking on
    which nothing was paid is reported 0%, not 50%. *)
Lemma admin_late_cancellation_counterexample :
  hoursToDeparture Examples.hours18Before Examples.unpaidBooking < 24
  /\ isAdminRole Examples.admin = true
  /\ status Examples.unpaidBooking = Pending
  /\ exists amount pct,
      fst (cancelBooking Examples.hours18Before Examples.admin None
             (Some Examples.unpaidBooking))
      = CancelledOk amount pct
      /\ pct == 0 /\ ~ pct == 1 # 2.
Proof.
  split; [vm_compute; reflexivity|]. split; [reflexivity|].
  split; [reflexivity|].
  eexists. eexists. split; [vm_compute; reflexivity|].
  split; [reflexivity|]. vm_compute. intro H. discriminate H.
Qed.

End CancellationFacts.

(* ===================================================================== *)
(** ** Terminal states *)
(* ===================================================================== *)

Module StatusFacts.

Import Booking BookingController CancellationFacts.

(** The model method sets whatever valid status it is given. *)
Lemma updateStatus_sets (now : Z) (rnd reason : string) (requested : Status)
    (this : Booking) :
  requested <> Cancelled -> requested <> Refunded ->
  updateStatus now rnd requested reason this =
    (Return {| sc_success := true; oldStatus := status this;
               newStatus := requested |},
     set_status requested this).
Proof.
  intros NC NR. destruct requested; try contradiction; reflexivity.
Qed.

(** C9, as the code has it.  For a booking that is Cancelled or Completed,
    the handler [updateBookingStatus] refuses every change to another
    status, and [cancelBooking] refuses too; both leave the booking as it
    was.  The model method [updateStatus] makes no such check: it sets the
    status it is given. *)
Theorem terminal_status_is_kept (now : Z) (user : User) (requested : Status)
    (notes : option string) (rnd reason : string) (this : Booking) :
  status this = Cancelled \/ status this = Completed ->
  requested <> status this ->
  (let out := updateBookingStatus now user (Some requested) notes (Some this) in
   snd out = Some this
   /\ (fst out = InvalidStatus \/ fst out = CannotChangeCancelled
       \/ fst out = CannotChangeCompleted))
  /\ (let out := cancelBooking now user notes (Some this) in
      snd out = Some this
      /\ (fst out = AlreadyCancelled \/ fst out = CannotCancelCompleted))
  /\ (requested <> Cancelled -> requested <> Refunded ->
      status (snd (updateStatus now rnd requested reason this)) = requested).
Proof.
  intros T N. split; [|split].
  - unfold updateBookingStatus.
    destruct (negb (existsb (Status_eqb requested) controllerValidStatuses));
      [simpl; auto|].
    destruct T as [T|T]; rewrite T in *; simpl.
    + apply Status_eqb_neq in N. rewrite N. simpl. auto.
    + assert (Status_eqb requested Completed = false) as N'
        by (apply Status_eqb_neq; exact N).
      rewrite N'. simpl. auto.
  - unfold cancelBooking. destruct T as [T|T]; rewrite T; simpl; auto.
  - intros NC NR. rewrite (updateStatus_sets now rnd reason this NC NR).
    reflexivity.
Qed.

Lemma terminal_status_is_kept_witness :
  snd (updateBookingStatus 1736000000000 Examples.admin (Some Pending) None
         (Some Examples.cancelledBooking))
  = Some Examples.cancelledBooking.
Proof.
  refine (proj1 (proj1 (@terminal_status_is_kept 1736000000000 Examples.admin
                          Pending None "AB12CD34" ""
                          Examples.cancelledBooking _ _))).
  - left. reflexivity.
  - intro H. discriminate H.
Defined.

(** C9 fails on the model method: [updateStatus] takes a Cancelled booking
    back to Pending. *)
Lemma updateStatus_leaves_terminal_state :
  status Examples.cancelledBooking = Cancelled
  /\ exists r this',
      updateStatus 1736000000000 "AB12CD34" Pending "" Examples.cancelledBooking
      = (Return r, this')
      /\ sc_success r = true
      /\ status this' = Pending
      /\ status this' <> status Examples.cancelledBooking.
Proof.
  split; [reflexivity|].
  eexists. eexists. split; [vm_compute; reflexivity|].
  split; [reflexivity|]. split; [reflexivity|].
  intro H. discriminate H.
Qed.

End StatusFacts.

(* ===================================================================== *)
(** ** The ledger of a hiring *)
(* ===================================================================== *)

Module HiringLedgerFacts.

Import Hiring Spec.

Lemma Math_max_zero (x : Q) :
  (0 <= x -> JS.Math_max 0 x = x) /\ (x < 0 -> JS.Math_max 0 x = 0).
Proof.
  unfold JS.Math_max. destruct (Qle_bool 0 x) eqn:E; reflect_comparisons;
    split; intro H; try reflexivity; exfalso; lra.
Qed.

Lemma Math_max_zero_monotone (x y : Q) :
  x <= y -> JS.Math_max 0 x <= JS.Math_max 0 y.
Proof.
  intro L. unfold JS.Math_max.
  destruct (Qle_bool 0 x) eqn:E; destruct (Qle_bool 0 y) eqn:F;
    reflect_comparisons; lra.
Qed.

(** The total paid once an entry is appended. *)
Lemma totalPaid_append (this : Hiring) (entry : Payment) :
  pay_status entry = EntryCompleted ->
  totalPaid (set_payments (payments this ++ [entry]) this)
  = totalPaid this + amount entry.
Proof.
  intro C. unfold totalPaid. simpl. rewrite fold_left_app. simpl.
  rewrite C. reflexivity.
Qed.

(** What a cancellation with a positive refund does to the hiring. *)
Lemma hiring_handleCancellation_refund (now : Z) (iso rnd reason : string)
    (this : Hiring) :
  0 < hiringRefundAmount now this ->
  exists res this',
    handleCancellation now iso rnd reason this = (Return res, this')
    /\ res_refundAmount res = hiringRefundAmount now this
    /\ payments this' =
         payments this ++
           [hiringRefundEntry now rnd (hiringRefundAmount now this)]
    /\ totalCost this' = totalCost this.
Proof.
  intro P. unfold handleCancellation, bind, get.
  fold (totalPaid this).
  fold (JS.round2 (totalPaid this
                   * refundPercentage (cancellationPolicy this)
                       (daysToDeparture now this))).
  fold (hiringRefundAmount now this).
  apply JSFacts.Qgtb_gt in P. rewrite P.
  unfold modify, ret. simpl.
  eexists. eexists. split; [reflexivity|].
  split; [reflexivity|].
  destruct (JS.Qgeb (hiringRefundAmount now this) (totalPaid this));
    split; reflexivity.
Qed.

(** C10.  A cancellation of a hiring that refunds a positive amount appends
    to [payments] an entry with the negated amount, method Refund and
    status Completed; so the virtual [totalPaid] goes down by the amount,
    and [remainingBalance], max(0, totalCost - totalPaid), never goes down:
    it is max(0, totalCost - totalPaid + amount), the old balance plus the
    amount when no more than the cost had been paid.  A refund added to a
    booking goes to [refunds] and leaves its payments and total paid as
    they were. *)
Theorem hiring_refund_nets_total_paid (now : Z) (iso rnd reason : string)
    (this : Hiring) (bnow : Z) (brnd : string)
    (refundData : Booking.RefundData) (booking : Booking.Booking) :
  let refund := hiringRefundAmount now this in
  0 < refund ->
  (exists res this',
      handleCancellation now iso rnd reason this = (Return res, this')
      /\ payments this' = payments this ++ [hiringRefundEntry now rnd refund]
      /\ totalPaid this' == totalPaid this - refund
      /\ remainingBalance this'
         == JS.Math_max 0 (totalCost this - totalPaid this + refund)
      /\ remainingBalance this <= remainingBalance this'
      /\ (totalPaid this <= totalCost this ->
          remainingBalance this' == remainingBalance this + refund))
  /\ (let booking' := snd (Booking.addRefund bnow brnd refundData booking) in
      Booking.payments booking' = Booking.payments booking
      /\ Booking.getTotalPaid booking' = Booking.getTotalPaid booking
      /\ List.length (Booking.refunds booking')
         = S (List.length (Booking.refunds booking))).
Proof.
  intros refund P. split.
  - destruct (@hiring_handleCancellation_refund now iso rnd reason this P)
      as (res & this' & E & _ & Ep & Ec).
    exists res, this'. split; [exact E|]. split; [exact Ep|].
    assert (totalPaid this' = totalPaid this + - refund) as Et.
    { unfold totalPaid at 1. rewrite Ep. rewrite fold_left_app. reflexivity. }
    assert (remainingBalance this'
            = JS.Math_max 0 (totalCost this - (totalPaid this + - refund)))
      as Er.
    { unfold remainingBalance. rewrite Et, Ec. reflexivity. }
    split; [rewrite Et; ring|].
    split.
    { rewrite Er.
      destruct (Math_max_zero (totalCost this - (totalPaid this + - refund)))
        as [M1 M2].
      destruct (Math_max_zero (totalCost this - totalPaid this + refund))
        as [M3 M4].
      destruct (Qlt_le_dec (totalCost this - totalPaid this + refund) 0)
        as [N|N].
      - rewrite M2, M4; [reflexivity|lra|lra].
      - rewrite M1, M3; [ring|lra|lra]. }
    split.
    { rewrite Er. unfold remainingBalance.
      apply Math_max_zero_monotone. lra. }
    intro L. rewrite Er. unfold remainingBalance.
    destruct (Math_max_zero (totalCost this - (totalPaid this + - refund)))
      as [M1 _].
    destruct (Math_max_zero (totalCost this - totalPaid this)) as [M3 _].
    rewrite M1, M3; [ring|lra|lra].
  - rewrite LedgerFacts.addRefund_runs. simpl.
    rewrite LedgerFacts.updatePaymentStatus_payments,
      LedgerFacts.updatePaymentStatus_refunds. simpl.
    split; [reflexivity|]. split.
    + apply LedgerFacts.getTotalPaid_payments. simpl.
      rewrite LedgerFacts.updatePaymentStatus_payments. reflexivity.
    + rewrite length_app. simpl. lia.
Qed.

Lemma hiring_refund_nets_total_paid_witness :
  exists res this',
    handleCancellation Examples.tenDaysBefore "2024-12-31T12:00:00.000Z"
      "AB12CD34" "event moved" Examples.hiringT1 = (Return res, this')
    /\ totalPaid this' == 0
    /\ remainingBalance this' == 1000.
Proof.
  assert (0 < hiringRefundAmount Examples.tenDaysBefore Examples.hiringT1) as P.
  { vm_compute. reflexivity. }
  destruct (@hiring_refund_nets_total_paid Examples.tenDaysBefore
              "2024-12-31T12:00:00.000Z" "AB12CD34" "event moved"
              Examples.hiringT1 1736000000000 "AB12CD34" Examples.refundOfTen
              Examples.paidBooking P)
    as [(res & this' & E & _ & Et & Er & _) _].
  exists res, this'. split; [exact E|]. split.
  - rewrite Et. vm_compute. reflexivity.
  - rewrite Er. vm_compute. reflexivity.
Defined.

End HiringLedgerFacts.

(* ===================================================================== *)
(** ** The cost of a hiring *)
(* ===================================================================== *)

Module CostFacts.

Import Hiring Spec.

Section RouteBased.

Variable findRoute : nat -> option Route.Route.
Variable findBus : nat -> option Bus.Bus.

(** The Route-Based case of the [switch], once route and bus resolve. *)
Lemma baseCost_route_based (this : Hiring) (routeId : nat)
    (r : Route.Route) (b : Bus.Bus) :
  rateType this = RouteBased ->
  route this = Some routeId ->
  findRoute routeId = Some r ->
  findBus (bus this) = Some b ->
  baseCost findRoute findBus this =
    Return (JS.or_else (baseRate this) (Route.baseFare r)
            * inject_Z (Bus.capacity b)
            * JS.or_else (routePriceMultiplier this) 1).
Proof.
  intros T R Fr Fb. unfold baseCost. rewrite T, R, Fr, Fb. reflexivity.
Qed.

(** With no overtime rate the period plays no part in what follows the
    [switch]. *)
Lemma withExtras_no_overtime (this : Hiring) (start finish : Z) (c : Q) :
  overtimeRate this <= 0 ->
  withExtras (withDates start finish this) c = withExtras this c.
Proof.
  intro O. unfold withExtras. simpl.
  assert (JS.Qgtb (overtimeRate this) 0 = false) as E
    by (apply JSFacts.Qgtb_le; exact O).
  rewrite E. rewrite !andb_false_r. reflexivity.
Qed.

End RouteBased.

(** C4.  For a Route-Based hiring whose route and bus resolve, the cost
    before allowance, overtime and additional charges is the base rate (the
    route's base fare when the hiring has none) times the capacity of the
    bus times the route price multiplier, whatever the period of the
    hiring.  With a base fare of 15000 and 25 seats the total is 375000 one
    way at multiplier 1, 750000 at multiplier 2, and 750000 for a round
    trip at multiplier 1. *)
Theorem route_based_cost
    (findRoute : nat -> option Route.Route) (findBus : nat -> option Bus.Bus)
    (this : Hiring) (routeId : nat) (r : Route.Route) (b : Bus.Bus) :
  rateType this = RouteBased ->
  route this = Some routeId ->
  findRoute routeId = Some r ->
  findBus (bus this) = Some b ->
  1 <= routePriceMultiplier this ->
  (~ baseRate this == 0 ->
   baseCost findRoute findBus this =
     Return (baseRate this * inject_Z (Bus.capacity b)
             * routePriceMultiplier this))
  /\ (baseRate this == 0 ->
      baseCost findRoute findBus this =
        Return (Route.baseFare r * inject_Z (Bus.capacity b)
                * routePriceMultiplier this))
  /\ (forall start finish,
        baseCost findRoute findBus (withDates start finish this)
        = baseCost findRoute findBus this)
  /\ (exists c,
        costOf Examples.findRoute Examples.findBus
          (Examples.routeHire 1 OneWay) = Some c /\ c == 375000)
  /\ (exists c,
        costOf Examples.findRoute Examples.findBus
          (Examples.routeHire 2 OneWay) = Some c /\ c == 750000)
  /\ (exists c,
        costOf Examples.findRoute Examples.findBus
          (Examples.routeHire 1 RoundTrip) = Some c /\ c == 750000).
Proof.
  intros T R Fr Fb M.
  pose proof (baseCost_route_based findRoute findBus this T R Fr Fb) as E.
  assert (JS.or_else (routePriceMultiplier this) 1 = routePriceMultiplier this)
    as Em by (apply JSFacts.or_else_truthy; lra).
  rewrite Em in E.
  split; [|split; [|split; [|split; [|split]]]].
  - intro N. rewrite (JSFacts.or_else_truthy _ N) in E. exact E.
  - intro Z. rewrite E. unfold JS.or_else, JS.truthy.
    apply Qeq_bool_iff in Z. rewrite Z. reflexivity.
  - intros start finish. unfold baseCost. simpl. rewrite T. reflexivity.
  - eexists. split; [vm_compute; reflexivity|]. vm_compute. reflexivity.
  - eexists. split; [vm_compute; reflexivity|]. vm_compute. reflexivity.
  - eexists. split; [vm_compute; reflexivity|]. vm_compute. reflexivity.
Qed.

Lemma route_based_cost_witness :
  baseCost Examples.findRoute Examples.findBus (Examples.routeHire 2 RoundTrip)
  = Return (15000 * inject_Z 25 * 2).
Proof.
  refine (proj1 (proj2 (@route_based_cost Examples.findRoute Examples.findBus
                          (Examples.routeHire 2 RoundTrip) 5%nat
                          Examples.route5 Examples.bus3 _ _ _ _ _)) _).
  - reflexivity.
  - reflexivity.
  - reflexivity.
  - reflexivity.
  - vm_compute. intro H. discriminate H.
  - reflexivity.
Defined.

(** A Route-Based hiring with no overtime rate costs the same over any
    period. *)
Lemma route_based_total_ignores_period
    (findRoute : nat -> option Route.Route) (findBus : nat -> option Bus.Bus)
    (this : Hiring) (start finish : Z) :
  rateType this = RouteBased ->
  overtimeRate this <= 0 ->
  fst (calculateTotalCost findRoute findBus (withDates start finish this))
  = fst (calculateTotalCost findRoute findBus this).
Proof.
  intros T O. unfold calculateTotalCost, bind, get.
  assert (baseCost findRoute findBus (withDates start finish this)
          = baseCost findRoute findBus this) as E.
  { unfold baseCost. simpl. rewrite T. reflexivity. }
  rewrite E. destruct (baseCost findRoute findBus this) as [c|e].
  - unfold modify, ret. simpl.
    rewrite (withExtras_no_overtime this start finish c O). reflexivity.
  - reflexivity.
Qed.

End CostFacts.

(* ===================================================================== *)
(** ** The fare of a booking *)
(* ===================================================================== *)

Module FareFacts.

Import Booking Spec BookingController.

Lemma Qfloor_half (k : Z) : Qfloor (inject_Z k + (1 # 2)) = k.
Proof.
  pose proof (Qfloor_le (inject_Z k + (1 # 2))) as L.
  pose proof (Qlt_floor (inject_Z k + (1 # 2))) as U.
  set (f := Qfloor (inject_Z k + (1 # 2))) in *.
  assert (inject_Z f < inject_Z (k + 1)) as A.
  { rewrite inject_Z_plus. change (inject_Z 1) with 1. lra. }
  assert (inject_Z k < inject_Z (f + 1)) as B by lra.
  rewrite <- Zlt_Qlt in A, B. lia.
Qed.

(** Rounding leaves an amount with at most two decimals as it is. *)
Lemma round2_exact (x : Q) : wholeHundredths x -> JS.round2 x == x.
Proof.
  intros [k E]. unfold JS.round2, JS.Math_round.
  assert (x * 100 + (1 # 2) == inject_Z k + (1 # 2)) as E'
    by (rewrite E; reflexivity).
  rewrite (Qfloor_comp _ _ E'), Qfloor_half, <- E. field.
Qed.

Lemma wholeHundredths_double (x : Q) :
  wholeHundredths x -> wholeHundredths (x * 2).
Proof.
  intros [k E]. exists (2 * k)%Z. rewrite inject_Z_mult.
  change (inject_Z 2) with 2. rewrite <- E. ring.
Qed.

Section Model.

Variable timezoneOffset : Z.
Variable findRoute : nat -> option Route.Route.
Variable calculateFare : Route.Route -> Route.FareOptions -> Q.

(** The total before rounding: the passengers' fares, times the factor
    of the booking type, and only then the discount. *)
Lemma unroundedFare_stages (this : Booking) (r : Route.Route) :
  unroundedFare timezoneOffset calculateFare this r
  == passengersFare timezoneOffset calculateFare this r
     * tripFactor (bookingType this) * (1 - discountApplied this).
Proof.
  unfold unroundedFare.
  destruct (JS.truthy (discountApplied this)) eqn:D.
  - destruct (bookingType this); simpl; ring.
  - unfold JS.truthy in D. apply negb_false_iff in D.
    apply Qeq_bool_iff in D.
    destruct (bookingType this); simpl; rewrite D; ring.
Qed.

Lemma calculateTotalFare_runs (this : Booking) (r : Route.Route) :
  findRoute (route this) = Some r ->
  calculateTotalFare timezoneOffset findRoute calculateFare this =
    (Return (JS.round2 (unroundedFare timezoneOffset calculateFare this r)),
     set_totalFare
       (JS.round2 (unroundedFare timezoneOffset calculateFare this r)) this).
Proof.
  intro F. unfold calculateTotalFare, bind, get. rewrite F. reflexivity.
Qed.

Lemma unroundedFare_round_trip (this : Booking) (r : Route.Route) :
  discountApplied this == 0 ->
  unroundedFare timezoneOffset calculateFare
    (withBookingType RoundTrip this) r
  == unroundedFare timezoneOffset calculateFare
       (withBookingType OneWay this) r * 2.
Proof.
  intro D. rewrite !unroundedFare_stages. simpl.
  change (passengersFare timezoneOffset calculateFare
            (withBookingType RoundTrip this) r)
    with (passengersFare timezoneOffset calculateFare
            (withBookingType OneWay this) r).
  rewrite D. ring.
Qed.

End Model.

Lemma requestFare_stages (baseFare : Q) (n : nat) (t : BookingType)
    (promo : option string) :
  requestFare baseFare n t promo
  == baseFare * inject_Z (Z.of_nat n) * tripFactor t
     * match promo with
       | Some code => if String.eqb code "WELCOME10" then 9 # 10 else 1
       | None => 1
       end.
Proof.
  unfold requestFare.
  destruct t, promo as [code|]; simpl;
    try destruct (String.eqb code "WELCOME10"); ring.
Qed.

(** C7, as the code has it.  With no promo code the round-trip total
    before rounding is twice the one-way total: the doubling comes after
    the passengers' fares, the discount after the doubling, and the only
    rounding is the last step.  So the round-trip fare is the rounding of
    twice the unrounded one-way total, and it is exactly twice the one-way
    fare whenever the one-way total has at most two decimals.  The same
    holds of the fare [createBooking] computes. *)
Theorem round_trip_fare
    (timezoneOffset : Z) (findRoute : nat -> option Route.Route)
    (calculateFare : Route.Route -> Route.FareOptions -> Q)
    (this : Booking) (r : Route.Route) (baseFare : Q) (n : nat) :
  findRoute (route this) = Some r ->
  discountApplied this == 0 ->
  let oneWay :=
    unroundedFare timezoneOffset calculateFare (withBookingType OneWay this) r in
  (exists fareOneWay fareRoundTrip,
      fst (calculateTotalFare timezoneOffset findRoute calculateFare
             (withBookingType OneWay this)) = Return fareOneWay
      /\ fst (calculateTotalFare timezoneOffset findRoute calculateFare
                (withBookingType RoundTrip this)) = Return fareRoundTrip
      /\ fareOneWay = JS.round2 oneWay
      /\ fareRoundTrip = JS.round2 (oneWay * 2)
      /\ (wholeHundredths oneWay -> fareRoundTrip == 2 * fareOneWay))
  /\ (forall any : Booking,
        unroundedFare timezoneOffset calculateFare any r
        == passengersFare timezoneOffset calculateFare any r
           * tripFactor (bookingType any) * (1 - discountApplied any))
  /\ requestFare baseFare n RoundTrip None
     == requestFare baseFare n OneWay None * 2
  /\ (wholeHundredths (requestFare baseFare n OneWay None) ->
      JS.round2 (requestFare baseFare n RoundTrip None)
      == 2 * JS.round2 (requestFare baseFare n OneWay None))
  /\ (forall t,
        requestFare baseFare n t (Some "WELCOME10")
        == requestFare baseFare n t None * (9 # 10)).
Proof.
  intros F D oneWay.
  split; [|split; [|split; [|split]]].
  - exists (JS.round2 oneWay), (JS.round2 (oneWay * 2)).
    split; [|split; [|split; [|split]]].
    + rewrite (@calculateTotalFare_runs timezoneOffset findRoute calculateFare
                 (withBookingType OneWay this) r F).
      reflexivity.
    + rewrite (@calculateTotalFare_runs timezoneOffset findRoute calculateFare
                 (withBookingType RoundTrip this) r F).
      simpl. f_equal. apply CancellationFacts.round2_compat.
      apply unroundedFare_round_trip. exact D.
    + reflexivity.
    + reflexivity.
    + intro W. rewrite (round2_exact W).
      rewrite (round2_exact (wholeHundredths_double W)). ring.
  - intro any. apply unroundedFare_stages.
  - rewrite !requestFare_stages. simpl. ring.
  - intro W.
    assert (requestFare baseFare n RoundTrip None
            == requestFare baseFare n OneWay None * 2) as E
      by (rewrite !requestFare_stages; simpl; ring).
    rewrite (CancellationFacts.round2_compat E).
    rewrite (round2_exact W).
    rewrite (round2_exact (wholeHundredths_double W)). ring.
  - intro t. rewrite !requestFare_stages. simpl. ring.
Qed.

Lemma round_trip_fare_witness :
  requestFare 15000 3 RoundTrip None == requestFare 15000 3 OneWay None * 2.
Proof.
  refine (proj1 (proj2 (proj2
            (@round_trip_fare 0 (fun _ => Some Examples.route5)
               (fun r _ => Route.baseFare r)
               (set_totalFare 0 Examples.unpaidBooking)
               Examples.route5 15000 3%nat _ _)))).
  - reflexivity.
  - reflexivity.
Defined.

(** C7 fails as stated: at 1500.125 a seat the one-way fare is 1500.13 and
    the round-trip fare 3000.25, which is not twice 1500.13. *)
Lemma round_trip_not_twice_one_way :
  exists fareOneWay fareRoundTrip,
    Examples.createdFare OneWay = Some fareOneWay
    /\ Examples.createdFare RoundTrip = Some fareRoundTrip
    /\ fareOneWay == 150013 # 100
    /\ fareRoundTrip == 300025 # 100
    /\ ~ fareRoundTrip == 2 * fareOneWay.
Proof.
  eexists. eexists.
  split; [vm_compute; reflexivity|].
  split; [vm_compute; reflexivity|].
  split; [vm_compute; reflexivity|].
  split; [vm_compute; reflexivity|].
  vm_compute. intro H. discriminate H.
Qed.

End FareFacts.

(* ===================================================================== *)
(** ** Availability of a bus *)
(* ===================================================================== *)

Module AvailabilityFacts.

Import Hiring Spec.

Lemma Hiring_Status_eqb_eq (a b : Status) : Status_eqb a b = true <-> a = b.
Proof. destruct a, b; simpl; split; congruence. Qed.

Lemma Booking_Status_eqb_eq (a b : Booking.Status) :
  Booking.Status_eqb a b = true <-> a = b.
Proof. destruct a, b; simpl; split; congruence. Qed.

Lemma between_within (lo hi d : Z) : between lo hi d = true <-> within lo hi d.
Proof. unfold between, within. rewrite andb_true_iff, !Z.leb_le. tauto. Qed.

Lemma between_opt_within (lo hi : Z) (d : option Z) :
  between_opt lo hi d = true <-> exists r, d = Some r /\ within lo hi r.
Proof.
  destruct d as [r|]; simpl.
  - rewrite between_within. split.
    + intro W. exists r. auto.
    + intros (r' & E & W). injection E as ->. exact W.
  - split; [discriminate|]. intros (r & E & _). discriminate E.
Qed.

Lemma activeHiring_existsb (h : Hiring) :
  existsb (Status_eqb (status h)) [Confirmed; Pending; InProgress] = true
  <-> activeHiring h.
Proof.
  unfold activeHiring. simpl. rewrite !orb_true_iff, !Hiring_Status_eqb_eq.
  intuition congruence.
Qed.

Lemma activeBooking_existsb (b : Booking.Booking) :
  existsb (Booking.Status_eqb (Booking.status b))
    [Booking.Confirmed; Booking.Pending] = true
  <-> activeBooking b.
Proof.
  unfold activeBooking. simpl.
  rewrite !orb_true_iff, !Booking_Status_eqb_eq. intuition congruence.
Qed.

(** The query for hirings selects the hirings [hiredWithin]. *)
Lemma hiringConflicts_spec (this h : Hiring) :
  hiringConflicts this h = true <-> hiredWithin this h.
Proof.
  unfold hiringConflicts, hiredWithin, within.
  rewrite !andb_true_iff, orb_true_iff, !andb_true_iff, negb_true_iff,
    !Z.leb_le, !Nat.eqb_eq, Nat.eqb_neq, activeHiring_existsb.
  intuition lia.
Qed.

(** The query for bookings selects the bookings [bookedWithin]. *)
Lemma bookingConflicts_spec (this : Hiring) (b : Booking.Booking) :
  bookingConflicts this b = true <-> bookedWithin this b.
Proof.
  unfold bookingConflicts, bookedWithin.
  rewrite !andb_true_iff, orb_true_iff, between_within, between_opt_within,
    Nat.eqb_eq, activeBooking_existsb.
  tauto.
Qed.

Lemma nonempty_filter {A : Type} (f : A -> bool) (l : list A) :
  (0 <? Z.of_nat (List.length (filter f l)))%Z = true
  <-> exists x, In x l /\ f x = true.
Proof.
  rewrite Z.ltb_lt. split.
  - destruct (filter f l) as [|x r] eqn:E; simpl; [lia|].
    intros _. exists x. apply filter_In. rewrite E. left. reflexivity.
  - intros (x & I & F).
    assert (In x (filter f l)) as I' by (apply filter_In; auto).
    destruct (filter f l); [destruct I'|simpl; lia].
Qed.

Section Check.

Variable findBus : nat -> option Bus.Bus.
Variable Bookings : list Booking.Booking.
Variable Hirings : list Hiring.

(** On an Active bus, the check answers by the two queries. *)
Lemma checkBusAvailability_available (this : Hiring) (b : Bus.Bus) :
  findBus (bus this) = Some b -> Bus.status b = Bus.Active ->
  (available (checkBusAvailability findBus Bookings Hirings this) = false
   <-> (exists bk, In bk Bookings /\ bookedWithin this bk)
       \/ (exists h, In h Hirings /\ hiredWithin this h)).
Proof.
  intros F A. unfold checkBusAvailability. rewrite F, A.
  destruct (0 <? Z.of_nat (List.length (filter (bookingConflicts this) Bookings)))%Z
    eqn:B.
  - simpl. split; [intros _|reflexivity].
    left. apply nonempty_filter in B. destruct B as (bk & I & C).
    exists bk. split; [exact I|]. apply bookingConflicts_spec. exact C.
  - destruct (0 <? Z.of_nat (List.length (filter (hiringConflicts this) Hirings)))%Z
      eqn:H.
    + simpl. split; [intros _|reflexivity].
      right. apply nonempty_filter in H. destruct H as (h & I & C).
      exists h. split; [exact I|]. apply hiringConflicts_spec. exact C.
    + simpl. split; [discriminate|].
      intros [(bk & I & C)|(h & I & C)]; exfalso.
      * assert ((0 <? Z.of_nat (List.length (filter (bookingConflicts this) Bookings)))%Z
                = true) as B'.
        { apply nonempty_filter. exists bk. split; [exact I|].
          apply bookingConflicts_spec. exact C. }
        congruence.
      * assert ((0 <? Z.of_nat (List.length (filter (hiringConflicts this) Hirings)))%Z
                = true) as H'.
        { apply nonempty_filter. exists h. split; [exact I|].
          apply hiringConflicts_spec. exact C. }
        congruence.
Qed.

End Check.

(** A hiring that starts or ends within a period meets it, as closed
    periods. *)
Lemma hiredWithin_closedOverlap (this h : Hiring) :
  (startDate h <= endDate h)%Z ->
  hiredWithin this h ->
  closedOverlap (startDate this) (endDate this) (startDate h) (endDate h).
Proof.
  unfold hiredWithin, closedOverlap, within.
  intros L (_ & _ & _ & W). lia.
Qed.

(** The query of [createBooking] selects the hirings [hiredAt]. *)
Lemma hiringHoldsBus_spec (busId : nat) (departure : Z) (return' : option Z)
    (h : Hiring) :
  BookingController.hiringHoldsBus busId departure return' h = true
  <-> hiredAt busId departure return' h.
Proof.
  unfold BookingController.hiringHoldsBus, hiredAt, within.
  rewrite !andb_true_iff, orb_true_iff, andb_true_iff, !Z.leb_le,
    Nat.eqb_eq, activeHiring_existsb.
  destruct return' as [r|].
  - rewrite andb_true_iff, !Z.leb_le. split.
    + intros ((B & [W|W]) & A); (split; [exact B|]); (split; [exact A|]).
      * left. exact W.
      * right. exists r. auto.
    + intros (B & A & [W|(r' & E & W)]).
      * auto.
      * injection E as <-. auto.
  - split.
    + intros ((B & [W|W]) & A); [|discriminate W]. auto.
    + intros (B & A & [W|(r' & E & W)]); [auto|discriminate E].
Qed.

Lemma createBooking_hired
    (findRoute : nat -> option Route.Route) (findBus : nat -> option Bus.Bus)
    (Hirings : list Hiring) (Bookings : list Booking.Booking)
    (newId : nat) (rnd : string) (req : BookingController.CreateRequest)
    (routeData : Route.Route) (busData : Bus.Bus) :
  BookingController.req_errors req = [] ->
  findRoute (BookingController.req_route req) = Some routeData ->
  findBus (BookingController.req_bus req) = Some busData ->
  ((exists l,
       BookingController.createBooking findRoute findBus Hirings Bookings
         newId rnd req = BookingController.BusHired l)
   <-> exists h,
       In h Hirings
       /\ hiredAt (BookingController.req_bus req)
            (BookingController.req_departureDate req)
            (BookingController.req_returnDate req) h).
Proof.
  intros E Fr Fb. unfold BookingController.createBooking.
  rewrite E, Fr, Fb. simpl.
  match goal with
  | |- context [if (0 <? Z.of_nat (List.length (filter ?f Hirings)))%Z
                then _ else _] =>
      destruct (0 <? Z.of_nat (List.length (filter f Hirings)))%Z eqn:C
  end.
  - split; [intros _|intros _; eauto].
    apply nonempty_filter in C. destruct C as (h & I & C).
    exists h. split; [exact I|]. apply hiringHoldsBus_spec. exact C.
  - split.
    + intros [l H]. exfalso.
      repeat match type of H with
             | (if ?c then _ else _) = _ => destruct c
             end; discriminate H.
    + intros (h & I & W). exfalso.
      assert ((0 <? Z.of_nat
                 (List.length
                    (filter
                       (BookingController.hiringHoldsBus
                          (BookingController.req_bus req)
                          (BookingController.req_departureDate req)
                          (BookingController.req_returnDate req)) Hirings)))%Z
              = true) as C'.
      { apply nonempty_filter. exists h. split; [exact I|].
        apply hiringHoldsBus_spec. exact W. }
      congruence.
Qed.

(** C5, as the code has it.  On an Active bus [checkBusAvailability]
    reports a conflict whenever an active booking of the bus departs or
    returns within the requested period, or another active hiring of the
    bus starts or ends within it, the two ends of the period included; and
    whatever it reports is an active reservation of the bus whose closed
    period meets the requested one.  [createBooking] answers that the bus
    is hired exactly when an active hiring of the bus has the departure, or
    the return, within its closed period.  Reservations that are not active
    never count. *)
Theorem bus_conflicts_on_closed_periods
    (findRoute : nat -> option Route.Route) (findBus : nat -> option Bus.Bus)
    (Bookings : list Booking.Booking) (Hirings : list Hiring)
    (this : Hiring) (b : Bus.Bus)
    (newId : nat) (rnd : string) (req : BookingController.CreateRequest)
    (routeData : Route.Route) (busData : Bus.Bus) :
  findBus (bus this) = Some b -> Bus.status b = Bus.Active ->
  (forall h, In h Hirings -> (startDate h <= endDate h)%Z) ->
  BookingController.req_errors req = [] ->
  findRoute (BookingController.req_route req) = Some routeData ->
  findBus (BookingController.req_bus req) = Some busData ->
  let result := checkBusAvailability findBus Bookings Hirings this in
  ((exists bk, In bk Bookings /\ bookedWithin this bk)
   \/ (exists h, In h Hirings /\ hiredWithin this h) ->
   available result = false)
  /\ (available result = false ->
      (exists bk, In bk Bookings /\ bookedWithin this bk)
      \/ (exists h,
             In h Hirings /\ Hiring.bus h = bus this /\ _id h <> _id this
             /\ activeHiring h
             /\ closedOverlap (startDate this) (endDate this)
                  (startDate h) (endDate h)))
  /\ ((exists l,
         BookingController.createBooking findRoute findBus Hirings Bookings
           newId rnd req = BookingController.BusHired l)
      <-> exists h,
          In h Hirings
          /\ hiredAt (BookingController.req_bus req)
               (BookingController.req_departureDate req)
               (BookingController.req_returnDate req) h).
Proof.
  intros F A L E Fr Fb result.
  pose proof (checkBusAvailability_available findBus Bookings Hirings this F A)
    as C.
  split; [|split].
  - intro H. apply C. exact H.
  - intro H. apply C in H. destruct H as [H|(h & I & W)]; [left; exact H|].
    right. exists h. split; [exact I|].
    pose proof (hiredWithin_closedOverlap (L h I) W) as O.
    destruct W as (W1 & W2 & W3 & _). auto.
  - exact (createBooking_hired findRoute findBus Hirings Bookings newId rnd
             req E Fr Fb).
Qed.

Lemma bus_conflicts_on_closed_periods_witness :
  available
    (checkBusAvailability Examples.findBus [] [Examples.existingHire]
       Examples.touchingHire) = false.
Proof.
  refine (proj1 (@bus_conflicts_on_closed_periods
                   Examples.findRoute8 Examples.findBus []
                   [Examples.existingHire] Examples.touchingHire
                   Examples.bus3 21 "AB12CD34"
                   (Examples.seatRequest Booking.OneWay)
                   Examples.route8 Examples.bus3 _ _ _ _ _ _) _).
  - reflexivity.
  - reflexivity.
  - intros h [<-|[]]. vm_compute. intro H. discriminate H.
  - reflexivity.
  - reflexivity.
  - reflexivity.
  - right. exists Examples.existingHire. split; [left; reflexivity|].
    unfold hiredWithin, activeHiring, within. simpl.
    split; [reflexivity|]. split; [intro H; discriminate H|].
    split; [right; left; reflexivity|].
    right. vm_compute. split; intro H; discriminate H.
Defined.

(** C5 fails as stated: a request that starts the instant an existing
    hiring ends does not intersect it as half-open periods, and is reported
    as a conflict with it. *)
Lemma touching_periods_conflict :
  ~ halfOpenOverlap
      (startDate Examples.touchingHire) (endDate Examples.touchingHire)
      (startDate Examples.existingHire) (endDate Examples.existingHire)
  /\ activeHiring Examples.existingHire
  /\ (let result :=
        checkBusAvailability Examples.findBus [] [Examples.existingHire]
          Examples.touchingHire in
      available result = false
      /\ conflictingHirings result = ["HIR-0000D031"]).
Proof.
  split.
  - unfold halfOpenOverlap. vm_compute. intros [H _]. discriminate H.
  - split; [right; left; reflexivity|]. split; vm_compute; reflexivity.
Qed.

(** A request strictly inside an existing active hiring has neither end of
    that hiring within it, and the check reports the bus available. *)
Lemma request_inside_existing_hiring :
  (startDate Examples.longHire < startDate Examples.touchingHire)%Z
  /\ (endDate Examples.touchingHire < endDate Examples.longHire)%Z
  /\ activeHiring Examples.longHire
  /\ available
       (checkBusAvailability Examples.findBus [] [Examples.longHire]
          Examples.touchingHire) = true.
Proof.
  split; [vm_compute; reflexivity|]. split; [vm_compute; reflexivity|].
  split; [right; left; reflexivity|]. vm_compute. reflexivity.
Qed.

End AvailabilityFacts.

(* ===================================================================== *)
(** ** Seats *)
(* ===================================================================== *)

Module SeatFacts.

Import Booking Spec BookingController.

(** *** Sets of seats *)

Lemma includes_In (l : list string) (x : string) :
  JS.includes l x = true <-> In x l.
Proof.
  unfold JS.includes. rewrite existsb_exists. split.
  - intros (y & I & E). apply String.eqb_eq in E. subst y. exact I.
  - intro I. exists x. split; [exact I|apply String.eqb_refl].
Qed.

Lemma has_In (s : JS.JSSet) (x : string) : JS.has s x = true <-> In x s.
Proof. apply includes_In. Qed.

Lemma add_known (s : JS.JSSet) (x : string) :
  JS.has s x = true -> JS.add s x = s.
Proof. unfold JS.add. intros ->. reflexivity. Qed.

Lemma add_fresh (s : JS.JSSet) (x : string) :
  JS.has s x = false -> JS.add s x = s ++ [x].
Proof. unfold JS.add. intros ->. reflexivity. Qed.

Lemma length_fold_add (l : list string) (acc : JS.JSSet) :
  (List.length (fold_left JS.add l acc) <= List.length acc + List.length l)%nat.
Proof.
  revert acc. induction l as [|x r IH]; intro acc; simpl.
  - lia.
  - specialize (IH (JS.add acc x)).
    destruct (JS.has acc x) eqn:H.
    + rewrite (add_known _ _ H) in *. lia.
    + rewrite (add_fresh _ _ H) in *. rewrite length_app in IH. simpl in IH.
      lia.
Qed.

(** A list as long as its set has no repetition. *)
Lemma full_fold_add (l : list string) (acc : JS.JSSet) :
  List.length (fold_left JS.add l acc) = (List.length acc + List.length l)%nat ->
  NoDup l /\ forall x, In x l -> ~ In x acc.
Proof.
  revert acc. induction l as [|x r IH]; intro acc; simpl.
  - intros _. split; [constructor|]. intros x [].
  - intro E. pose proof (length_fold_add r (JS.add acc x)) as B.
    destruct (JS.has acc x) eqn:H.
    + exfalso. rewrite (add_known _ _ H) in *. lia.
    + rewrite (add_fresh _ _ H) in *.
      assert (List.length (fold_left JS.add r (acc ++ [x]))
              = (List.length (acc ++ [x]) + List.length r)%nat) as E'.
      { rewrite length_app. simpl. lia. }
      destruct (IH _ E') as [N D].
      assert (~ In x acc) as Nx.
      { intro I. apply has_In in I. congruence. }
      split.
      * constructor; [|exact N].
        intro I. apply (D x I). apply in_or_app. right. left. reflexivity.
      * intros y [<-|I]; [exact Nx|].
        intro J. apply (D y I). apply in_or_app. left. exact J.
Qed.

Lemma newSet_size_NoDup (l : list string) :
  (JS.size (JS.newSet l) =? Z.of_nat (List.length l))%Z = true -> NoDup l.
Proof.
  unfold JS.size, JS.newSet. rewrite Z.eqb_eq. intro E.
  apply Nat2Z.inj in E. apply (@full_fold_add l []). simpl. exact E.
Qed.

Lemma activeBooking_spec (b : Booking) :
  BookingController.activeBooking b = true <-> Spec.activeBooking b.
Proof.
  unfold BookingController.activeBooking, Spec.activeBooking. simpl.
  rewrite !orb_true_iff, !CancellationFacts.Status_eqb_eq.
  intuition congruence.
Qed.

Lemma hasPassengerSeatIn_spec (seats : list string) (b : Booking) :
  hasPassengerSeatIn seats b = true
  <-> exists seat, In seat (seatsOf b) /\ In seat seats.
Proof.
  unfold hasPassengerSeatIn, seatsOf. rewrite existsb_exists. split.
  - intros (p & I & E). exists (seatNumber p). split.
    + apply in_map. exact I.
    + apply includes_In. exact E.
  - intros (seat & I & J). apply in_map_iff in I. destruct I as (p & <- & I).
    exists p. split; [exact I|]. apply includes_In. exact J.
Qed.

(** *** What an accepted request has passed *)

Section Accepted.

Variable findRoute : nat -> option Route.Route.
Variable findBus : nat -> option Bus.Bus.
Variable Hirings : list Hiring.Hiring.
Variable Bookings : list Booking.
Variable newId : nat.
Variable rnd : string.

(** The checks behind an answer [Created]. *)
Lemma createBooking_created (req : CreateRequest) (newBooking : Booking) :
  createBooking findRoute findBus Hirings Bookings newId rnd req
  = Created newBooking ->
  exists busData,
    findBus (req_bus req) = Some busData
    /\ bus newBooking = req_bus req
    /\ departureDate newBooking = req_departureDate req
    /\ passengers newBooking = req_passengers req
    /\ status newBooking = Pending
    /\ (Z.of_nat (List.length (req_passengers req))
        + JS.size
            (bookedOutbound (req_departureDate req)
               (filter
                  (fun b => Nat.eqb (bus b) (req_bus req)
                            && onDates (req_departureDate req)
                                 (req_returnDate req) b
                            && BookingController.activeBooking b) Bookings))
        <= Bus.capacity busData)%Z
    /\ NoDup (outbound (req_selectedSeats req))
    /\ NoDup (map seatNumber (req_passengers req))
    /\ List.length (outbound (req_selectedSeats req))
       = List.length (req_passengers req)
    /\ incl (outbound (req_selectedSeats req))
         (map seatNumber (req_passengers req))
    /\ (outbound (req_selectedSeats req) = []
        \/ filter
             (fun b => Nat.eqb (bus b) (req_bus req)
                       && onDates (req_departureDate req) (req_returnDate req) b
                       && BookingController.activeBooking b
                       && hasPassengerSeatIn (outbound (req_selectedSeats req)) b)
             Bookings = []).
Proof.
  unfold createBooking. intro H.
  destruct (negb (Nat.eqb (List.length (req_errors req)) 0)); [discriminate H|].
  destruct (findRoute (req_route req)) as [routeData|]; [|discriminate H].
  destruct (findBus (req_bus req)) as [busData|]; [|discriminate H].
  exists busData. split; [reflexivity|].
  match type of H with
  | (if ?c then _ else _) = _ => destruct c; [discriminate H|]
  end.
  match type of H with
  | (if ?c then _ else _) = _ => destruct c eqn:Cap; [discriminate H|]
  end.
  match type of H with
  | (if ?c then _ else _) = _ => destruct c; [discriminate H|]
  end.
  match type of H with
  | (if ?c then _ else _) = _ => destruct c eqn:Dup; [discriminate H|]
  end.
  match type of H with
  | (if ?c then _ else _) = _ => destruct c eqn:Mis; [discriminate H|]
  end.
  match type of H with
  | (if ?c then _ else _) = _ => destruct c eqn:Conf; [discriminate H|]
  end.
  match type of H with
  | (if ?c then _ else _) = _ => destruct c; [discriminate H|]
  end.
  injection H as <-. simpl.
  apply orb_false_iff in Dup. destruct Dup as [D1 D2].
  apply negb_false_iff in D1, D2.
  apply orb_false_iff in Mis. destruct Mis as [M1 M2].
  apply negb_false_iff in M1, M2. apply Nat.eqb_eq in M1.
  apply Z.ltb_ge in Cap.
  repeat split; try reflexivity.
  - lia.
  - apply newSet_size_NoDup. exact D1.
  - apply newSet_size_NoDup. exact D2.
  - rewrite M1. reflexivity.
  - intros x I. rewrite forallb_forall in M2. apply includes_In. apply M2. exact I.
  - apply andb_false_iff in Conf. destruct Conf as [C|C].
    + left. apply Z.ltb_ge in C.
      destruct (outbound (req_selectedSeats req)); [reflexivity|simpl in C; lia].
    + right. apply Z.ltb_ge in C.
      match goal with
      | |- ?l = [] => destruct l; [reflexivity|simpl in C; lia]
      end.
Qed.

(** An accepted request shares no seat with a stored booking. *)
Lemma createBooking_no_shared_seat (req : CreateRequest) (newBooking b : Booking) :
  createBooking findRoute findBus Hirings Bookings newId rnd req
  = Created newBooking ->
  In b Bookings -> ~ shareSeat b newBooking.
Proof.
  intros H I (Eb & Ed & Ab & _ & seat & S1 & S2).
  destruct (createBooking_created req H)
    as (busData & _ & Hb & Hd & Hp & _ & _ & N1 & N2 & L & Inc & C).
  unfold seatsOf in S2. rewrite Hp in S2.
  assert (In seat (outbound (req_selectedSeats req))) as S3.
  { apply (@NoDup_length_incl _ (outbound (req_selectedSeats req))
             (map seatNumber (req_passengers req)) N1);
      [rewrite length_map, L; lia|exact Inc|exact S2]. }
  destruct C as [C|C].
  - rewrite C in S3. destruct S3.
  - assert (In b (filter
                    (fun b => Nat.eqb (bus b) (req_bus req)
                              && onDates (req_departureDate req)
                                   (req_returnDate req) b
                              && BookingController.activeBooking b
                              && hasPassengerSeatIn
                                   (outbound (req_selectedSeats req)) b)
                    Bookings)) as F.
    { apply filter_In. split; [exact I|].
      rewrite !andb_true_iff. repeat split.
      - apply Nat.eqb_eq. congruence.
      - unfold onDates. apply orb_true_iff. left. apply Z.eqb_eq. congruence.
      - apply activeBooking_spec. exact Ab.
      - apply hasPassengerSeatIn_spec. exists seat. auto. }
    rewrite C in F. destruct F.
Qed.

End Accepted.

Lemma seatsApart_app (store : list Booking) (b : Booking) :
  seatsApart store -> (forall b', In b' store -> ~ shareSeat b' b) ->
  seatsApart (store ++ [b]).
Proof.
  induction store as [|x r IH]; simpl.
  - intros _ _. split; [intros b' []|exact I].
  - intros [A R] N. split.
    + intros b' J. apply in_app_or in J. destruct J as [J|[<-|[]]].
      * apply A. exact J.
      * apply N. left. reflexivity.
    + apply IH; [exact R|]. intros b' J. apply N. right. exact J.
Qed.

(** The part of C6 the code keeps: [createBooking] never stores a booking
    that shares a seat with an active booking of the same bus leaving at the
    same instant, nor one that names a seat twice or goes over the capacity
    of the bus. *)
Lemma createBooking_keeps_seats_apart
    (findRoute : nat -> option Route.Route) (findBus : nat -> option Bus.Bus)
    (Hirings : list Hiring.Hiring) (Bookings : list Booking)
    (newId : nat) (rnd : string) (req : CreateRequest) :
  seatsApart Bookings ->
  seatsApart (bookingsAfter findRoute findBus Hirings Bookings newId rnd req).
Proof.
  intro A. unfold bookingsAfter.
  destruct (createBooking findRoute findBus Hirings Bookings newId rnd req)
    as [| | | | | | | | | |newBooking] eqn:E; try exact A.
  apply seatsApart_app; [exact A|].
  intros b I. exact (createBooking_no_shared_seat _ _ _ _ _ _ _ E I).
Qed.

(** C6 at a request the code accepts.  A Confirmed round trip holds seat 5
    of the bus on the return of the 15th; a request for a round trip on the
    same bus, back on the 15th in seat 5, is answered with a new booking:
    the check of the return seats looks at the seats of the passengers of
    the stored bookings, not at their return seats. *)
Theorem return_seat_booked_twice :
  exists newBooking,
    createBooking Examples.findRoute8 Examples.findBus []
      [Examples.roundTripBack5] 42 "AB12CD34" Examples.requestBack5
    = Created newBooking
    /\ bus newBooking = bus Examples.roundTripBack5
    /\ returnDate newBooking = returnDate Examples.roundTripBack5
    /\ status newBooking = Pending
    /\ status Examples.roundTripBack5 = Confirmed
    /\ In "5" (return_ (selectedSeats newBooking))
    /\ In "5" (return_ (selectedSeats Examples.roundTripBack5)).
Proof.
  eexists. split; [vm_compute; reflexivity|].
  simpl. repeat split; auto.
Qed.

(** The model's own check misses it too: it compares the return seats with
    the seats of the bookings that leave on the day of the return. *)
Lemma checkSeatAvailability_misses_return_seat :
  exists newBooking,
    createBooking Examples.findRoute8 Examples.findBus []
      [Examples.roundTripBack5] 42 "AB12CD34" Examples.requestBack5
    = Created newBooking
    /\ isAvailable
         (checkSeatAvailability 3600000 [Examples.roundTripBack5] newBooking)
       = true.
Proof.
  eexists. split; [vm_compute; reflexivity|]. vm_compute. reflexivity.
Qed.

End SeatFacts.

(* ===================================================================== *)
(** ** More on the ledger of a booking *)
(* ===================================================================== *)

Module LedgerExtras.

Import Booking Spec LedgerFacts.

Lemma sumCompletedPayments_app (l m : list Payment) :
  sumCompletedPayments (l ++ m) == sumCompletedPayments l + sumCompletedPayments m.
Proof.
  induction l as [|p r IH]; simpl.
  - ring.
  - destruct (pay_status p); rewrite IH; ring.
Qed.

Lemma sumCompletedRefunds_app (l m : list Refund) :
  sumCompletedRefunds (l ++ m) == sumCompletedRefunds l + sumCompletedRefunds m.
Proof.
  induction l as [|p r IH]; simpl.
  - ring.
  - destruct (ref_status p); rewrite IH; ring.
Qed.

(** What a recorded payment leaves. *)
Lemma addPayment_inversion (now : Z) (pd : PaymentData) (this this' : Booking)
    (p : Payment) :
  addPayment now pd this = (Return p, this') ->
  p = paymentOf now pd
  /\ this' = updatePaymentMetadata now
               (updatePaymentStatus
                  (set_payments (payments this ++ [paymentOf now pd]) this)).
Proof.
  intro H.
  destruct (knownTransaction (pd_transactionId pd) this) as [q|] eqn:K.
  - rewrite (addPayment_known now pd this K) in H. discriminate H.
  - rewrite (addPayment_fresh now pd this K) in H.
    injection H as <- <-. split; reflexivity.
Qed.

(** A recorded payment raises the total paid by its amount. *)
Lemma addPayment_raises_total (now : Z) (pd : PaymentData)
    (this this' : Booking) (p : Payment) :
  addPayment now pd this = (Return p, this') ->
  getTotalPaid this' == getTotalPaid this + pd_amount pd.
Proof.
  intro H. destruct (addPayment_inversion _ _ _ H) as [_ ->].
  rewrite !getTotalPaid_sum. simpl. rewrite updatePaymentStatus_payments.
  simpl. rewrite sumCompletedPayments_app. simpl. ring.
Qed.

(** X1.  A recorded payment is appended to the ledger as a Completed entry
    and raises the total paid by its amount, leaving the refunds alone; a
    refund is appended to the refunds and raises the total refunded by its
    amount, leaving the payments alone. *)
Theorem ledger_entries_add_up (now : Z) (pd : PaymentData)
    (this this' : Booking) (p : Payment)
    (rnow : Z) (rnd : string) (rd : RefundData) :
  addPayment now pd this = (Return p, this') ->
  (payments this' = payments this ++ [p]
   /\ pay_status p = EntryCompleted
   /\ pay_amount p = pd_amount pd
   /\ refunds this' = refunds this
   /\ getTotalPaid this' == getTotalPaid this + pd_amount pd
   /\ getTotalRefunded this' = getTotalRefunded this)
  /\ (let out := addRefund rnow rnd rd this in
      exists r, fst out = Return r
      /\ refunds (snd out) = refunds this ++ [r]
      /\ ref_status r = EntryCompleted
      /\ payments (snd out) = payments this
      /\ getTotalRefunded (snd out) == getTotalRefunded this + rd_amount rd
      /\ getTotalPaid (snd out) = getTotalPaid this).
Proof.
  intro H. pose proof (addPayment_raises_total _ _ _ H) as T.
  destruct (addPayment_inversion _ _ _ H) as [-> ->]. split.
  - simpl. rewrite updatePaymentStatus_payments, updatePaymentStatus_refunds.
    simpl. repeat split.
    + exact T.
    + apply getTotalRefunded_refunds. simpl.
      rewrite updatePaymentStatus_refunds. reflexivity.
  - rewrite addRefund_runs. simpl. exists (refundOf rnow rnd rd).
    rewrite updatePaymentStatus_payments, updatePaymentStatus_refunds. simpl.
    repeat split.
    + rewrite !getTotalRefunded_sum. simpl. rewrite updatePaymentStatus_refunds.
      simpl. rewrite sumCompletedRefunds_app. simpl. ring.
    + apply getTotalPaid_payments. simpl.
      rewrite updatePaymentStatus_payments. reflexivity.
Qed.

Lemma ledger_entries_add_up_witness :
  getTotalPaid Examples.paidBooking
  == getTotalPaid Examples.unpaidBooking + 100.
Proof.
  refine (proj1 (proj2 (proj2 (proj2 (proj2 (proj1
            (@ledger_entries_add_up 1736000000000 Examples.payInFull
               Examples.unpaidBooking Examples.paidBooking
               (paymentOf 1736000000000 Examples.payInFull)
               0 "AB12CD34" Examples.refundOfTen _))))))).
  vm_compute. reflexivity.
Defined.





(** A mutation is the two update steps after one append. *)
Lemma mutation_cases (this this' : Booking) :
  ledgerMutation this this' ->
  exists now mid,
    this' = updatePaymentMetadata now (updatePaymentStatus mid)
    /\ ((exists l, mid = set_payments l this)
        \/ (exists l, mid = set_refunds l this)).
Proof.
  intros [now pd p H | now rnd rd r H].
  - destruct (addPayment_inversion _ _ _ H) as [_ ->].
    exists now. eexists. split; [reflexivity|]. left. eauto.
  - rewrite addRefund_runs in H. injection H as _ <-.
    exists now. eexists. split; [reflexivity|]. right. eauto.
Qed.

Lemma updatePaymentStatus_status (b : Booking) :
  status (updatePaymentStatus b) =
    if PaymentStatus_eqb (paymentStatus (updatePaymentStatus b)) Paid
       && Status_eqb (status b) Pending
    then Confirmed else status b.
Proof.
  unfold updatePaymentStatus.
  repeat match goal with
         | |- context [if JS.Qgeb ?a ?b && ?c then _ else _] =>
             destruct (JS.Qgeb a b && c)
         | |- context [if JS.Qgtb ?a ?b && ?c then _ else _] =>
             destruct (JS.Qgtb a b && c)
         | |- context [if Qeq_bool ?a ?b then _ else _] =>
             destruct (Qeq_bool a b)
         end;
    destruct b; simpl;
    repeat match goal with
           | s : Status |- _ => destruct s
           | s : PaymentStatus |- _ => destruct s
           end; reflexivity.
Qed.

(** X3.  A payment or refund never changes the status of a booking, except
    that a Pending booking whose payment status becomes Paid is Confirmed;
    so a Cancelled booking that is paid stays Cancelled. *)
Theorem mutation_only_confirms (this this' : Booking) :
  ledgerMutation this this' ->
  (status this = Pending -> paymentStatus this' = Paid ->
   status this' = Confirmed)
  /\ (status this <> Pending -> status this' = status this)
  /\ (paymentStatus this' <> Paid -> status this' = status this).
Proof.
  intro L. destruct (mutation_cases L) as (now & mid & -> & M).
  assert (status mid = status this) as S.
  { destruct M as [[l ->]|[l ->]]; reflexivity. }
  simpl. rewrite updatePaymentStatus_status, S.
  split; [|split].
  - intros P E. rewrite P, E. reflexivity.
  - intro N. destruct (status this); try reflexivity; try contradiction;
      rewrite andb_false_r; reflexivity.
  - intro N.
    destruct (PaymentStatus_eqb (paymentStatus (updatePaymentStatus mid)) Paid)
      eqn:E; [|reflexivity].
    apply CancellationFacts.PaymentStatus_eqb_eq in E. contradiction.
Qed.

Lemma mutation_only_confirms_witness :
  status Examples.paidBooking = Confirmed.
Proof.
  refine (proj1 (@mutation_only_confirms Examples.unpaidBooking
                   Examples.paidBooking _) _ _).
  - apply byAddPayment
      with (now := 1736000000000%Z) (paymentData := Examples.payInFull)
           (payment := paymentOf 1736000000000 Examples.payInFull).
    vm_compute. reflexivity.
  - reflexivity.
  - reflexivity.
Defined.




Lemma updatePaymentStatus_metadata (b : Booking) :
  paymentMetadata (updatePaymentStatus b) = paymentMetadata b.
Proof.
  unfold updatePaymentStatus.
  repeat match goal with |- context [if ?c then _ else _] => destruct c end;
    reflexivity.
Qed.

(** X5.  After a payment or a refund the totals kept in [paymentMetadata]
    are the totals of the ledger; the time of completion is stamped when the
    booking is Paid, and once stamped it is never changed. *)
Theorem metadata_tracks_ledger (this this' : Booking) :
  ledgerMutation this this' ->
  meta_totalPaid (paymentMetadata this') = getTotalPaid this'
  /\ meta_totalRefunded (paymentMetadata this') = getTotalRefunded this'
  /\ (forall t, paymentCompletedAt (paymentMetadata this) = Some t ->
               paymentCompletedAt (paymentMetadata this') = Some t)
  /\ (paymentStatus this' = Paid ->
      paymentCompletedAt (paymentMetadata this') <> None)
  /\ (paymentStatus this' <> Paid ->
      paymentCompletedAt (paymentMetadata this')
      = paymentCompletedAt (paymentMetadata this)).
Proof.
  intro L. destruct (mutation_cases L) as (now & mid & -> & M).
  assert (paymentMetadata (updatePaymentStatus mid) = paymentMetadata this) as E.
  { rewrite updatePaymentStatus_metadata.
    destruct M as [[l ->]|[l ->]]; reflexivity. }
  split; [reflexivity|]. split; [reflexivity|].
  unfold updatePaymentMetadata. simpl. rewrite E.
  split; [|split].
  - intros t T. rewrite T.
    destruct (PaymentStatus_eqb (paymentStatus (updatePaymentStatus mid)) Paid);
      reflexivity.
  - intros ->. simpl.
    destruct (paymentCompletedAt (paymentMetadata this)); discriminate.
  - intro N.
    destruct (PaymentStatus_eqb (paymentStatus (updatePaymentStatus mid)) Paid)
      eqn:P; [|reflexivity].
    apply CancellationFacts.PaymentStatus_eqb_eq in P. contradiction.
Qed.

Lemma metadata_tracks_ledger_witness :
  meta_totalPaid (paymentMetadata Examples.paidBooking)
  = getTotalPaid Examples.paidBooking.
Proof.
  refine (proj1 (@metadata_tracks_ledger Examples.unpaidBooking
                   Examples.paidBooking _)).
  apply byAddPayment
    with (now := 1736000000000%Z) (paymentData := Examples.payInFull)
         (payment := paymentOf 1736000000000 Examples.payInFull).
  vm_compute. reflexivity.
Defined.

(** *** The latest payment *)

Lemma hd_insert_by_date (x : Payment) (l : list Payment) :
  hd_error (insert_by_date x l) =
    match hd_error l with
    | Some y => if (pay_date y - pay_date x <=? 0)%Z then Some x else Some y
    | None => Some x
    end.
Proof.
  destruct l as [|y r]; simpl; [reflexivity|].
  destruct (pay_date y - pay_date x <=? 0)%Z; reflexivity.
Qed.

(** The head of the sorted list is an entry of the list with the latest
    date. *)
Lemma sort_latest_first_head (l : list Payment) :
  match hd_error (sort_latest_first l) with
  | Some m => In m l /\ forall q, In q l -> (pay_date q <= pay_date m)%Z
  | None => l = []
  end.
Proof.
  induction l as [|x r IH]; simpl; [reflexivity|].
  rewrite hd_insert_by_date.
  fold (sort_latest_first r).
  destruct (hd_error (sort_latest_first r)) as [y|].
  - destruct IH as [I B].
    destruct (pay_date y - pay_date x <=? 0)%Z eqn:C.
    + apply Z.leb_le in C. split; [left; reflexivity|].
      intros q [<-|J]; [lia|]. specialize (B q J). lia.
    + apply Z.leb_gt in C. split; [right; exact I|].
      intros q [<-|J]; [lia|]. exact (B q J).
  - subst r. split; [left; reflexivity|].
    intros q [<-|[]]. lia.
Qed.

(** X6.  After a payment or a refund, when the ledger has a Completed
    payment, [lastPaymentDate] and [lastPaymentMethod] are those of a
    Completed payment of the ledger that no Completed payment is later than. *)
Theorem last_payment_is_the_latest (this this' : Booking) (q : Payment) :
  ledgerMutation this this' ->
  In q (payments this') -> pay_status q = EntryCompleted ->
  exists m,
    In m (payments this') /\ pay_status m = EntryCompleted
    /\ lastPaymentDate (paymentMetadata this') = Some (pay_date m)
    /\ lastPaymentMethod (paymentMetadata this') = Some (pay_method m)
    /\ forall q', In q' (payments this') -> pay_status q' = EntryCompleted ->
                  (pay_date q' <= pay_date m)%Z.
Proof.
  intros L I C. destruct (mutation_cases L) as (now & mid & -> & _).
  simpl in *. unfold updatePaymentMetadata. simpl.
  set (completed :=
         filter (fun p => EntryStatus_eqb (pay_status p) EntryCompleted)
           (payments (updatePaymentStatus mid))).
  assert (In q completed) as Iq.
  { apply filter_In. split; [exact I|]. rewrite C. reflexivity. }
  pose proof (sort_latest_first_head completed) as H.
  destruct (hd_error (sort_latest_first completed)) as [m|].
  - destruct H as [Im B]. apply filter_In in Im. destruct Im as [Im Cm].
    exists m. split; [exact Im|]. split.
    + destruct (pay_status m); try discriminate Cm. reflexivity.
    + split; [reflexivity|]. split; [reflexivity|].
      intros q' I' C'. apply B. apply filter_In. split; [exact I'|].
      rewrite C'. reflexivity.
  - rewrite H in Iq. destruct Iq.
Qed.

Lemma last_payment_is_the_latest_witness :
  exists m,
    In m (payments Examples.paidBooking)
    /\ lastPaymentDate (paymentMetadata Examples.paidBooking)
       = Some (pay_date m).
Proof.
  destruct (@last_payment_is_the_latest Examples.unpaidBooking
              Examples.paidBooking (paymentOf 1736000000000 Examples.payInFull))
    as (m & I & _ & D & _).
  - apply byAddPayment
      with (now := 1736000000000%Z) (paymentData := Examples.payInFull)
           (payment := paymentOf 1736000000000 Examples.payInFull).
    vm_compute. reflexivity.
  - vm_compute. left. reflexivity.
  - reflexivity.
  - exists m. split; assumption.
Defined.

End LedgerExtras.

(* ===================================================================== *)
(** ** More on the cost of a hiring *)
(* ===================================================================== *)

Module CostExtras.

Import Hiring Notions.

(** The ceiling of a quotient of integers. *)
Lemma Qceiling_quotient (d k n : Z) :
  (0 < k)%Z -> ((n - 1) * k < d)%Z -> (d <= n * k)%Z ->
  Qceiling (inject_Z d / inject_Z k) = n.
Proof.
  intros K L U.
  assert (inject_Z 0 < inject_Z k) as K' by (rewrite <- Zlt_Qlt; exact K).
  change (inject_Z 0) with 0 in K'.
  assert (inject_Z (n - 1) < inject_Z d / inject_Z k) as L'.
  { apply Qlt_shift_div_l; [exact K'|].
    rewrite <- inject_Z_mult, <- Zlt_Qlt. exact L. }
  assert (inject_Z d / inject_Z k <= inject_Z n) as U'.
  { apply Qle_shift_div_r; [exact K'|].
    rewrite <- inject_Z_mult, <- Zle_Qle. exact U. }
  pose proof (Qle_ceiling (inject_Z d / inject_Z k)) as A.
  pose proof (Qceiling_lt (inject_Z d / inject_Z k)) as B.
  set (c := Qceiling (inject_Z d / inject_Z k)) in *.
  assert (inject_Z (n - 1) < inject_Z c) as C1 by lra.
  assert (inject_Z (c - 1) < inject_Z n) as C2 by lra.
  rewrite <- Zlt_Qlt in C1, C2. lia.
Qed.

Lemma durationInDays_quotient (this : Hiring) :
  durationInDays this == inject_Z (durationInMs this) / inject_Z 86400000.
Proof.
  unfold durationInDays, durationInHours, durationInMs.
  change (inject_Z (1000 * 60 * 60)) with (inject_Z 3600000).
  field.
Qed.

Lemma durationInHours_days (this : Hiring) :
  durationInHours this == 24 * durationInDays this.
Proof. unfold durationInDays. field. Qed.

(** X7.  A Per Day hiring is billed by the day begun, and a Per Hour hiring
    by the hour begun: a duration of more than [n - 1] and at most [n] days
    (hours) costs [n] times the base rate, before allowance, overtime and
    charges; [n] is also what the virtual [durationDays] ([durationHours])
    shows. *)
Theorem partial_units_are_billed_whole
    (findRoute : nat -> option Route.Route) (findBus : nat -> option Bus.Bus)
    (this : Hiring) (n : Z) :
  (((n - 1) * 86400000 < durationInMs this <= n * 86400000)%Z ->
   durationDays this = n
   /\ (rateType this = PerDay ->
       baseCost findRoute findBus this = Return (baseRate this * inject_Z n)))
  /\ (((n - 1) * 3600000 < durationInMs this <= n * 3600000)%Z ->
      durationHours this = n
      /\ (rateType this = PerHour ->
          baseCost findRoute findBus this
          = Return (baseRate this * inject_Z n))).
Proof.
  split; intros [L U]; split.
  - unfold durationDays, JS.Math_ceil.
    change (inject_Z (1000 * 60 * 60 * 24)) with (inject_Z 86400000).
    fold (durationInMs this).
    apply Qceiling_quotient; [lia|exact L|exact U].
  - intro T. unfold baseCost; rewrite T.
    unfold JS.Math_ceil.
    rewrite (Qceiling_comp _ _ (durationInDays_quotient this)).
    rewrite (@Qceiling_quotient (durationInMs this) 86400000 n);
      [reflexivity|lia|exact L|exact U].
  - unfold durationHours, JS.Math_ceil.
    change (inject_Z (1000 * 60 * 60)) with (inject_Z 3600000).
    fold (durationInMs this).
    apply Qceiling_quotient; [lia|exact L|exact U].
  - intro T. unfold baseCost; rewrite T.
    unfold JS.Math_ceil, durationInHours.
    change (inject_Z (1000 * 60 * 60)) with (inject_Z 3600000).
    fold (durationInMs this).
    rewrite (@Qceiling_quotient (durationInMs this) 3600000 n);
      [reflexivity|lia|exact L|exact U].
Qed.

Lemma partial_units_are_billed_whole_witness :
  baseCost Examples.findRoute Examples.findBus
    (Samples.twentyFiveHours PerDay) = Return (1000 * inject_Z 2)
  /\ baseCost Examples.findRoute Examples.findBus
       (Samples.twentyFiveHours PerHour) = Return (1000 * inject_Z 25).
Proof.
  split.
  - apply (proj1 (@partial_units_are_billed_whole
                    Examples.findRoute Examples.findBus
                    (Samples.twentyFiveHours PerDay) 2)).
    + vm_compute. split; [reflexivity|intro H; discriminate H].
    + reflexivity.
  - apply (proj2 (@partial_units_are_billed_whole
                    Examples.findRoute Examples.findBus
                    (Samples.twentyFiveHours PerHour) 25)).
    + vm_compute. split; [reflexivity|intro H; discriminate H].
    + reflexivity.
Defined.

Lemma fold_charges (l : list Charge) (a : Q) :
  fold_left (fun totalCost charge => totalCost + charge_amount charge) l a
  == a + sumCharges l.
Proof.
  revert a. induction l as [|c l IH]; intro a; simpl.
  - ring.
  - rewrite IH. ring.
Qed.

(** The test [durationInHours > ceil(durationInDays) * 8] of the source
    holds exactly for a hiring of more than eight hours. *)
Lemma overtime_threshold (this : Hiring) :
  inject_Z (JS.Math_ceil (durationInDays this)) * 8 < durationInHours this
  <-> 8 < durationInHours this.
Proof.
  pose proof (durationInHours_days this) as E.
  unfold JS.Math_ceil.
  pose proof (Qle_ceiling (durationInDays this)) as A.
  pose proof (Qceiling_lt (durationInDays this)) as B.
  set (D := durationInDays this) in *.
  set (C := Qceiling D) in *.
  set (H := durationInHours this) in *.
  assert (inject_Z (C - 1) == inject_Z C - 1) as E1.
  { unfold Zminus. rewrite inject_Z_plus. reflexivity. }
  destruct (Z_le_gt_dec C 0) as [C0|C0].
  - assert (inject_Z C <= inject_Z 0) as C0' by (rewrite <- Zle_Qle; exact C0).
    change (inject_Z 0) with 0 in C0'.
    split; intro G; exfalso; lra.
  - destruct (Z.eq_dec C 1) as [C1|C1].
    + rewrite C1 in *. change (inject_Z 1) with 1 in *. split; intro G; lra.
    + assert (inject_Z 2 <= inject_Z C) as C2 by (rewrite <- Zle_Qle; lia).
      change (inject_Z 2) with 2 in C2.
      split; intro G; lra.
Qed.

(** X8.  With a positive overtime rate, overtime is charged exactly when the
    hiring lasts more than eight hours, on the hours beyond eight for each
    day begun; the cost is the base cost plus a positive driver allowance,
    the overtime and the additional charges, all of it doubled for a round
    trip. *)
Theorem overtime_is_charged_beyond_eight_hours (this : Hiring) (c : Q) :
  0 < overtimeRate this ->
  (8 < durationInHours this ->
     0 < hoursBeyondStandard this
     /\ withExtras this c ==
          (c + allowanceAdded this
           + hoursBeyondStandard this * overtimeRate this
           + sumCharges (additionalCharges this))
          * hiringTripFactor (tripType this))
  /\ (durationInHours this <= 8 ->
        withExtras this c ==
          (c + allowanceAdded this + sumCharges (additionalCharges this))
          * hiringTripFactor (tripType this)).
Proof.
  intro R.
  pose proof (overtime_threshold this) as T.
  assert (JS.Qgtb (overtimeRate this) 0 = true) as R'
    by (apply JSFacts.Qgtb_gt; exact R).
  split; intro G.
  - assert (0 < hoursBeyondStandard this) as P
      by (unfold hoursBeyondStandard; apply T in G; lra).
    split; [exact P|].
    unfold withExtras, allowanceAdded. rewrite R'.
    assert (JS.Qgtb (durationInHours this)
              (inject_Z (JS.Math_ceil (durationInDays this)) * 8) = true) as O
      by (apply JSFacts.Qgtb_gt; apply T; exact G).
    rewrite O. simpl andb. cbv iota.
    unfold hoursBeyondStandard, hiringTripFactor.
    destruct (JS.Qgtb (driverAllowance this) 0), (tripType this);
      rewrite fold_charges; ring.
  - unfold withExtras, allowanceAdded.
    assert (JS.Qgtb (durationInHours this)
              (inject_Z (JS.Math_ceil (durationInDays this)) * 8) = false) as O.
    { apply JSFacts.Qgtb_le. apply Qnot_lt_le. intro L. apply T in L. lra. }
    rewrite O. simpl andb. cbv iota.
    unfold hiringTripFactor.
    destruct (JS.Qgtb (driverAllowance this) 0), (tripType this);
      rewrite fold_charges; ring.
Qed.

Lemma overtime_is_charged_beyond_eight_hours_witness :
  withExtras (Samples.tenHours OneWay) 1000 == 1000 + 200 + 2 * 50 + 30.
Proof.
  destruct (@overtime_is_charged_beyond_eight_hours
              (Samples.tenHours OneWay) 1000) as [A _];
    [reflexivity|].
  destruct A as [_ A]; [reflexivity|].
  rewrite A. reflexivity.
Defined.



(** X10.  [calculateTotalCost] fails only for Route-Based pricing, when the
    hiring has no route or the route or the bus is not found, and then the
    hiring is left as it was; for every other rate type it returns a cost
    and stores it in [totalCost]. *)
Theorem cost_fails_only_for_route_based
    (findRoute : nat -> option Route.Route) (findBus : nat -> option Bus.Bus)
    (this : Hiring) :
  (rateType this <> RouteBased ->
     exists cost,
       calculateTotalCost findRoute findBus this
       = (Return cost, set_totalCost cost this))
  /\ (rateType this = RouteBased -> route this = None ->
        calculateTotalCost findRoute findBus this
        = (Throw "Route is required for route-based pricing", this))
  /\ (forall routeId,
        rateType this = RouteBased -> route this = Some routeId ->
        findRoute routeId = None \/ findBus (bus this) = None ->
        calculateTotalCost findRoute findBus this
        = (Throw "Route or Bus not found for route-based pricing", this)).
Proof.
  unfold calculateTotalCost, baseCost, bind, get, modify, ret, throw.
  repeat split.
  - intro N. destruct (rateType this); try (eexists; reflexivity).
    exfalso; apply N; reflexivity.
  - intros T R. rewrite T, R. reflexivity.
  - intros routeId T R [F|F]; rewrite T, R, F; [reflexivity|].
    destruct (findRoute routeId); reflexivity.
Qed.

Lemma cost_fails_only_for_route_based_witness :
  calculateTotalCost Examples.findRoute Examples.findBus
    (Samples.twentyFiveHours RouteBased)
  = (Throw "Route is required for route-based pricing",
     Samples.twentyFiveHours RouteBased).
Proof.
  apply (proj1 (proj2 (@cost_fails_only_for_route_based
                         Examples.findRoute Examples.findBus
                         (Samples.twentyFiveHours RouteBased))));
    reflexivity.
Defined.

End CostExtras.

(* ===================================================================== *)
(** ** More on the life of a hiring *)
(* ===================================================================== *)

Module HiringExtras.

Import Hiring Spec Notions.



Ltac policy_cases :=
  unfold refundPercentage; simpl;
  repeat match goal with
    | |- context [JS.Qgtb ?a ?b] =>
        let E := fresh "E" in destruct (JS.Qgtb a b) eqn:E
    end;
  reflect_comparisons.

Lemma refundPercentage_bounds (policy : string) (d : Q) :
  0 <= refundPercentage policy d <= 1.
Proof.
  unfold refundPercentage.
  destruct (String.eqb policy "Standard");
    [|destruct (String.eqb policy "Flexible");
      [|destruct (String.eqb policy "Strict")]];
    repeat match goal with
      | |- context [JS.Qgtb ?a ?b] => destruct (JS.Qgtb a b)
      end;
    split; discriminate.
Qed.

(** X11.  On every day count the Strict policy refunds no more than the
    Standard one, and the Standard one no more than the Flexible one; every
    share is between 0 and 1; a policy of any other name refunds nothing,
    and no policy refunds anything at one day or less before the start. *)
Theorem refund_policies_are_ordered (policy : string) (d : Q) :
  refundPercentage "Strict" d <= refundPercentage "Standard" d
  /\ refundPercentage "Standard" d <= refundPercentage "Flexible" d
  /\ 0 <= refundPercentage policy d <= 1
  /\ (policy <> "Standard" -> policy <> "Flexible" -> policy <> "Strict" ->
      refundPercentage policy d = 0)
  /\ (d <= 1 -> refundPercentage policy d = 0).
Proof.
  split; [|split; [|split; [|split]]].
  - policy_cases; try lra; discriminate.
  - policy_cases; try lra; discriminate.
  - apply refundPercentage_bounds.
  - intros N1 N2 N3. unfold refundPercentage.
    apply String.eqb_neq in N1, N2, N3. rewrite N1, N2, N3. reflexivity.
  - intro L. unfold refundPercentage.
    destruct (String.eqb policy "Standard");
      [|destruct (String.eqb policy "Flexible");
        [|destruct (String.eqb policy "Strict")]];
      repeat match goal with
        | |- context [JS.Qgtb ?a ?b] =>
            let E := fresh "E" in destruct (JS.Qgtb a b) eqn:E
        end;
      reflect_comparisons; try reflexivity; exfalso; lra.
Qed.

Lemma refund_policies_are_ordered_witness :
  refundPercentage "Loose" 40 = 0 /\ refundPercentage "Flexible" 1 = 0.
Proof.
  split.
  - apply (proj1 (proj2 (proj2 (proj2
             (@refund_policies_are_ordered "Loose" 40)))));
      intro H; discriminate H.
  - apply (proj2 (proj2 (proj2 (proj2
             (@refund_policies_are_ordered "Flexible" 1))))).
    intro H; discriminate H.
Defined.

(** X12.  Under every policy, cancelling earlier never refunds a smaller
    share. *)
Theorem earlier_cancellation_refunds_no_less (policy : string) (d d' : Q) :
  d <= d' -> refundPercentage policy d <= refundPercentage policy d'.
Proof.
  intro L. unfold refundPercentage.
  destruct (String.eqb policy "Standard");
    [|destruct (String.eqb policy "Flexible");
      [|destruct (String.eqb policy "Strict")]];
    repeat match goal with
      | |- context [JS.Qgtb ?a ?b] =>
          let E := fresh "E" in destruct (JS.Qgtb a b) eqn:E
      end;
    reflect_comparisons; try lra; discriminate.
Qed.

Lemma earlier_cancellation_refunds_no_less_witness :
  refundPercentage "Standard" 5 <= refundPercentage "Standard" 10.
Proof.
  apply (@earlier_cancellation_refunds_no_less "Standard" 5 10).
  intro H; discriminate H.
Defined.

Lemma Status_eqb_refl (s : Status) : Status_eqb s s = true.
Proof. destruct s; reflexivity. Qed.




(** The payment status and the status a payment leaves, from the total
    paid after it. *)
Lemma processPayment_runs
    (now : Z) (rnd : string) (pd : PaymentData) (this : Hiring) :
  0 < pd_amount pd ->
  let entry :=
    {| amount := pd_amount pd; date := now;
       method := or_string (pd_method pd) "Other";
       transactionId :=
         or_string (pd_transactionId pd) ("PAY-" ++ rnd)%string;
       pay_status := EntryCompleted |} in
  let paid := totalPaid this + pd_amount pd in
  let ps :=
    if JS.Qgeb paid (totalCost this) then Paid
    else if JS.Qgtb paid 0 then PartiallyPaid else PayPending in
  let st :=
    if JS.Qgeb paid (deposit this) && Status_eqb (status this) Pending
    then Confirmed else status this in
  processPayment now rnd pd this =
    (Return {| pr_success := true; pr_payment := entry;
               pr_paymentStatus := ps; pr_hiringStatus := st |},
     set_status st
       (set_paymentStatus ps
          (set_payments (payments this ++ [entry]) this))).
Proof.
  intros P entry paid ps st. unfold processPayment.
  assert (JS.truthy (pd_amount pd) = true) as T.
  { unfold JS.truthy. apply negb_true_iff.
    apply JSFacts.Qeq_bool_false. lra. }
  assert (Qle_bool (pd_amount pd) 0 = false) as L
    by (apply JSFacts.Qle_bool_gt; exact P).
  rewrite T, L. cbn [negb orb].
  unfold bind, modify, get, ret. cbv beta iota zeta.
  fold entry.
  rewrite !(HiringLedgerFacts.totalPaid_append this entry eq_refl).
  change (amount entry) with (pd_amount pd). fold paid.
  change (totalCost (set_payments (payments this ++ [entry]) this))
    with (totalCost this).
  subst ps st.
  destruct (JS.Qgeb paid (totalCost this));
    [|destruct (JS.Qgtb paid 0)];
    cbn [deposit status set_paymentStatus set_payments];
    destruct (JS.Qgeb paid (deposit this) && Status_eqb (status this) Pending);
    reflexivity.
Qed.






Lemma filter_filter_implied (A : Type) (f g : A -> bool) (l : list A) :
  (forall x, f x = true -> g x = true) ->
  filter f (filter g l) = filter f l.
Proof.
  intro I. induction l as [|x l IH]; simpl; [reflexivity|].
  destruct (g x) eqn:G; simpl.
  - rewrite IH. reflexivity.
  - rewrite IH. destruct (f x) eqn:F; [|reflexivity].
    rewrite (I x F) in G. discriminate G.
Qed.

(** X16.  A bus that is not found, or that is not Active, is never
    available, whatever is stored, and the answer names the cause and no
    conflict; an answer of available carries the identity of an Active
    bus and no reason. *)
Theorem only_an_active_bus_is_available
    (findBus : nat -> option Bus.Bus) (Bookings : list Booking.Booking)
    (Hirings : list Hiring) (this : Hiring) :
  let answer := checkBusAvailability findBus Bookings Hirings this in
  (findBus (bus this) = None ->
   answer = {| available := false; reason := Some "Bus not found";
               conflictingBookings := []; conflictingHirings := [];
               av_bus := None |})
  /\ (forall b, findBus (bus this) = Some b -> Bus.status b <> Bus.Active ->
      answer = {| available := false;
                  reason := Some ("Bus is " ++ busStatusName (Bus.status b))
                            %string;
                  conflictingBookings := []; conflictingHirings := [];
                  av_bus := None |})
  /\ (available answer = true ->
      exists b, findBus (bus this) = Some b
                /\ Bus.status b = Bus.Active
                /\ reason answer = None
                /\ av_bus answer
                   = Some {| info_id := Bus._id b;
                             info_busNumber := Bus.busNumber b;
                             info_capacity := Bus.capacity b |}).
Proof.
  unfold checkBusAvailability. repeat split.
  - intro N. rewrite N. reflexivity.
  - intros b F N. rewrite F.
    destruct (Bus.status b); try reflexivity. exfalso; apply N; reflexivity.
  - destruct (findBus (bus this)) as [b|]; [|intro H; discriminate H].
    destruct (Bus.status b) eqn:S; try (intro H; discriminate H).
    repeat match goal with
      | |- context [if ?c then _ else _] => destruct c
      end; try (intro H; discriminate H).
    intros _. exists b. repeat split; try reflexivity. exact S.
Qed.

Lemma only_an_active_bus_is_available_witness :
  available (checkBusAvailability (fun _ => None) [] []
               Examples.existingHire) = false.
Proof.
  rewrite (proj1 (@only_an_active_bus_is_available (fun _ => None) [] []
                    Examples.existingHire)); reflexivity.
Defined.

(** X17.  A hiring never conflicts with itself: the availability of its bus
    is the same whether or not the stored hirings include records with the
    hiring's own identifier. *)
Theorem hiring_does_not_conflict_with_itself
    (findBus : nat -> option Bus.Bus) (Bookings : list Booking.Booking)
    (Hirings : list Hiring) (this : Hiring) :
  checkBusAvailability findBus Bookings Hirings this
  = checkBusAvailability findBus Bookings
      (filter (fun h => negb (Nat.eqb (_id h) (_id this))) Hirings) this.
Proof.
  unfold checkBusAvailability.
  rewrite (@filter_filter_implied _ (hiringConflicts this)
             (fun h => negb (Nat.eqb (_id h) (_id this))) Hirings);
    [reflexivity|].
  intros h C. unfold hiringConflicts in C.
  repeat (apply andb_true_iff in C; destruct C as [C ?]).
  assumption.
Qed.

End HiringExtras.

(* ===================================================================== *)
(** ** The handlers of the booking controller *)
(* ===================================================================== *)

Module HandlerExtras.

Import Booking BookingController BookingHandlers Spec.


Lemma addPayment_throw_state (now : Z) (pd : PaymentData)
    (this this' : Booking) (message : string) :
  addPayment now pd this = (Throw message, this') -> this' = this.
Proof.
  intro A.
  destruct (knownTransaction (pd_transactionId pd) this) as [p|] eqn:K.
  - rewrite (LedgerFacts.addPayment_known now pd this K) in A.
    inversion A. reflexivity.
  - rewrite (LedgerFacts.addPayment_fresh now pd this K) in A.
    discriminate A.
Qed.

Lemma addPayment_totalFare (now : Z) (pd : PaymentData)
    (this this' : Booking) (p : Payment) :
  addPayment now pd this = (Return p, this') ->
  totalFare this' = totalFare this.
Proof.
  intro A. apply LedgerExtras.addPayment_inversion in A. destruct A as [_ ->].
  change (totalFare (updatePaymentMetadata now ?x)) with (totalFare x).
  rewrite LedgerFacts.updatePaymentStatus_totalFare. reflexivity.
Qed.







(** *** The seat report *)

Lemma seatId_injective (i j : nat) : seatId i = seatId j -> i = j.
Proof.
  unfold seatId. simpl. intro E. inversion E as [E'].
  apply (f_equal NilEmpty.uint_of_string) in E'.
  rewrite !NilEmpty.usu in E'. inversion E' as [E''].
  apply Unsigned.to_uint_inj. exact E''.
Qed.

Lemma NoDup_seatIds (start len : nat) : NoDup (map seatId (seq start len)).
Proof.
  pose proof (seq_NoDup len start) as N.
  induction N as [|i l F N IH]; simpl; constructor.
  - intro I. apply in_map_iff in I. destruct I as (j & E & J).
    apply seatId_injective in E. subst j. contradiction.
  - exact IH.
Qed.

Lemma NoDup_add (s : JS.JSSet) (x : string) : NoDup s -> NoDup (JS.add s x).
Proof.
  intro N. unfold JS.add. destruct (JS.has s x) eqn:H; [exact N|].
  apply NoDup_app; [exact N|constructor; [intros []|constructor]|].
  intros y I [E|[]]. subst y.
  apply SeatFacts.has_In in I. rewrite I in H. discriminate H.
Qed.

Lemma In_add (s : JS.JSSet) (x y : string) :
  In y (JS.add s x) <-> In y s \/ y = x.
Proof.
  unfold JS.add. destruct (JS.has s x) eqn:H.
  - apply SeatFacts.has_In in H. split; [intro I; left; exact I|].
    intros [I|E]; [exact I|subst y; exact H].
  - rewrite in_app_iff. simpl. intuition congruence.
Qed.

(** The seats one booking adds to the set. *)
Lemma seats_of_booking (ps : list Passenger) (s : JS.JSSet) :
  let s' :=
    fold_left
      (fun s passenger =>
         if String.eqb (seatNumber passenger) "" then s
         else JS.add s (seatNumber passenger)) ps s in
  (NoDup s -> NoDup s')
  /\ forall seat,
       In seat s' <->
       In seat s
       \/ (seat <> "" /\ exists p, In p ps /\ seatNumber p = seat).
Proof.
  revert s. induction ps as [|p ps IH]; intro s; simpl.
  - split; [intro N; exact N|].
    intro seat. split; [intro I; left; exact I|].
    intros [I|(_ & q & [] & _)]. exact I.
  - destruct (String.eqb (seatNumber p) "") eqn:E.
    + destruct (IH s) as [N I]. split; [exact N|].
      intro seat. rewrite I. apply String.eqb_eq in E.
      split.
      * intros [H|(D & q & Q & S)]; [left; exact H|].
        right. split; [exact D|]. exists q. split; [right; exact Q|exact S].
      * intros [H|(D & q & [Q|Q] & S)]; [left; exact H| |].
        -- subst q. congruence.
        -- right. split; [exact D|]. exists q. split; [exact Q|exact S].
    + destruct (IH (JS.add s (seatNumber p))) as [N I]. split.
      * intro M. apply N. apply NoDup_add. exact M.
      * intro seat. rewrite I, In_add. apply String.eqb_neq in E.
        split.
        -- intros [[H|H]|(D & q & Q & S)].
           ++ left; exact H.
           ++ right. split; [congruence|]. exists p.
              split; [left; reflexivity|symmetry; exact H].
           ++ right. split; [exact D|]. exists q.
              split; [right; exact Q|exact S].
        -- intros [H|(D & q & [Q|Q] & S)].
           ++ left; left; exact H.
           ++ subst q. left; right. symmetry; exact S.
           ++ right. split; [exact D|]. exists q. split; [exact Q|exact S].
Qed.

Lemma seats_of_bookings (bs : list Booking) (s : JS.JSSet) :
  let s' :=
    fold_left
      (fun s booking =>
         fold_left
           (fun s passenger =>
              if String.eqb (seatNumber passenger) "" then s
              else JS.add s (seatNumber passenger))
           (passengers booking) s) bs s in
  (NoDup s -> NoDup s')
  /\ forall seat,
       In seat s' <->
       In seat s
       \/ (seat <> ""
           /\ exists b p, In b bs /\ In p (passengers b)
                          /\ seatNumber p = seat).
Proof.
  revert s. induction bs as [|b bs IH]; intro s; simpl.
  - split; [intro N; exact N|].
    intro seat. split; [intro I; left; exact I|].
    intros [I|(_ & b & p & [] & _)]. exact I.
  - destruct (seats_of_booking (passengers b) s) as [N1 I1].
    match goal with
    | |- context [fold_left _ bs ?mid] => destruct (IH mid) as [N2 I2]
    end.
    split; [intro N; apply N2, N1, N|].
    intro seat. rewrite I2, I1. split.
    + intros [[H|(D & p & P & S)]|(D & b' & p & B & P & S)].
      * left; exact H.
      * right. split; [exact D|]. exists b, p.
        split; [left; reflexivity|split; assumption].
      * right. split; [exact D|]. exists b', p.
        split; [right; exact B|split; assumption].
    + intros [H|(D & b' & p & [B|B] & P & S)].
      * left; left; exact H.
      * subst b'. left; right. split; [exact D|]. exists p.
        split; assumption.
      * right. split; [exact D|]. exists b', p.
        split; [exact B|split; assumption].
Qed.

Lemma filter_split_length (A : Type) (f : A -> bool) (l : list A) :
  (List.length (filter f l)
   + List.length (filter (fun x => negb (f x)) l))%nat = List.length l.
Proof.
  induction l as [|x l IH]; simpl; [reflexivity|].
  destruct (f x); simpl; lia.
Qed.

(** X21.  The seat report of a bus and day: the available seats are exactly
    the seats S1 ... Sn of the bus, n its capacity, that no active booking
    of the bus leaving that day holds; the booked seats are exactly the
    seats of the passengers of those bookings; no seat is listed twice, and
    none in both lists; the counts are the lengths of the lists, and the
    number of available seats lies between the capacity less the number of
    booked seats and the capacity. *)
Theorem seat_report_partitions_the_bus
    (timezoneOffset : Z) (findBus : nat -> option Bus.Bus)
    (Bookings : list Booking) (busId : nat) (date : Z)
    (report : SeatReport) :
  checkSeatAvailability timezoneOffset findBus Bookings
    (Some busId) (Some date) = SeatsReported report ->
  exists bus,
    findBus busId = Some bus
    /\ report_capacity report = Bus.capacity bus
    /\ (forall seat,
          In seat (availableSeats report) <->
          (exists i, (1 <= i <= Z.to_nat (Bus.capacity bus))%nat
                     /\ seat = seatId i)
          /\ ~ In seat (report_bookedSeats report))
    /\ (forall seat,
          In seat (report_bookedSeats report) <->
          seat <> ""
          /\ exists b p,
               In b (bookingsOn timezoneOffset Bookings busId date)
               /\ In p (passengers b) /\ seatNumber p = seat)
    /\ NoDup (availableSeats report)
    /\ NoDup (report_bookedSeats report)
    /\ totalBooked report
       = Z.of_nat (List.length (report_bookedSeats report))
    /\ totalAvailable report
       = Z.of_nat (List.length (availableSeats report))
    /\ (Bus.capacity bus - totalBooked report <= totalAvailable report
        <= Z.max 0 (Bus.capacity bus))%Z.
Proof.
  unfold checkSeatAvailability.
  destruct (findBus busId) as [bus|]; [|intro H; discriminate H].
  intro H. inversion H as [R]. clear H R. simpl.
  exists bus. split; [reflexivity|]. split; [reflexivity|].
  set (existing := bookingsOn timezoneOffset Bookings busId date).
  destruct (seats_of_bookings existing []) as [N I].
  fold (seatsTaken existing) in N, I.
  set (booked := seatsTaken existing) in *.
  set (all := map seatId (seq 1 (Z.to_nat (Bus.capacity bus)))).
  assert (NoDup all) as NA by apply NoDup_seatIds.
  assert (List.length all = Z.to_nat (Bus.capacity bus)) as LA
    by (unfold all; rewrite length_map, length_seq; reflexivity).
  split.
  { intro seat. rewrite filter_In. unfold all. rewrite in_map_iff.
    split.
    - intros ((i & E & S) & B). apply in_seq in S. split.
      + exists i. split; [lia|symmetry; exact E].
      + intro K. apply SeatFacts.has_In in K. rewrite K in B. discriminate B.
    - intros ((i & B & E) & K). split.
      + exists i. split; [symmetry; exact E|]. apply in_seq. lia.
      + destruct (JS.has booked seat) eqn:F; [|reflexivity].
        apply SeatFacts.has_In in F. contradiction. }
  split.
  { intro seat. rewrite I. split.
    - intros [[]|K]. exact K.
    - intro K. right. exact K. }
  split; [apply NoDup_filter; exact NA|].
  split; [apply N; constructor|].
  split; [reflexivity|]. split; [reflexivity|].
  unfold JS.size.
  pose proof (filter_split_length (JS.has booked) all) as C.
  assert (List.length (filter (JS.has booked) all) <= List.length booked)%nat
    as B.
  { apply NoDup_incl_length; [apply NoDup_filter; exact NA|].
    intros x X. apply filter_In in X. destruct X as [_ X].
    apply SeatFacts.has_In. exact X. }
  lia.
Qed.

Lemma seat_report_partitions_the_bus_witness :
  exists report,
    checkSeatAvailability 3600000 Examples.findBus [Examples.roundTripBack5]
      (Some 3%nat) (Some (Examples.jan 10)) = SeatsReported report
    /\ NoDup (availableSeats report)
    /\ totalBooked report = 1%Z.
Proof.
  edestruct (@seat_report_partitions_the_bus 3600000 Examples.findBus
               [Examples.roundTripBack5] 3 (Examples.jan 10))
    as (bus & _ & _ & _ & _ & N & _ & B & _).
  - vm_compute. reflexivity.
  - eexists. split; [vm_compute; reflexivity|]. split; [exact N|exact B].
Defined.

End HandlerExtras.

(* ===================================================================== *)
(** ** Seats and capacity over a run of requests *)
(* ===================================================================== *)

Module CapacityExtras.

Import Booking BookingController Spec Notions.







Section Run.

Variable findRoute : nat -> option Route.Route.
Variable findBus : nat -> option Bus.Bus.
Variable Hirings : list Hiring.Hiring.



End Run.






End CapacityExtras.

(* ===================================================================== *)
(** ** The payment verification handler *)
(* ===================================================================== *)

Module VerifyExtras.

Import PaymentController Notions.

Lemma hiring_processPayment_throw_state (now : Z) (rnd : string)
    (pd : Hiring.PaymentData) (h h' : Hiring.Hiring) (message : string) :
  Hiring.processPayment now rnd pd h = (Throw message, h') -> h' = h.
Proof.
  intro P. destruct (Qlt_le_dec 0 (Hiring.pd_amount pd)) as [L|L].
  - rewrite (@HiringExtras.processPayment_runs now rnd pd h L) in P.
    discriminate P.
  - unfold Hiring.processPayment in P.
    assert (negb (JS.truthy (Hiring.pd_amount pd))
            || Qle_bool (Hiring.pd_amount pd) 0 = true) as B.
    { apply orb_true_iff. right. apply Qle_bool_iff. exact L. }
    rewrite B in P. inversion P. reflexivity.
Qed.

Lemma existsb_app_last (A : Type) (f : A -> bool) (l : list A) (x : A) :
  f x = true -> existsb f (l ++ [x]) = true.
Proof.
  intro F. rewrite existsb_app. simpl. rewrite F.
  apply orb_true_r.
Qed.

(** A record whose ledger holds the reference is never credited again. *)
Lemma verifyPayment_known (now : Z) (rnd : string) (userId : option nat)
    (reference : option string) (configured : bool)
    (verification : Verification) (r : Record_) (ref : string) :
  reference = Some ref -> existingPayment ref r = true ->
  snd (verifyPayment now rnd userId reference configured verification
         (Some r)) = Some r
  /\ forall a,
       fst (verifyPayment now rnd userId reference configured verification
              (Some r)) <> Verified a.
Proof.
  intros -> K. unfold verifyPayment.
  repeat match goal with
    | |- context [if ?c then _ else _] =>
        lazymatch c with
        | existingPayment _ _ => fail
        | _ => destruct c
        end
    end;
    try rewrite K;
    (split; [reflexivity|intros a H; discriminate H]).
Qed.

Lemma verifyPayment_verified
    (now : Z) (rnd : string) (userId : option nat)
    (reference : option string) (configured : bool)
    (verification : Verification) (found : option Record_) :
  let out :=
    verifyPayment now rnd userId reference configured verification found in
  (forall a,
      fst out = Verified a ->
      exists ref r r',
        reference = Some ref /\ ref <> ""
        /\ configured = true
        /\ v_status verification = true
        /\ v_dataStatus verification = "success"
        /\ a = v_amount verification / 100
        /\ found = Some r /\ snd out = Some r'
        /\ existingPayment ref r = false
        /\ a <= dueOf r - paidOf r + (1 # 100)
        /\ paidOf r' == paidOf r + a
        /\ dueOf r' = dueOf r
        /\ existingPayment ref r' = true)
  /\ ((forall a, fst out <> Verified a) -> snd out = found).
Proof.
  intro out. subst out. unfold verifyPayment.
  destruct reference as [ref|];
    [|split; [intros a H; discriminate H|reflexivity]].
  destruct (String.eqb ref "") eqn:RE;
    [split; [intros a H; discriminate H|reflexivity]|].
  apply String.eqb_neq in RE.
  destruct configured; simpl negb; cbv iota;
    [|split; [intros a H; discriminate H|reflexivity]].
  destruct (v_status verification) eqn:VS; simpl andb; cbv iota;
    [|split; [intros a H; discriminate H|reflexivity]].
  destruct (String.eqb (v_dataStatus verification) "success") eqn:DS;
    simpl negb; cbv iota;
    [|split; [intros a H; discriminate H|reflexivity]].
  apply String.eqb_eq in DS.
  destruct found as [r|];
    [|split; [intros a H; discriminate H|reflexivity]].
  fold (dueOf r). fold (paidOf r).
  destruct (JS.Qgtb (v_amount verification / 100)
              (dueOf r - paidOf r + (1 # 100))) eqn:EX;
    [split; [intros a H; discriminate H|reflexivity]|].
  apply JSFacts.Qgtb_le in EX.
  destruct (existingPayment ref r) eqn:K;
    [split; [intros a H; discriminate H|reflexivity]|].
  destruct r as [booking|hiring].
  - match goal with
    | |- context [Booking.addPayment now ?pd booking] => set (data := pd)
    end.
    destruct (Booking.addPayment now data booking) as [[p|m] b'] eqn:A.
    + split; [|intro N; exfalso; eapply N; reflexivity].
      intros a H. simpl in H. inversion H; subst a. clear H.
      pose proof A as T. apply LedgerExtras.addPayment_raises_total in T.
      pose proof A as F. apply HandlerExtras.addPayment_totalFare in F.
      pose proof A as I. apply LedgerExtras.addPayment_inversion in I.
      destruct I as [_ I].
      assert (existingPayment ref (OfBooking b') = true) as K'.
      { simpl. rewrite I.
        change (Booking.payments (Booking.updatePaymentMetadata now ?x))
          with (Booking.payments x).
        rewrite LedgerFacts.updatePaymentStatus_payments. simpl.
        apply existsb_app_last. simpl.
        rewrite String.eqb_refl. reflexivity. }
      exists ref, (OfBooking booking), (OfBooking b').
      repeat (split; [first [reflexivity|assumption|exact T|exact F]|]).
      exact K'.
    + apply HandlerExtras.addPayment_throw_state in A. subst b'.
      split; [intros a H; discriminate H|reflexivity].
  - match goal with
    | |- context [Hiring.processPayment now rnd ?pd hiring] => set (data := pd)
    end.
    destruct (Hiring.processPayment now rnd data hiring) as [[res|m] h'] eqn:A.
    + split; [|intro N; exfalso; eapply N; reflexivity].
      intros a H. simpl in H. inversion H; subst a. clear H.
      assert (0 < Hiring.pd_amount data) as P.
      { destruct (Qlt_le_dec 0 (Hiring.pd_amount data)) as [L|L];
          [exact L|exfalso].
        unfold Hiring.processPayment in A.
        assert (negb (JS.truthy (Hiring.pd_amount data))
                || Qle_bool (Hiring.pd_amount data) 0 = true) as B.
        { apply orb_true_iff. right. apply Qle_bool_iff. exact L. }
        rewrite B in A. discriminate A. }
      rewrite (@HiringExtras.processPayment_runs now rnd data hiring P) in A.
      inversion A as [[R S]]. clear A R.
      match goal with
      | |- context [Hiring.set_status ?st (Hiring.set_paymentStatus ?ps ?mid)] =>
          set (h1 := Hiring.set_status st (Hiring.set_paymentStatus ps mid))
      end.
      set (h2 := if Hiring.PaymentStatus_eqb (Hiring.paymentStatus h1)
                      Hiring.Paid
                    && Hiring.Status_eqb (Hiring.status h1) Hiring.Pending
                 then Hiring.set_status Hiring.Confirmed h1 else h1).
      assert (Hiring.payments h2
              = Hiring.payments hiring ++
                  [{| Hiring.amount := v_amount verification / 100;
                      Hiring.date := now;
                      Hiring.method := "Credit Card";
                      Hiring.transactionId := ref;
                      Hiring.pay_status := Hiring.EntryCompleted |}]) as PY.
      { unfold h2.
        assert (String.eqb ref "" = false) as O
          by (apply String.eqb_neq; exact RE).
        destruct (Hiring.PaymentStatus_eqb (Hiring.paymentStatus h1)
                    Hiring.Paid
                  && Hiring.Status_eqb (Hiring.status h1) Hiring.Pending);
          unfold h1, data, Hiring.or_string; simpl; rewrite ?O; reflexivity. }
      assert (Hiring.totalCost h2 = Hiring.totalCost hiring) as TC.
      { unfold h2.
        destruct (Hiring.PaymentStatus_eqb (Hiring.paymentStatus h1)
                    Hiring.Paid
                  && Hiring.Status_eqb (Hiring.status h1) Hiring.Pending);
          reflexivity. }
      assert (existingPayment ref (OfHiring h2) = true) as K'.
      { simpl. rewrite PY. apply existsb_app_last. simpl.
        apply String.eqb_refl. }
      assert (paidOf (OfHiring h2)
              == paidOf (OfHiring hiring) + v_amount verification / 100) as T.
      { simpl. unfold Hiring.totalPaid. rewrite PY.
        rewrite fold_left_app. simpl. reflexivity. }
      exists ref, (OfHiring hiring), (OfHiring h2).
      repeat (split; [first [reflexivity|assumption|exact T|exact TC]|]).
      exact K'.
    + apply hiring_processPayment_throw_state in A. subst h'.
      split; [intros a H; discriminate H|reflexivity].
Qed.

(** X23.  A payment is credited only when a reference is given, the gateway
    is configured and the gateway reports success; the amount credited is
    the verified amount in naira, it exceeds the balance left by no more
    than 0.01, and the total paid on the record goes up by it.  The
    reference is then in the ledger of the record, and another verification
    of the same reference is never credited and changes nothing.  Every
    answer other than Verified leaves the record as it was. *)
Theorem verified_payment_is_credited_once
    (now : Z) (rnd : string) (userId : option nat)
    (reference : option string) (configured : bool)
    (verification : Verification) (found : option Record_) :
  let out :=
    verifyPayment now rnd userId reference configured verification found in
  (forall a,
      fst out = Verified a ->
      exists ref r r',
        reference = Some ref /\ ref <> ""
        /\ configured = true
        /\ v_status verification = true
        /\ v_dataStatus verification = "success"
        /\ a = v_amount verification / 100
        /\ found = Some r /\ snd out = Some r'
        /\ existingPayment ref r = false
        /\ a <= dueOf r - paidOf r + (1 # 100)
        /\ paidOf r' == paidOf r + a
        /\ dueOf r' = dueOf r
        /\ existingPayment ref r' = true
        /\ forall now' rnd' userId' configured' verification',
             snd (verifyPayment now' rnd' userId' reference configured'
                    verification' (Some r')) = Some r'
             /\ forall a',
                  fst (verifyPayment now' rnd' userId' reference configured'
                         verification' (Some r')) <> Verified a')
  /\ ((forall a, fst out <> Verified a) -> snd out = found).
Proof.
  intro out. subst out.
  destruct (@verifyPayment_verified now rnd userId reference configured
              verification found) as [V U].
  split; [|exact U].
  intros a H.
  destruct (V a H)
    as (ref & r & r' & E1 & E2 & E3 & E4 & E5 & E6 & E7 & E8 & E9 & E10
        & E11 & E12 & K).
  exists ref, r, r'.
  repeat (split; [assumption|]).
  intros. apply verifyPayment_known with (ref := ref); assumption.
Qed.

Lemma verified_payment_is_credited_once_witness :
  exists r',
    snd (verifyPayment 1736000000000 "AB12CD34" (Some 7%nat) (Some "T2") true
           Examples.verifiedT1 (Some (OfHiring Examples.hiringT1)))
    = Some r'
    /\ paidOf r' == paidOf (OfHiring Examples.hiringT1) + 50.
Proof.
  edestruct (proj1 (@verified_payment_is_credited_once 1736000000000
                      "AB12CD34" (Some 7%nat) (Some "T2") true
                      Examples.verifiedT1
                      (Some (OfHiring Examples.hiringT1))))
    as (ref & r & r' & _ & _ & _ & _ & _ & _ & F & S & _ & _ & T & _).
  - vm_compute. reflexivity.
  - inversion F; subst r. exists r'. split; [exact S|].
    rewrite T. reflexivity.
Defined.

End VerifyExtras.

(* ===================================================================== *)
(** ** Cancellations through the status of a booking *)
(* ===================================================================== *)

Module BookingStatusExtras.

Import Booking Spec.

(** What [updateStatus] does for Cancelled and Refunded when the refund is
    positive. *)
Lemma updateStatus_cancels (now : Z) (rnd reason : string) (s : Status)
    (this : Booking) :
  s = Cancelled \/ s = Refunded ->
  let amount :=
    JS.round2 (getTotalPaid this
               * refundPercentage (hoursToDeparture now this)) in
  0 < amount ->
  updateStatus now rnd s reason this =
    (Return {| sc_success := true; oldStatus := status this;
               newStatus := s |},
     updatePaymentMetadata now
       (updatePaymentStatus
          (set_refunds
             (refunds this ++ [cancellationRefund now rnd reason amount])
             (set_status s this)))).
Proof.
  intros S amount P.
  pose proof (@CancellationFacts.handleCancellation_refund now rnd reason
                (set_status s this) P) as H.
  unfold updateStatus, bind, get, modify, ret.
  destruct S as [-> | ->]; simpl; rewrite H; reflexivity.
Qed.

(** X24.  Setting the status of a booking to Cancelled or Refunded through
    [updateStatus] refunds the tier's share of the total paid whenever that
    share is positive, whatever the current status and whatever was
    refunded before: the payments and the total paid stay, the total
    refunded goes up by the amount, and a later change to Cancelled or
    Refunded refunds again, the share of its own time of the same total
    paid. *)
Theorem every_cancellation_refunds_again
    (now : Z) (rnd reason : string) (s : Status) (this : Booking) :
  s = Cancelled \/ s = Refunded ->
  let share (at_ : Z) :=
    JS.round2 (getTotalPaid this
               * refundPercentage (hoursToDeparture at_ this)) in
  0 < share now ->
  let out := updateStatus now rnd s reason this in
  fst out = Return {| sc_success := true; oldStatus := status this;
                      newStatus := s |}
  /\ status (snd out) = s
  /\ refunds (snd out)
     = refunds this ++ [cancellationRefund now rnd reason (share now)]
  /\ payments (snd out) = payments this
  /\ getTotalPaid (snd out) = getTotalPaid this
  /\ getTotalRefunded (snd out) == getTotalRefunded this + share now
  /\ forall now' rnd' reason' s',
       s' = Cancelled \/ s' = Refunded -> 0 < share now' ->
       getTotalRefunded (snd (updateStatus now' rnd' s' reason' (snd out)))
       == getTotalRefunded this + share now + share now'.
Proof.
  intros S share P out.
  assert (forall (at_ : Z) (t : Status) (r e : string) (b : Booking) (a : Q),
             t = Cancelled \/ t = Refunded ->
             let b' :=
               updatePaymentMetadata at_
                 (updatePaymentStatus
                    (set_refunds
                       (refunds b ++ [cancellationRefund at_ r e a])
                       (set_status t b))) in
             status b' = t
             /\ refunds b' = refunds b ++ [cancellationRefund at_ r e a]
             /\ payments b' = payments b
             /\ departureDate b' = departureDate b
             /\ getTotalRefunded b' == getTotalRefunded b + a) as shape.
  { intros at_ t r e b a T b'. subst b'.
    change (status (updatePaymentMetadata at_ ?x)) with (status x).
    change (refunds (updatePaymentMetadata at_ ?x)) with (refunds x).
    change (payments (updatePaymentMetadata at_ ?x)) with (payments x).
    change (departureDate (updatePaymentMetadata at_ ?x))
      with (departureDate x).
    rewrite LedgerExtras.updatePaymentStatus_status.
    rewrite LedgerFacts.updatePaymentStatus_refunds.
    rewrite LedgerFacts.updatePaymentStatus_payments.
    split.
    { simpl status. destruct T as [-> | ->]; simpl;
        rewrite andb_false_r; reflexivity. }
    split; [reflexivity|]. split; [reflexivity|].
    split.
    { unfold updatePaymentStatus.
      repeat match goal with
        | |- context [if ?c then _ else _] => destruct c
        end; reflexivity. }
    rewrite !LedgerFacts.getTotalRefunded_sum.
    change (refunds (updatePaymentMetadata at_ ?x)) with (refunds x).
    rewrite LedgerFacts.updatePaymentStatus_refunds. simpl refunds.
    rewrite LedgerExtras.sumCompletedRefunds_app. simpl. ring. }
  subst out. rewrite (@updateStatus_cancels now rnd reason s this S P).
  fold (share now).
  destruct (shape now s rnd reason this (share now) S)
    as (S1 & S2 & S3 & S4 & S5).
  set (this' := updatePaymentMetadata now
                  (updatePaymentStatus
                     (set_refunds
                        (refunds this
                         ++ [cancellationRefund now rnd reason (share now)])
                        (set_status s this)))) in *.
  assert (getTotalPaid this' = getTotalPaid this) as TP
    by (apply LedgerFacts.getTotalPaid_payments; exact S3).
  simpl fst. simpl snd.
  split; [reflexivity|]. split; [exact S1|]. split; [exact S2|].
  split; [exact S3|]. split; [exact TP|]. split; [exact S5|].
  intros now' rnd' reason' s' S' Q.
  assert (JS.round2 (getTotalPaid this'
                     * refundPercentage (hoursToDeparture now' this'))
          = share now') as A.
  { unfold share, hoursToDeparture. rewrite TP, S4. reflexivity. }
  assert (0 < JS.round2 (getTotalPaid this'
                         * refundPercentage (hoursToDeparture now' this')))
    as P' by (rewrite A; exact Q).
  rewrite (@updateStatus_cancels now' rnd' reason' s' this' S' P').
  rewrite A.
  destruct (shape now' s' rnd' reason' this' (share now') S')
    as (_ & _ & _ & _ & R).
  etransitivity; [exact R|]. rewrite S5. ring.
Qed.

Lemma every_cancellation_refunds_again_witness :
  getTotalRefunded
    (snd (updateStatus Examples.hours72Before "CD34EF56" Refunded ""
            (snd (updateStatus Examples.hours100Before "AB12CD34" Cancelled
                    "" Examples.paidBooking))))
  == getTotalRefunded Examples.paidBooking + 100 + 75.
Proof.
  rewrite (proj2 (proj2 (proj2 (proj2 (proj2 (proj2
            (@every_cancellation_refunds_again Examples.hours100Before
               "AB12CD34" "" Cancelled Examples.paidBooking
               (or_introl eq_refl) eq_refl))))))
            Examples.hours72Before "CD34EF56" "" Refunded
            (or_intror eq_refl) eq_refl).
  reflexivity.
Defined.

End BookingStatusExtras.

(* ===================================================================== *)
(** ** Tickets *)
(* ===================================================================== *)

Module TicketExtras.

Import TicketController Notions.

Lemma startOfDay_bounds (timezoneOffset d : Z) :
  (d - 86400000 < Booking.startOfDay timezoneOffset d <= d)%Z.
Proof.
  unfold Booking.startOfDay.
  pose proof (Z.mod_pos_bound (d + timezoneOffset) 86400000) as B. lia.
Qed.

(** X25.  A ticket is valid exactly when it has not expired, the record is
    Paid, and its status is Confirmed or Completed; an earlier verification
    never makes it invalid.  Expiry is checked first, and is counted from
    the local midnight of the day of the scan: a ticket is never expired
    within 24 hours after the travel date, and always more than 48 hours
    after it. *)
Theorem ticket_validity (timezoneOffset now : Z) (record : TicketRecord) :
  let answer := validateTicketStatus timezoneOffset now record in
  (reason answer = Expired <->
   (travelDate record
    < Booking.startOfDay timezoneOffset now - 86400000)%Z)
  /\ ((now - 86400000 <= travelDate record)%Z -> reason answer <> Expired)
  /\ ((travelDate record < now - 172800000)%Z ->
      valid answer = false /\ reason answer = Expired)
  /\ (valid answer = true <->
      reason answer <> Expired
      /\ isPaid record = true /\ isConfirmedOrCompleted record = true)
  /\ (valid answer = true <->
      reason answer = Valid \/ reason answer = AlreadyVerified)
  /\ (alreadyUsed answer = Some true <-> reason answer = AlreadyVerified).
Proof.
  intro answer. subst answer. unfold validateTicketStatus.
  pose proof (startOfDay_bounds timezoneOffset now) as B.
  change (24 * 60 * 60 * 1000)%Z with 86400000%Z.
  destruct (travelDate record
            <? Booking.startOfDay timezoneOffset now - 86400000)%Z eqn:E.
  - apply Z.ltb_lt in E. simpl.
    repeat split; try (intros; assumption); try reflexivity;
      try (intros; lia); try discriminate;
      try (intros [H _]; exfalso; apply H; reflexivity);
      try (intros [H|H]; discriminate H);
      try (intros H _; lia).
  - apply Z.ltb_ge in E.
    destruct (isPaid record); simpl;
      [destruct (isConfirmedOrCompleted record); simpl|].
    + destruct (0 <? Z.of_nat (List.length (verificationsOf record)))%Z;
        [destruct (last (map Some (verificationsOf record)) None) as [v|];
         [destruct (result v)|]|];
        simpl;
        repeat split; try (intros; assumption); try reflexivity;
        try (intros; lia); try discriminate;
        try (intros; exfalso; lia);
        try (intros; left; reflexivity);
        try (intros; right; reflexivity);
        try (intros [H|H]; discriminate H).
    + repeat split; try (intros; assumption); try reflexivity;
        try (intros; lia); try discriminate;
        try (intros; exfalso; lia);
        try (intros (_ & _ & H); discriminate H);
        try (intros [H|H]; discriminate H).
    + repeat split; try (intros; assumption); try reflexivity;
        try (intros; lia); try discriminate;
        try (intros; exfalso; lia);
        try (intros (_ & H & _); discriminate H);
        try (intros [H|H]; discriminate H).
Qed.

Lemma ticket_validity_witness :
  reason (validateTicketStatus 3600000 Examples.hours18Before
            Samples.freshTicket) <> Expired.
Proof.
  apply (proj1 (proj2 (@ticket_validity 3600000 Examples.hours18Before
                         Samples.freshTicket))).
  vm_compute. intro H; discriminate H.
Defined.

Lemma valid_usable (timezoneOffset now : Z) (record : TicketRecord) :
  valid (validateTicketStatus timezoneOffset now record)
  = usable timezoneOffset now record.
Proof.
  unfold validateTicketStatus, usable.
  change (24 * 60 * 60 * 1000)%Z with 86400000%Z.
  destruct (travelDate record
            <? Booking.startOfDay timezoneOffset now - 86400000)%Z;
    [reflexivity|].
  destruct (isPaid record); [|reflexivity].
  destruct (isConfirmedOrCompleted record); [|reflexivity].
  destruct (0 <? Z.of_nat (List.length (verificationsOf record)))%Z;
    [|reflexivity].
  destruct (last (map Some (verificationsOf record)) None) as [v|];
    [destruct (result v)|]; reflexivity.
Qed.









End TicketExtras.

(* ===================================================================== *)
(** ** More on the fare of a booking *)
(* ===================================================================== *)

Module FareExtras.

Import Booking Spec.

Lemma getHours_weekly (timezoneOffset d k : Z) :
  getHours timezoneOffset (d + k * 604800000) = getHours timezoneOffset d.
Proof.
  unfold getHours.
  replace (d + k * 604800000 + timezoneOffset)%Z
    with (d + timezoneOffset + (k * 168) * 3600000)%Z by lia.
  rewrite Z.div_add by lia.
  replace (k * 168)%Z with ((k * 7) * 24)%Z by lia.
  apply Z.mod_add. lia.
Qed.

Lemma getDay_weekly (timezoneOffset d k : Z) :
  getDay timezoneOffset (d + k * 604800000) = getDay timezoneOffset d.
Proof.
  unfold getDay.
  replace (d + k * 604800000 + timezoneOffset)%Z
    with (d + timezoneOffset + (k * 7) * 86400000)%Z by lia.
  rewrite Z.div_add by lia.
  replace ((d + timezoneOffset) / 86400000 + k * 7 + 4)%Z
    with ((d + timezoneOffset) / 86400000 + 4 + k * 7)%Z by lia.
  apply Z.mod_add. lia.
Qed.

(** X28.  The fare reads the departure only through the local hour and the
    day of the week: two bookings with the same route, passengers, booking
    type and discount, whose departures are a whole number of weeks apart,
    get the same fare, or both fail for the route. *)
Theorem fare_repeats_weekly
    (timezoneOffset : Z) (findRoute : nat -> option Route.Route)
    (calculateFare : Route.Route -> Route.FareOptions -> Q)
    (this this' : Booking) (k : Z) :
  route this' = route this ->
  passengers this' = passengers this ->
  bookingType this' = bookingType this ->
  discountApplied this' = discountApplied this ->
  departureDate this' = (departureDate this + k * 604800000)%Z ->
  fst (calculateTotalFare timezoneOffset findRoute calculateFare this')
  = fst (calculateTotalFare timezoneOffset findRoute calculateFare this).
Proof.
  intros R P T D W.
  unfold calculateTotalFare, bind, get. rewrite R.
  destruct (findRoute (route this)) as [r|]; [|reflexivity].
  unfold modify, ret. simpl.
  unfold unroundedFare, passengersFare, _isPeakTime, _isWeekend.
  rewrite P, T, D, W, getHours_weekly, getDay_weekly. reflexivity.
Qed.

Lemma fare_repeats_weekly_witness :
  fst (calculateTotalFare 3600000 (fun _ => Some Examples.route5)
         (fun r _ => Route.baseFare r)
         (Notions.withDeparture (Examples.departure + 2 * 604800000)%Z
            Examples.unpaidBooking))
  = fst (calculateTotalFare 3600000 (fun _ => Some Examples.route5)
           (fun r _ => Route.baseFare r) Examples.unpaidBooking).
Proof.
  apply (@fare_repeats_weekly 3600000 (fun _ => Some Examples.route5)
           (fun r _ => Route.baseFare r) Examples.unpaidBooking
           (Notions.withDeparture (Examples.departure + 2 * 604800000)%Z
              Examples.unpaidBooking) 2);
    reflexivity.
Defined.

(** X29.  [calculateTotalFare] works from the route, the passengers, the
    booking type and the discount alone: when the route is not found it
    throws and leaves the booking as it was; otherwise it stores the fare
    it returns in [totalFare], and running it again on the result returns
    the same fare and changes nothing. *)
Theorem fare_is_recomputed_from_scratch
    (timezoneOffset : Z) (findRoute : nat -> option Route.Route)
    (calculateFare : Route.Route -> Route.FareOptions -> Q)
    (this : Booking) :
  (findRoute (route this) = None ->
   calculateTotalFare timezoneOffset findRoute calculateFare this
   = (Throw "Route not found", this))
  /\ (forall r, findRoute (route this) = Some r ->
      exists fare,
        calculateTotalFare timezoneOffset findRoute calculateFare this
        = (Return fare, set_totalFare fare this)
        /\ calculateTotalFare timezoneOffset findRoute calculateFare
             (set_totalFare fare this)
           = (Return fare, set_totalFare fare this)).
Proof.
  split.
  - intro N. unfold calculateTotalFare, bind, get. rewrite N. reflexivity.
  - intros r F. eexists. split.
    + apply (FareFacts.calculateTotalFare_runs timezoneOffset findRoute
               calculateFare this F).
    + rewrite (FareFacts.calculateTotalFare_runs timezoneOffset findRoute
                 calculateFare (set_totalFare _ this) F).
      reflexivity.
Qed.

Lemma fare_is_recomputed_from_scratch_witness :
  calculateTotalFare 3600000 (fun _ => None) (fun r _ => Route.baseFare r)
    Examples.unpaidBooking
  = (Throw "Route not found", Examples.unpaidBooking).
Proof.
  apply (proj1 (@fare_is_recomputed_from_scratch 3600000 (fun _ => None)
                  (fun r _ => Route.baseFare r) Examples.unpaidBooking)).
  reflexivity.
Defined.

End FareExtras.
